(** * Metro signage backend: feed normalisation, poller and broadcaster

    A shallow embedding of the two backends of the repository,

    - [metro_signage_structure_A/backend/main.py] (Golemio departure boards,
      JSON), and
    - [metro_signage_structure_C/backend/main.py] (GTFS-realtime, protobuf),

    and of the scripts beside them ([mock_feed.py] of both structures,
    [test_gtfs.py] of structure C), followed by the properties of the
    ingestion pipeline, of the endpoints and of the scripts.

    Conventions of the embedding.
    - A Python [str] is the list of its code points ([pystr]).
    - A decoded JSON document is a [json] value; a [dict] is an association
      list in insertion order whose keys are unique.
    - An exception is an [Raise] result; [try]/[except] turns it into a value.
    - Clock readings ([_utc_now()], [utcnow()]) are arguments: one argument per
      call site of the clock.
    - Instants and durations are exact integers (microseconds for [datetime],
      seconds for epoch stamps).  Where Python leaves the integers, in
      [total_seconds() // 60] and in [(a - b) / 60], the quotient is the
      nearest binary64 number ([true_divide]); the comparison of
      [_is_online] stays on the integers, with which binary64 agrees as long
      as the difference stays below 2^33 seconds.
    - What the standard library does to text and to ISO-8601 strings
      ([str.strip], [str.upper], [repr], [datetime.fromisoformat],
      [datetime.isoformat]) is the interface [PyRuntime], what [int()] makes
      of a text or a float the interface [PyNumbers]; every theorem holds
      for each of their implementations.
    - The module [random] is a supply of raw draws with a cursor ([Rng]);
      each call of [randint], [choice] or a draw of [sample] takes one. *)

From Stdlib Require Import String Ascii.
From Stdlib Require Import ZArith NArith List Bool Lia.
From Stdlib Require Import Sorting.Sorted Sorting.Permutation.
From Stdlib Require Import Floats.PrimFloat DecimalString.
Import ListNotations.
Local Open Scope Z_scope.

(* ------------------------------------------------------------------ *)
(** ** Python text *)

Definition pystr := list N.

(** Code points of a literal written in UTF-8. *)
Fixpoint utf8_go (pending : nat) (acc : N) (bs : list N) : pystr :=
  match bs with
  | [] => []
  | b :: bs' =>
      match pending with
      | O =>
          if (b <? 128)%N then b :: utf8_go 0 0%N bs'
          else if (b <? 224)%N then utf8_go 1 (b - 192)%N bs'
          else if (b <? 240)%N then utf8_go 2 (b - 224)%N bs'
          else utf8_go 3 (b - 240)%N bs'
      | S O => (acc * 64 + (b - 128))%N :: utf8_go 0 0%N bs'
      | S p => utf8_go p (acc * 64 + (b - 128))%N bs'
      end
  end.

Definition py (s : string) : pystr :=
  utf8_go 0 0%N (map N_of_ascii (list_ascii_of_string s)).

Definition pystr_eq_dec (a b : pystr) : {a = b} + {a <> b} :=
  list_eq_dec N.eq_dec a b.

Definition str_eqb (a b : pystr) : bool :=
  if pystr_eq_dec a b then true else false.

(** [a <= b] on [str]: lexicographic on code points. *)
Fixpoint str_leb (a b : pystr) : bool :=
  match a, b with
  | [], _ => true
  | _ :: _, [] => false
  | x :: a', y :: b' =>
      if (x <? y)%N then true
      else if (x =? y)%N then str_leb a' b'
      else false
  end.

(** [s.replace(c, by)] for a pattern [c] of one character. *)
Definition str_replace (c : N) (by_ : pystr) (s : pystr) : pystr :=
  flat_map (fun x => if (x =? c)%N then by_ else [x]) s.

(** [s[:n]]. *)
Definition str_prefix (n : nat) (s : pystr) : pystr := firstn n s.

(* ------------------------------------------------------------------ *)
(** ** Exceptions *)

Inductive exn := AttributeError | TypeError | OverflowError.

Inductive result (A : Type) :=
| Ok (a : A)
| Raise (e : exn).
Arguments Ok {A} a.
Arguments Raise {A} e.

Definition bind {A B} (r : result A) (k : A -> result B) : result B :=
  match r with
  | Ok a => k a
  | Raise e => Raise e
  end.

Notation "x <- r ;; k" := (bind r (fun x => k))
  (at level 61, r at next level, right associativity).

(** [try: ... except Exception: return None]. *)
Definition except_none {A} (r : result A) : option A :=
  match r with
  | Ok a => Some a
  | Raise _ => None
  end.

(* ------------------------------------------------------------------ *)
(** ** JSON values as [json.loads] builds them *)

#[warnings="-register-all"]
Inductive json :=
| JNull
| JBool (b : bool)
| JInt (n : Z)
| JFloat (f : float)
| JStr (s : pystr)
| JArr (l : list json)
| JObj (m : list (pystr * json)).

(** [bool(v)]. *)
Definition truthy (v : json) : bool :=
  match v with
  | JNull => false
  | JBool b => b
  | JInt n => negb (n =? 0)
  | JFloat f => negb (PrimFloat.eqb f 0%float)
  | JStr s => match s with [] => false | _ => true end
  | JArr l => match l with [] => false | _ => true end
  | JObj m => match m with [] => false | _ => true end
  end.

(** [a or b]. *)
Definition py_or (a b : json) : json := if truthy a then a else b.

Fixpoint assoc (k : pystr) (m : list (pystr * json)) : option json :=
  match m with
  | [] => None
  | (k', v) :: m' => if str_eqb k k' then Some v else assoc k m'
  end.

(** [v.get(k, d)]; only a [dict] has the method. *)
Definition dict_get_default (v : json) (k : pystr) (d : json) : result json :=
  match v with
  | JObj m => Ok (match assoc k m with Some x => x | None => d end)
  | _ => Raise AttributeError
  end.

(** [v.get(k)]. *)
Definition dict_get (v : json) (k : pystr) : result json :=
  dict_get_default v k JNull.

(** The items a [for] loop draws from [v]. *)
Definition py_iter (v : json) : result (list json) :=
  match v with
  | JArr l => Ok l
  | JStr s => Ok (map (fun c => JStr [c]) s)
  | JObj m => Ok (map (fun kv => JStr (fst kv)) m)
  | _ => Raise TypeError
  end.

(** A [dict] literal with the given keys, and a [str] value. *)
Definition json_object (fields : list (string * json)) : json :=
  JObj (map (fun kv => (py (fst kv), snd kv)) fields).

Definition json_text (s : string) : json := JStr (py s).

(** The payload [{"departures": entries}]. *)
Definition departure_board (entries : list json) : json :=
  JObj [(py "departures", JArr entries)].

(* ------------------------------------------------------------------ *)
(** ** Date and time *)

(** A [datetime]: its wall-clock reading, in microseconds counted from
    1970-01-01T00:00:00, and the offset of its zone ([None] when naive). *)
Record datetime := { wall : Z; utcoffset : option Z }.

(** An instant on the UTC time line, in microseconds since the epoch. *)
Definition instant := Z.

Definition US_PER_SECOND : Z := 1000000.
(** [datetime.min] and [datetime.max]. *)
Definition DATETIME_MIN : Z := -62135596800 * US_PER_SECOND.
Definition DATETIME_MAX : Z := 253402300799 * US_PER_SECOND + 999999.

Definition aware_utc (t : instant) : datetime :=
  {| wall := t; utcoffset := Some 0 |}.

(** [d.astimezone(timezone.utc)] of an aware [d]: the reading moves back by
    the offset and has to stay within [datetime.min .. datetime.max]. *)
Definition astimezone_utc (d : datetime) : result instant :=
  let t := wall d - match utcoffset d with Some o => o | None => 0 end in
  if (DATETIME_MIN <=? t) && (t <=? DATETIME_MAX) then Ok t
  else Raise OverflowError.

(* ------------------------------------------------------------------ *)
(** ** binary64 quotients *)

(** A finite [float]: the number [mant * 2 ^ expo]. *)
Record binary64 := { mant : Z; expo : Z }.

(** The integer nearest to [num / den], the even one on a tie. *)
Definition round_half_even (num den : Z) : Z :=
  let q := num / den in
  let r := num mod den in
  if 2 * r <? den then q
  else if den <? 2 * r then q + 1
  else if Z.even q then q else q + 1.

(** The exponent of the last of the 53 bits of [a / b], for positive [a] and
    [b]: the [e] with [2 ^ 52 <= a / (b * 2 ^ e) < 2 ^ 53]. *)
Definition ulp_exponent (a b : Z) : Z :=
  let l := Z.log2 a - Z.log2 b in
  (if a * 2 ^ Z.max 0 (- l) <? b * 2 ^ Z.max 0 l then l - 1 else l) - 52.

(** [a / b] of two [int], [b] positive: the quotient rounded once, to the
    nearest binary64, ties to even.  The quotients of the backends stay
    far from the subnormal numbers and from overflow. *)
Definition true_divide (a b : Z) : binary64 :=
  match a with
  | 0 => {| mant := 0; expo := 0 |}
  | _ =>
      let e := ulp_exponent (Z.abs a) b in
      let m := round_half_even (Z.abs a * 2 ^ Z.max 0 (- e))
                 (b * 2 ^ Z.max 0 e) in
      {| mant := Z.sgn a * m; expo := e |}
  end.

(** [int(x // c)] for a positive [int] [c]: the floor of [x / c], which
    float floor division gets exactly while it is below 2^53. *)
Definition float_floordiv (x : binary64) (c : Z) : Z :=
  (mant x * 2 ^ Z.max 0 (expo x)) / (c * 2 ^ Z.max 0 (- expo x)).

(** [int(x)]: towards zero. *)
Definition float_int (x : binary64) : Z :=
  Z.quot (mant x * 2 ^ Z.max 0 (expo x)) (2 ^ Z.max 0 (- expo x)).

(** [timedelta.total_seconds()] of a difference of [us] microseconds. *)
Definition total_seconds (us : Z) : binary64 := true_divide us US_PER_SECOND.

(** The part of the standard library the backends call. *)
Class PyRuntime := {
  str_strip : pystr -> pystr;
  str_upper : pystr -> pystr;
  (** [str(v)] of a value that is not itself a [str]. *)
  repr : json -> pystr;
  (** [None] stands for [ValueError]. *)
  fromisoformat : pystr -> option datetime;
  isoformat : datetime -> pystr
}.

(* ------------------------------------------------------------------ *)
(** ** [list.sort] and [sorted]: a stable sort *)

Section StableSort.
Context {A : Type} (leb : A -> A -> bool).

Fixpoint insert (x : A) (l : list A) : list A :=
  match l with
  | [] => [x]
  | y :: l' => if leb x y then x :: l else y :: insert x l'
  end.

(** Stable: an element goes in front of the later ones it ties with. *)
Fixpoint stable_sort (l : list A) : list A :=
  match l with
  | [] => []
  | x :: l' => insert x (stable_sort l')
  end.

End StableSort.

(* ------------------------------------------------------------------ *)
(** ** The canonical departure record *)

(** The [dict] both parsers build: keys [line], [dest], [in_min] and, in
    structure A only, [t_utc]. *)
Record Departure := {
  line : pystr;
  dest : pystr;
  in_min : Z;
  t_utc : option pystr
}.

(** The record as the JSON object [send_json] serialises. *)
Definition departure_json (d : Departure) : json :=
  JObj ([(py "line", JStr (line d));
         (py "dest", JStr (dest d));
         (py "in_min", JInt (in_min d))]
        ++ match t_utc d with
           | Some s => [(py "t_utc", JStr s)]
           | None => []
           end).

(** [key=lambda x: (x["in_min"], x["dest"])]: tuples compare
    lexicographically. *)
Definition by_minutes_then_dest (a b : Departure) : bool :=
  (in_min a <? in_min b)
  || ((in_min a =? in_min b) && str_leb (dest a) (dest b)).

(** [key=lambda x: x["in_min"]]. *)
Definition by_minutes (a b : Departure) : bool := in_min a <=? in_min b.

(* ------------------------------------------------------------------ *)
(** ** Structure A: Golemio departure boards *)

Module StructureA.
Section WithRuntime.
Context {RT : PyRuntime}.

Definition METRO_LINE : pystr := py "A".
Definition PLACEHOLDER : pystr := py "—".

(** The part of the environment the pipeline reads. *)
Record Config := {
  API_KEY : pystr;
  STOP_NAMES : list pystr;
  OFFLINE_AFTER_SECONDS : Z
}.

(** [str(v)]. *)
Definition py_str (v : json) : pystr :=
  match v with
  | JStr s => s
  | _ => repr v
  end.

Definition _parse_iso (s : json) : result (option instant) :=
  if negb (truthy s) then Ok None
  else
    match s with
    | JStr s =>
        let s := str_replace 90%N (py "+00:00") s in
        match fromisoformat s with
        | None => Ok None
        | Some d =>
            let d :=
              match utcoffset d with
              | None => {| wall := wall d; utcoffset := Some 0 |}
              | Some _ => d
              end in
            t <- astimezone_utc d ;;
            Ok (Some t)
        end
    | _ => Raise AttributeError
    end.

Definition _minutes_until (ts_utc : option instant) (now_utc : instant)
  : option Z :=
  match ts_utc with
  | None => None
  | Some ts =>
      Some (Z.max 0 (float_floordiv (total_seconds (ts - now_utc)) 60))
  end.

(** [line = str(route.get("short_name") or "").strip().upper()]. *)
Definition entry_line (route : json) : result pystr :=
  short_name <- dict_get route (py "short_name") ;;
  Ok (str_upper (str_strip (py_str (py_or short_name (JStr []))))).

(** [dest = str(trip.get("headsign") or last_stop.get("name") or "—").strip()
    or "—"]; the second [get] runs only when the first gave nothing. *)
Definition entry_dest (trip last_stop : json) : result pystr :=
  headsign <- dict_get trip (py "headsign") ;;
  d <- (if truthy headsign then Ok headsign
        else
          name <- dict_get last_stop (py "name") ;;
          Ok (py_or name (JStr PLACEHOLDER))) ;;
  let s := str_strip (py_str d) in
  Ok (match s with [] => PLACEHOLDER | _ => s end).

(** [predicted], [scheduled] and [used = predicted or scheduled]. *)
Definition entry_used (ts : json) : result (option instant) :=
  p <- dict_get ts (py "predicted") ;;
  predicted <- _parse_iso p ;;
  s <- dict_get ts (py "scheduled") ;;
  scheduled <- _parse_iso s ;;
  Ok (match predicted with
      | Some t => Some t
      | None => scheduled
      end).

(** One turn of the loop: [None] is [continue], [Some r] is
    [out.append(r)]. *)
Definition normalize_entry (metro_line : pystr) (now : instant) (dep : json)
  : result (option Departure) :=
  route <- dict_get dep (py "route") ;;
  let route := py_or route (JObj []) in
  trip <- dict_get dep (py "trip") ;;
  let trip := py_or trip (JObj []) in
  last_stop <- dict_get dep (py "last_stop") ;;
  let last_stop := py_or last_stop (JObj []) in
  ts <- dict_get dep (py "departure_timestamp") ;;
  let ts := py_or ts (JObj []) in
  line <- entry_line route ;;
  if negb (str_eqb line metro_line) then Ok None
  else
    dest <- entry_dest trip last_stop ;;
    used <- entry_used ts ;;
    match used, _minutes_until used now with
    | Some t, Some m =>
        Ok (Some {| line := metro_line; dest := dest; in_min := m;
                    t_utc := Some (isoformat (aware_utc t)) |})
    | _, _ => Ok None
    end.

(** The loop: records in the order of the entries; the first exception
    ends it. *)
Fixpoint normalize_loop (metro_line : pystr) (now : instant)
  (deps : list json) : result (list Departure) :=
  match deps with
  | [] => Ok []
  | dep :: deps' =>
      r <- normalize_entry metro_line now dep ;;
      out <- normalize_loop metro_line now deps' ;;
      Ok (match r with Some d => d :: out | None => out end)
  end.

(** What the loop runs over: [payload.get("departures", []) or []]. *)
Definition payload_departures (payload : json) : result (list json) :=
  departures <- dict_get_default payload (py "departures") (JArr []) ;;
  py_iter (py_or departures (JArr [])).

(** [now] is the one reading of [_utc_now()] the call makes. *)
Definition normalize_departureboards (payload : json) (metro_line : pystr)
  (now : instant) : result (list Departure) :=
  let metro_line := str_upper (str_strip metro_line) in
  deps <- payload_departures payload ;;
  out <- normalize_loop metro_line now deps ;;
  Ok (stable_sort by_minutes_then_dest out).

(** What [client.get], [raise_for_status] and [r.json()] come to. *)
Inductive Upstream :=
| RequestFailed
| ErrorStatus
| BodyNotJson
| Body (payload : json).

Definition fetch_golemio_departures (cfg : Config) (up : Upstream)
  (now : instant) : option (list Departure) :=
  match API_KEY cfg with
  | [] => None
  | _ =>
      match up with
      | Body payload =>
          except_none (normalize_departureboards payload METRO_LINE now)
      | _ => None
      end
  end.

(** The module globals the poller writes. *)
Record Store := {
  LATEST_DEPARTURES : list Departure;
  LAST_OK_UTC : option instant
}.

Definition initial_store : Store :=
  {| LATEST_DEPARTURES := []; LAST_OK_UTC := None |}.

Definition _is_online (cfg : Config) (st : Store) (now : instant) : bool :=
  match LAST_OK_UTC st with
  | None => false
  | Some t => now - t <=? OFFLINE_AFTER_SECONDS cfg * US_PER_SECOND
  end.

(** [api_status]; [now] is the clock [_is_online] reads, [now'] the one of
    [time_utc]. *)
Definition api_status (cfg : Config) (st : Store) (now now' : instant)
  : json :=
  JObj [(py "ok", JBool true);
        (py "online", JBool (_is_online cfg st now));
        (py "line", JStr METRO_LINE);
        (py "stops", JArr (map JStr (STOP_NAMES cfg)));
        (py "last_ok_utc",
         match LAST_OK_UTC st with
         | Some t => JStr (isoformat (aware_utc t))
         | None => JNull
         end);
        (py "time_utc", JStr (isoformat (aware_utc now')))].

(** One cycle of [poller_loop]: what upstream answers, the clock inside
    [normalize_departureboards] and the clock after the fetch. *)
Record Cycle := {
  answer : Upstream;
  fetched_at : instant;
  stored_at : instant
}.

Definition poller_cycle (cfg : Config) (st : Store) (c : Cycle) : Store :=
  match fetch_golemio_departures cfg (answer c) (fetched_at c) with
  | Some deps => {| LATEST_DEPARTURES := deps;
                    LAST_OK_UTC := Some (stored_at c) |}
  | None => st
  end.

(** The first cycles of [poller_loop]. *)
Definition poller_loop (cfg : Config) (cycles : list Cycle) (st : Store)
  : Store :=
  fold_left (poller_cycle cfg) cycles st.

(** The list one turn of [ws_updates] sends. *)
Definition ws_departures (st : Store) (now : pystr) : list Departure :=
  let departures :=
    match LATEST_DEPARTURES st with
    | [] => []
    | _ :: _ => firstn 20 (LATEST_DEPARTURES st)
    end in
  match departures with
  | [] => [{| line := METRO_LINE; dest := PLACEHOLDER; in_min := 0;
              t_utc := Some now |}]
  | _ :: _ => departures
  end.

(** The message one turn of the loop of [ws_updates] sends; [now] is the
    clock at the top of the turn, [now'] the one [_is_online] reads. *)
Definition ws_updates (cfg : Config) (st : Store) (now now' : instant)
  : json :=
  let now_s := isoformat (aware_utc now) in
  JObj [(py "t", JStr now_s);
        (py "departures", JArr (map departure_json (ws_departures st now_s)));
        (py "online", JBool (_is_online cfg st now'))].

End WithRuntime.
End StructureA.

(* ------------------------------------------------------------------ *)
(** ** Structure C: GTFS-realtime *)

Module StructureC.

(** The fields of the decoded [FeedMessage] the parser reads.  An unset
    [int64] reads as 0, an unset [string] as the empty string. *)
Record StopTimeEvent := { time : Z }.
Record StopTimeUpdate := { arrival : option StopTimeEvent }.
(** [trip_headsign] is [None] where the binding has no such attribute. *)
Record TripDescriptor := {
  route_id : pystr;
  trip_headsign : option pystr
}.
Record TripUpdate := {
  trip : TripDescriptor;
  stop_time_update : list StopTimeUpdate
}.
Record FeedEntity := { trip_update : option TripUpdate }.
Record FeedMessage := { entity : list FeedEntity }.

Definition UNKNOWN : pystr := py "?".

(** [a or b] on [str]. *)
Definition str_or (a b : pystr) : pystr :=
  match a with [] => b | _ :: _ => a end.

(** The time zone of the host: the offset from UTC, in seconds, that its
    rules give to a wall-clock reading. *)
Definition HostZone := Z -> Z.

(** [int(datetime.datetime.utcnow().timestamp())] while the clock stands at
    [clock] seconds since the epoch: [utcnow()] is the naive UTC reading,
    and [timestamp()] takes a naive reading for local time. *)
Definition utcnow_timestamp (zone : HostZone) (clock : Z) : Z :=
  clock - zone clock.

(** The record appended for a stop-time update with arrival time
    [arrival_ts]; [now_ts] is the reading [utcnow_timestamp] gave. *)
Definition departure_of (route_id : pystr) (trip_headsign : option pystr)
  (now_ts arrival_ts : Z) : Departure :=
  let in_min := Z.max 0 (float_int (true_divide (arrival_ts - now_ts) 60)) in
  let dest :=
    match trip_headsign with
    | Some ((_ :: _) as h) => h
    | _ => str_or route_id UNKNOWN
    end in
  {| line := str_or route_id UNKNOWN; dest := dest; in_min := in_min;
     t_utc := None |}.

(** [stu.HasField("arrival") and getattr(stu.arrival, "time", None)]: the
    arrival time the update carries, a time of 0 counting as none. *)
Definition arrival_time (stu : StopTimeUpdate) : option Z :=
  match arrival stu with
  | Some ev => if time ev =? 0 then None else Some (time ev)
  | None => None
  end.

(** [for stu in tu.stop_time_update: if ...: append; break]. *)
Fixpoint first_arrival (route_id : pystr) (trip_headsign : option pystr)
  (now_ts : Z) (stus : list StopTimeUpdate) : list Departure :=
  match stus with
  | [] => []
  | stu :: rest =>
      match arrival_time stu with
      | Some arrival_ts =>
          [departure_of route_id trip_headsign now_ts arrival_ts]
      | None => first_arrival route_id trip_headsign now_ts rest
      end
  end.

(** What one entity appends to [departures]. *)
Definition entity_departures (now_ts : Z) (e : FeedEntity)
  : list Departure :=
  match trip_update e with
  | Some tu =>
      let route_id := str_prefix 10 (route_id (trip tu)) in
      first_arrival route_id (trip_headsign (trip tu)) now_ts
        (stop_time_update tu)
  | None => []
  end.

(** Lines 106-122 of [fetch_gtfs_rt]: the decoded feed to the batch;
    [now_ts] is the reading of line 107, [utcnow_timestamp] of the zone of
    the host and of the clock. *)
Definition parse_feed (feed : FeedMessage) (now_ts : Z) : list Departure :=
  firstn 50
    (stable_sort by_minutes (flat_map (entity_departures now_ts) (entity feed))).

(** What resolving and reading the locator comes to; [Content None] is a
    body [ParseFromString] rejects. *)
Inductive Source :=
| NotFound
| ReadFailed
| Content (decoded : option FeedMessage).

Definition fetch_gtfs_rt (url : pystr) (src : Source) (now_ts : Z)
  : option (list Departure) :=
  match url with
  | [] => None
  | _ :: _ =>
      match src with
      | Content (Some feed) => Some (parse_feed feed now_ts)
      | _ => None
      end
  end.

(** The module global the poller writes. *)
Record Store := { LATEST_DEPARTURES : list Departure }.

Definition initial_store : Store := {| LATEST_DEPARTURES := [] |}.

Record Cycle := { source : Source; fetched_at : Z }.

Definition poller_cycle (url : pystr) (st : Store) (c : Cycle) : Store :=
  match fetch_gtfs_rt url (source c) (fetched_at c) with
  | Some deps => {| LATEST_DEPARTURES := deps |}
  | None => st
  end.

(** The first cycles of [gtfs_poller_loop]; without a locator it returns at
    once. *)
Definition gtfs_poller_loop (GTFS_URL : pystr) (cycles : list Cycle)
  (st : Store) : Store :=
  match GTFS_URL with
  | [] => st
  | _ :: _ => fold_left (poller_cycle GTFS_URL) cycles st
  end.

(** The generator behind [random]: a supply of raw draws and a cursor. *)
Record Rng := { raw : nat -> Z; cursor : nat }.

(** [random.randint(lo, hi)]. *)
Definition randint (lo hi : Z) (g : Rng) : Z * Rng :=
  (lo + raw g (cursor g) mod (hi - lo + 1),
   {| raw := raw g; cursor := S (cursor g) |}).

Definition base_lines : list (pystr * pystr) :=
  [(py "A", py "Muzeum");
   (py "B", py "Florenc");
   (py "C", py "Hradčanská");
   (py "D", py "Hloubětín")].

(** The simulated feed: one record per base line, each with its own draw. *)
Fixpoint simulate (entries : list (pystr * pystr)) (g : Rng)
  : list Departure * Rng :=
  match entries with
  | [] => ([], g)
  | (l, d) :: rest =>
      let (m, g1) := randint 1 12 g in
      let (out, g2) := simulate rest g1 in
      ({| line := l; dest := d; in_min := m; t_utc := None |} :: out, g2)
  end.

(** The list one turn of [websocket_endpoint] sends. *)
Definition ws_departures (st : Store) (g : Rng) : list Departure * Rng :=
  match LATEST_DEPARTURES st with
  | _ :: _ => (firstn 20 (LATEST_DEPARTURES st), g)
  | [] => simulate base_lines g
  end.

Section WithRuntime.
Context {RT : PyRuntime}.

(** The payload one turn of the loop of [websocket_endpoint] sends; [now]
    is the reading of [utcnow()], a naive [datetime]. *)
Definition websocket_endpoint (st : Store) (now : Z) (g : Rng)
  : json * Rng :=
  let now_s := isoformat {| wall := now; utcoffset := None |} in
  let (departures, g') := ws_departures st g in
  (JObj [(py "t", JStr now_s);
         (py "departures", JArr (map departure_json departures))], g').

End WithRuntime.
End StructureC.

(* ------------------------------------------------------------------ *)
(** ** A reference runtime

    An executable [PyRuntime] for running the backends on concrete feeds.
    It is exact on ASCII text, on [None], booleans and integers, and on
    timestamps written [YYYY-MM-DD], [YYYY-MM-DDTHH:MM:SS] or
    [YYYY-MM-DDTHH:MM:SS.ffffff], each optionally followed by [+HH:MM] or
    [-HH:MM].  Letters outside ASCII are left in their case, other
    timestamp formats are rejected, and the text of a float, a list or a
    dict is a marker. *)

Module Reference.

(** [str.isspace] of a character. *)
Definition is_space (c : N) : bool :=
  (((9 <=? c) && (c <=? 13)) || ((28 <=? c) && (c <=? 32))
   || (c =? 133) || (c =? 160) || (c =? 5760)
   || ((8192 <=? c) && (c <=? 8202)) || (c =? 8232) || (c =? 8233)
   || (c =? 8239) || (c =? 8287) || (c =? 12288))%N.

Fixpoint lstrip (s : pystr) : pystr :=
  match s with
  | c :: s' => if is_space c then lstrip s' else s
  | [] => []
  end.

Definition strip (s : pystr) : pystr := rev (lstrip (rev (lstrip s))).

Definition upper_char (c : N) : N :=
  if ((97 <=? c) && (c <=? 122))%N then (c - 32)%N else c.

Definition upper (s : pystr) : pystr := map upper_char s.

Definition repr_basic (v : json) : pystr :=
  match v with
  | JNull => py "None"
  | JBool true => py "True"
  | JBool false => py "False"
  | JInt n => py (DecimalString.NilZero.string_of_int (Z.to_int n))
  | JStr s => s
  | JFloat _ => py "<float>"
  | JArr _ => py "<list>"
  | JObj _ => py "<dict>"
  end.

Definition obind {A B} (o : option A) (k : A -> option B) : option B :=
  match o with
  | Some a => k a
  | None => None
  end.

Notation "x <~ o ;; k" := (obind o (fun x => k))
  (at level 61, o at next level, right associativity).
Notation "' p <~ o ;; k" := (obind o (fun x => let p := x in k))
  (at level 61, p pattern, o at next level, right associativity).

(** Exactly [n] decimal digits. *)
Fixpoint digits (n : nat) (acc : Z) (s : pystr) : option (Z * pystr) :=
  match n with
  | O => Some (acc, s)
  | S n' =>
      match s with
      | c :: s' =>
          if ((48 <=? c) && (c <=? 57))%N
          then digits n' (10 * acc + (Z.of_N c - 48)) s'
          else None
      | [] => None
      end
  end.

Definition expect (c : N) (s : pystr) : option pystr :=
  match s with
  | x :: s' => if (x =? c)%N then Some s' else None
  | [] => None
  end.

Definition is_leap (y : Z) : bool :=
  ((y mod 4 =? 0) && negb (y mod 100 =? 0)) || (y mod 400 =? 0).

Definition days_in_month (y m : Z) : Z :=
  if m =? 2 then (if is_leap y then 29 else 28)
  else if (m =? 4) || (m =? 6) || (m =? 9) || (m =? 11) then 30
  else 31.

(** Days from 1970-01-01 to the civil date [y-m-d]. *)
Definition days_from_civil (y m d : Z) : Z :=
  let y := if m <=? 2 then y - 1 else y in
  let era := y / 400 in
  let yoe := y - era * 400 in
  let doy := (153 * (if 2 <? m then m - 3 else m + 9) + 2) / 5 + d - 1 in
  let doe := yoe * 365 + yoe / 4 - yoe / 100 + doy in
  era * 146097 + doe - 719468.

(** The civil date [days] after 1970-01-01. *)
Definition civil_from_days (days : Z) : Z * Z * Z :=
  let z := days + 719468 in
  let era := z / 146097 in
  let doe := z - era * 146097 in
  let yoe := (doe - doe / 1460 + doe / 36524 - doe / 146096) / 365 in
  let doy := doe - (365 * yoe + yoe / 4 - yoe / 100) in
  let mp := (5 * doy + 2) / 153 in
  let d := doy - (153 * mp + 2) / 5 + 1 in
  let m := if mp <? 10 then mp + 3 else mp - 9 in
  let y := yoe + era * 400 in
  ((if m <=? 2 then y + 1 else y), m, d).

Definition parse_date (s : pystr) : option (Z * pystr) :=
  '(y, s) <~ digits 4 0 s ;;
  s <~ expect 45 s ;;
  '(m, s) <~ digits 2 0 s ;;
  s <~ expect 45 s ;;
  '(d, s) <~ digits 2 0 s ;;
  if (1 <=? y) && (1 <=? m) && (m <=? 12) && (1 <=? d)
     && (d <=? days_in_month y m)
  then Some (days_from_civil y m d, s)
  else None.

(** Seconds of the day, then microseconds. *)
Definition parse_time (s : pystr) : option (Z * pystr) :=
  '(h, s) <~ digits 2 0 s ;;
  s <~ expect 58 s ;;
  '(m, s) <~ digits 2 0 s ;;
  s <~ expect 58 s ;;
  '(sec, s) <~ digits 2 0 s ;;
  '(us, s) <~ match s with
              | 46%N :: s' => digits 6 0 s'
              | _ => Some (0, s)
              end ;;
  if (h <? 24) && (m <? 60) && (sec <? 60)
  then Some ((h * 3600 + m * 60 + sec) * US_PER_SECOND + us, s)
  else None.

Definition parse_offset (s : pystr) : option (option Z) :=
  match s with
  | [] => Some None
  | sign :: s' =>
      sgn <~ (if (sign =? 43)%N then Some 1
              else if (sign =? 45)%N then Some (-1) else None) ;;
      '(h, s) <~ digits 2 0 s' ;;
      s <~ expect 58 s ;;
      '(m, s) <~ digits 2 0 s ;;
      match s with
      | [] =>
          if (h <? 24) && (m <? 60)
          then Some (Some (sgn * (h * 3600 + m * 60) * US_PER_SECOND))
          else None
      | _ :: _ => None
      end
  end.

Definition US_PER_DAY : Z := 86400 * US_PER_SECOND.

Definition parse_datetime (s : pystr) : option datetime :=
  '(days, s) <~ parse_date s ;;
  match s with
  | [] => Some {| wall := days * US_PER_DAY; utcoffset := None |}
  | _ :: s' =>
      '(t, s) <~ parse_time s' ;;
      off <~ parse_offset s ;;
      Some {| wall := days * US_PER_DAY + t; utcoffset := off |}
  end.

(** [w] decimal digits of [z], leading zeros kept. *)
Fixpoint pad (w : nat) (z : Z) : pystr :=
  match w with
  | O => []
  | S w' => pad w' (z / 10) ++ [Z.to_N (48 + z mod 10)]
  end.

Definition format_datetime (d : datetime) : pystr :=
  let days := wall d / US_PER_DAY in
  let rest := wall d mod US_PER_DAY in
  let secs := rest / US_PER_SECOND in
  let us := rest mod US_PER_SECOND in
  let '(y, m, dd) := civil_from_days days in
  pad 4 y ++ py "-" ++ pad 2 m ++ py "-" ++ pad 2 dd ++ py "T"
  ++ pad 2 (secs / 3600) ++ py ":" ++ pad 2 (secs / 60 mod 60) ++ py ":"
  ++ pad 2 (secs mod 60)
  ++ (if us =? 0 then [] else py "." ++ pad 6 us)
  ++ match utcoffset d with
     | None => []
     | Some o =>
         let a := Z.abs o / US_PER_SECOND in
         (if o <? 0 then py "-" else py "+")
         ++ pad 2 (a / 3600) ++ py ":" ++ pad 2 (a / 60 mod 60)
     end.

#[export] Instance runtime : PyRuntime := {|
  str_strip := strip;
  str_upper := upper;
  repr := repr_basic;
  fromisoformat := parse_datetime;
  isoformat := format_datetime
|}.

End Reference.

(* ------------------------------------------------------------------ *)
(** ** The vocabulary of the specification *)

(** [a] may stand before [b] on the board: it is not later, and on a tie its
    destination is not the greater one. *)
Definition in_display_order (a b : Departure) : Prop :=
  in_min a <= in_min b
  /\ (in_min a = in_min b -> str_leb (dest a) (dest b) = true).

Definition not_later (a b : Departure) : Prop := in_min a <= in_min b.

Definition due_in (m : Z) (d : Departure) : bool := in_min d =? m.

Section EntryViews.
Context {RT : PyRuntime}.

(** The line code, the destination and the timestamp the loop of
    [normalize_departureboards] computes for the entry [dep]. *)
Definition entry_line_of (dep : json) : result pystr :=
  route <- dict_get dep (py "route") ;;
  StructureA.entry_line (py_or route (JObj [])).

Definition entry_dest_of (dep : json) : result pystr :=
  trip <- dict_get dep (py "trip") ;;
  last_stop <- dict_get dep (py "last_stop") ;;
  StructureA.entry_dest (py_or trip (JObj [])) (py_or last_stop (JObj [])).

Definition entry_timestamp (dep : json) : result (option instant) :=
  ts <- dict_get dep (py "departure_timestamp") ;;
  StructureA.entry_used (py_or ts (JObj [])).

(** The [short_name] of the route of the entry, where it is a text. *)
Definition short_name_of (dep : json) : option pystr :=
  match dep with
  | JObj fields =>
      match assoc (py "route") fields with
      | Some (JObj route) =>
          match assoc (py "short_name") route with
          | Some (JStr s) => Some s
          | _ => None
          end
      | _ => None
      end
  | _ => None
  end.

(** The line filter as uppercasing alone would make it: a board of the one
    entry [dep], whose short name differs from the target line once both are
    uppercased, gives the empty batch. *)
Definition filters_by_uppercase (target : pystr) (now : instant)
  (dep : json) : Prop :=
  forall short_name,
    short_name_of dep = Some short_name ->
    str_upper short_name <> str_upper target ->
    StructureA.normalize_departureboards (departure_board [dep]) target now
    = Ok [].

(** What [_parse_iso] makes of the [predicted] and of the [scheduled] field
    of the entry. *)
Definition entry_predicted (dep : json) : result (option instant) :=
  ts <- dict_get dep (py "departure_timestamp") ;;
  p <- dict_get (py_or ts (JObj [])) (py "predicted") ;;
  StructureA._parse_iso p.

Definition entry_scheduled (dep : json) : result (option instant) :=
  ts <- dict_get dep (py "departure_timestamp") ;;
  s <- dict_get (py_or ts (JObj [])) (py "scheduled") ;;
  StructureA._parse_iso s.

(** The instant the value [v] of a timestamp field parses as, [None] when
    it gives none. *)
Definition instant_of (v : json) : option instant :=
  match StructureA._parse_iso v with
  | Ok (Some t) => Some t
  | _ => None
  end.

(** The field [key] of the [departure_timestamp] of the entry, [None] when
    it is missing. *)
Definition timestamp_field (dep : json) (key : pystr) : json :=
  match dep with
  | JObj fields =>
      match assoc (py "departure_timestamp") fields with
      | Some (JObj ts) =>
          match assoc key ts with
          | Some v => v
          | None => JNull
          end
      | _ => JNull
      end
  | _ => JNull
  end.

(** The rule for the timestamp of an entry: the instant of [predicted] when
    that parses, otherwise what [scheduled] gives, and no exception. *)
Definition timestamp_rule (dep : json) : Prop :=
  entry_timestamp dep
  = Ok match instant_of (timestamp_field dep (py "predicted")) with
       | Some t => Some t
       | None => instant_of (timestamp_field dep (py "scheduled"))
       end.

End EntryViews.

(** The store of a poller as the specification sees it: the snapshot and the
    instant of the last successful fetch, [None] while it is unknown. *)
Class SnapshotStore (S : Type) := {
  snapshot : S -> list Departure;
  last_success_instant : S -> option Z
}.

#[export] Instance store_A : SnapshotStore StructureA.Store := {|
  snapshot := StructureA.LATEST_DEPARTURES;
  last_success_instant := StructureA.LAST_OK_UTC
|}.

(** Structure C declares the one global [LATEST_DEPARTURES]: it records no
    instant, which therefore stays unknown. *)
#[export] Instance store_C : SnapshotStore StructureC.Store := {|
  snapshot := StructureC.LATEST_DEPARTURES;
  last_success_instant := fun _ => None
|}.

(** What a poller cycle owes the store, from [before] to [after], when the
    fetch gave [fetched] and the clock reads [now]. *)
Definition cycle_contract {S} `{SnapshotStore S} (before after : S)
  (fetched : option (list Departure)) (now : Z) : Prop :=
  match fetched with
  | None =>
      snapshot after = snapshot before
      /\ last_success_instant after = last_success_instant before
  | Some batch =>
      snapshot after = batch /\ last_success_instant after = Some now
  end.

(** The fetch of the cycle [c] gave a batch. *)
Definition succeeded {RT : PyRuntime} (cfg : StructureA.Config)
  (c : StructureA.Cycle) : bool :=
  match StructureA.fetch_golemio_departures cfg (StructureA.answer c)
          (StructureA.fetched_at c) with
  | Some _ => true
  | None => false
  end.

(** The message of the push channel: [{t, departures, online}] with at most
    20 departures. *)
Definition push_shape (m : json) : Prop :=
  exists t ds online,
    m = JObj [(py "t", JStr t); (py "departures", JArr ds);
              (py "online", JBool online)]
    /\ (length ds <= 20)%nat.


(** Every record of the batch is named by the truncated route id of a trip
    of the feed. *)
Definition lines_are_route_ids (feed : StructureC.FeedMessage)
  (batch : list Departure) : Prop :=
  forall r, In r batch ->
    exists e tu,
      In e (StructureC.entity feed)
      /\ StructureC.trip_update e = Some tu
      /\ line r = str_prefix 10 (StructureC.route_id (StructureC.trip tu)).

(* ------------------------------------------------------------------ *)
(** ** Sample feeds *)

Module Samples.
Import StructureC.
Local Open Scope string_scope.

(** An entry of a Golemio departure board. *)
Definition board_entry (short_name headsign scheduled : string) : json :=
  json_object [("route", json_object [("short_name", json_text short_name)]);
       ("trip", json_object [("headsign", json_text headsign)]);
       ("departure_timestamp", json_object [("scheduled", json_text scheduled)])].

(** An entry with both timestamps. *)
Definition timed_entry (short_name headsign predicted scheduled : string)
  : json :=
  json_object [("route", json_object [("short_name", json_text short_name)]);
       ("trip", json_object [("headsign", json_text headsign)]);
       ("departure_timestamp",
        json_object [("predicted", json_text predicted); ("scheduled", json_text scheduled)])].

(** A malformed prediction beside a schedule, and two malformed stamps. *)
Definition scheduled_only : json :=
  timed_entry "a" "Skalka" "soon" "2099-01-01T10:05:00Z".

(** A short name in lower case with blanks around it. *)
Definition padded : json :=
  board_entry " a " "Skalka" "2099-01-01T10:05:00Z".

(** A prediction one hour east of the first instant a [datetime] can hold. *)
Definition before_year_one : json :=
  timed_entry "A" "Skalka" "0001-01-01T00:00:00+01:00"
    "2099-01-01T10:05:00Z".

(** A prediction that is a number. *)
Definition numeric_prediction : json :=
  json_object
    [("route", json_object [("short_name", json_text "A")]);
     ("departure_timestamp",
      json_object [("predicted", JInt 4070945100);
                   ("scheduled", json_text "2099-01-01T10:05:00Z")])].

Definition untimed : json := timed_entry "A" "Skalka" "soon" "later".

(** The payload of [test_sorts_by_minutes]. *)
Definition two_departures : json :=
  departure_board [board_entry "B" "X" "2099-01-01T10:10:00Z";
         board_entry "B" "Y" "2099-01-01T10:05:00Z"].

(** 2099-01-01T10:00:00Z. *)
Definition ten_o_clock : instant := 4070944800 * US_PER_SECOND.

Definition config : StructureA.Config :=
  {| StructureA.API_KEY := py "token";
     StructureA.STOP_NAMES := [py "Muzeum"];
     StructureA.OFFLINE_AFTER_SECONDS := 60 |}.

(** An entity with a trip update: its route and the arrival times of its
    stop-time updates, 0 for an update without one. *)
Definition trip_entity (route : string) (times : list Z) : FeedEntity :=
  {| trip_update :=
       Some {| trip := {| route_id := py route; trip_headsign := None |};
               stop_time_update :=
                 map (fun t => {| arrival := Some {| time := t |} |}) times |}
  |}.

(** Two trips due in the same minute, listed against the alphabet. *)
Definition tie_feed : FeedMessage :=
  {| entity := [trip_entity "B" [120]; trip_entity "A" [120]] |}.

(** A trip whose descriptor names no route. *)
Definition anonymous_feed : FeedMessage :=
  {| entity := [trip_entity "" [120]] |}.

(** Upstream answers with the board of [two_departures], one line B. *)
Definition board_cycle : StructureA.Cycle :=
  {| StructureA.answer := StructureA.Body two_departures;
     StructureA.fetched_at := ten_o_clock;
     StructureA.stored_at := ten_o_clock + 1 |}.

Definition failed_cycle : StructureA.Cycle :=
  {| StructureA.answer := StructureA.RequestFailed;
     StructureA.fetched_at := ten_o_clock;
     StructureA.stored_at := ten_o_clock + 1 |}.

Definition tie_cycle : Cycle :=
  {| source := Content (Some tie_feed); fetched_at := 0 |}.

Definition unreadable_cycle : Cycle :=
  {| source := Content None; fetched_at := 0 |}.

Definition zero_rng : Rng := {| raw := fun _ => 0; cursor := 0 |}.

End Samples.

(* ------------------------------------------------------------------ *)
(** ** Numbers *)

From Stdlib Require Floats.FloatOps.

(** What [int()] makes of a text and of a float; [None] stands for the
    exception ([ValueError], [OverflowError]). *)
Class PyNumbers := {
  int_of_text : pystr -> option Z;
  int_of_float : float -> option Z
}.

(** [o] when it is a value, else [k]'s turn is skipped: the option monad of
    code whose exceptions one handler catches. *)
Definition and_then {A B} (o : option A) (k : A -> option B) : option B :=
  match o with
  | Some a => k a
  | None => None
  end.

Notation "x <-? o ;; k" := (and_then o (fun x => k))
  (at level 61, o at next level, right associativity).

(** [s.startswith(prefix)]. *)
Fixpoint str_startswith (prefix s : pystr) : bool :=
  match prefix, s with
  | [], _ => true
  | _ :: _, [] => false
  | p :: prefix', c :: s' => (p =? c)%N && str_startswith prefix' s'
  end.

(** [s.split(sep)] for a separator [sep] of one character. *)
Fixpoint str_split (sep : N) (s : pystr) : list pystr :=
  match s with
  | [] => [[]]
  | c :: s' =>
      if (c =? sep)%N then [] :: str_split sep s'
      else
        match str_split sep s' with
        | seg :: segs => (c :: seg) :: segs
        | [] => [[c]]
        end
  end.

(** [sep.join(parts)]. *)
Fixpoint str_join (sep : N) (parts : list pystr) : pystr :=
  match parts with
  | [] => []
  | [p] => p
  | p :: parts' => p ++ sep :: str_join sep parts'
  end.

(** [range(lo, hi)]. *)
Definition py_range (lo hi : Z) : list Z :=
  map (fun i => lo + Z.of_nat i) (seq 0 (Z.to_nat (hi - lo))).

(* ------------------------------------------------------------------ *)
(** ** Structure A: configuration and the other endpoints *)

Module EndpointsA.
Section WithRuntime.
Context {RT : PyRuntime} {NUM : PyNumbers}.

(** [STOP_NAMES] of the environment value [env]:
    [[s.strip() for s in env.split(",") if s.strip()]]. *)
Definition stop_names (env : pystr) : list pystr :=
  flat_map (fun s => match str_strip s with [] => [] | t => [t] end)
    (str_split 44%N env).

Definition api_latest (st : StructureA.Store) : json :=
  JObj [(py "count",
         JInt (Z.of_nat (length (StructureA.LATEST_DEPARTURES st))));
        (py "departures",
         JArr (map departure_json (StructureA.LATEST_DEPARTURES st)))].

(** [int(v)]; [None] stands for the exception. *)
Definition py_int (v : json) : option Z :=
  match v with
  | JInt n => Some n
  | JBool b => Some (if b then 1 else 0)
  | JFloat f => int_of_float f
  | JStr s => int_of_text s
  | JNull => None
  | JArr _ => None
  | JObj _ => None
  end.

(** What [data_file] is on disk: missing, there but not a JSON text the
    backend can read, or a JSON document. *)
Inductive DataFile :=
| Absent
| Unreadable
| Document (data : json).

(** One turn of the loop of [api_fallback]: [None] is an exception,
    [Some None] is [continue], [Some (Some r)] is [out.append(r)]. *)
Definition fallback_entry (d : json) : option (option Departure) :=
  l <-? except_none (dict_get_default d (py "line") (JStr [])) ;;
  if negb (str_eqb (str_upper (str_strip (StructureA.py_str l)))
             StructureA.METRO_LINE)
  then Some None
  else
    dst <-? except_none
              (dict_get_default d (py "dest")
                 (JStr StructureA.PLACEHOLDER)) ;;
    let dst := str_strip (StructureA.py_str dst) in
    let dst := match dst with [] => StructureA.PLACEHOLDER | _ => dst end in
    m <-? except_none (dict_get_default d (py "in_min") (JInt 0)) ;;
    n <-? py_int m ;;
    Some (Some {| line := StructureA.METRO_LINE; dest := dst; in_min := n;
                  t_utc := None |}).

Fixpoint fallback_loop (deps : list json) : option (list Departure) :=
  match deps with
  | [] => Some []
  | d :: deps' =>
      r <-? fallback_entry d ;;
      out <-? fallback_loop deps' ;;
      Some (match r with Some x => x :: out | None => out end)
  end.

(** The body of the [try] of [api_fallback]. *)
Definition fallback_try (data : json) : option (list Departure) :=
  deps <-? except_none (dict_get data (py "departures")) ;;
  deps <-? except_none (py_iter (py_or deps (JArr []))) ;;
  out <-? fallback_loop deps ;;
  Some (stable_sort by_minutes out).

(** The list under [departures] in the answer of [api_fallback]. *)
Definition fallback_departures (file : DataFile) : list Departure :=
  match file with
  | Absent => []
  | Unreadable => []
  | Document data =>
      match fallback_try data with
      | Some out => out
      | None => []
      end
  end.

Definition api_fallback (file : DataFile) : json :=
  JObj [(py "departures",
         JArr (map departure_json (fallback_departures file)))].

End WithRuntime.
End EndpointsA.

(* ------------------------------------------------------------------ *)
(** ** Structure A: [mock_feed.py] *)

Module MockFeedA.
Import StructureC.

Definition destinations : list pystr :=
  [py "Nemocnice Motol"; py "Depo Hostivař"; py "Skalka"; py "Dejvická"].

Definition advance (g : Rng) : Rng :=
  {| raw := raw g; cursor := S (cursor g) |}.

(** The index a draw picks among [n] items. *)
Definition pick (n : nat) (g : Rng) : nat :=
  Z.to_nat (raw g (cursor g) mod Z.of_nat n).

(** [random.choice(seq)] of a sequence that is not empty. *)
Definition choice (seq : list pystr) (g : Rng) : pystr * Rng :=
  (nth (pick (length seq) g) seq [], advance g).

(** [random.sample(pool, k)] for [k] no larger than the pool: [k] draws
    without replacement, in the order drawn; each draw picks among the
    items still in the pool. *)
Fixpoint sample (pool : list Z) (k : nat) (g : Rng) : list Z * Rng :=
  match k with
  | O => ([], g)
  | S k' =>
      let i := pick (length pool) g in
      let (rest, g') :=
        sample (firstn i pool ++ skipn (S i) pool) k' (advance g) in
      (nth i pool 0 :: rest, g')
  end.

(** The loop over [mins]: one record per minute, each with its own draw of
    a destination. *)
Fixpoint fill (mins : list Z) (g : Rng) : list Departure * Rng :=
  match mins with
  | [] => ([], g)
  | m :: mins' =>
      let (d, g1) := choice destinations g in
      let (out, g2) := fill mins' g1 in
      ({| line := py "A"; dest := d; in_min := m; t_utc := None |} :: out, g2)
  end.

(** The records [main] writes for [--count count]; [None] is the
    [ValueError] of [random.sample] on a negative size. *)
Definition mock_departures (count : Z) (g : Rng)
  : option (list Departure * Rng) :=
  let k := Z.min count 10 in
  if k <? 0 then None
  else
    let (picked, g1) := sample (py_range 1 20) (Z.to_nat k) g in
    let mins := stable_sort Z.leb picked in
    Some (fill mins g1).

(** The document [main] writes. *)
Definition main (count : Z) (g : Rng) : option (json * Rng) :=
  r <-? mock_departures count g ;;
  Some (JObj [(py "departures", JArr (map departure_json (fst r)))], snd r).

End MockFeedA.

(* ------------------------------------------------------------------ *)
(** ** Structure C: the other endpoints, [mock_feed.py], [test_gtfs.py] *)

Module ToolsC.
Import StructureC.

Definition api_latest (st : Store) : json :=
  JObj [(py "count", JInt (Z.of_nat (length (LATEST_DEPARTURES st))));
        (py "departures", JArr (map departure_json (LATEST_DEPARTURES st)))].

(** The feed [mock_feed.py] writes when [time.time()] reads [now]. *)
Definition mock_feed (now : Z) : FeedMessage :=
  {| entity :=
       [{| trip_update :=
             Some {| trip := {| route_id := py "X"; trip_headsign := None |};
                     stop_time_update :=
                       [{| arrival := Some {| time := now + 120 |} |}] |} |}]
  |}.

(** The inner loop of [parse_feed_bytes]. *)
Fixpoint stop_time_updates_loop (route_id : pystr)
  (trip_headsign : option pystr) (now_ts : Z) (stus : list StopTimeUpdate)
  : list Departure :=
  match stus with
  | [] => []
  | stu :: rest =>
      match arrival stu with
      | None => stop_time_updates_loop route_id trip_headsign now_ts rest
      | Some ev =>
          let arrival_ts := time ev in
          if arrival_ts =? 0
          then stop_time_updates_loop route_id trip_headsign now_ts rest
          else
            let in_min :=
              Z.max 0 (float_int (true_divide (arrival_ts - now_ts) 60)) in
            let dest :=
              match trip_headsign with
              | Some ((_ :: _) as h) => h
              | _ => str_or route_id UNKNOWN
              end in
            [{| line := str_or route_id UNKNOWN; dest := dest;
                in_min := in_min; t_utc := None |}]
      end
  end.

(** The outer loop of [parse_feed_bytes]. *)
Fixpoint entities_loop (now_ts : Z) (entities : list FeedEntity)
  : list Departure :=
  match entities with
  | [] => []
  | e :: rest =>
      match trip_update e with
      | None => entities_loop now_ts rest
      | Some tu =>
          stop_time_updates_loop (str_prefix 10 (route_id (trip tu)))
            (trip_headsign (trip tu)) now_ts (stop_time_update tu)
          ++ entities_loop now_ts rest
      end
  end.

(** [parse_feed_bytes] of [test_gtfs.py], on the decoded feed. *)
Definition parse_feed_bytes (feed : FeedMessage) (now_ts : Z)
  : list Departure :=
  stable_sort by_minutes (entities_loop now_ts (entity feed)).

(** What [run] prints. *)
Inductive Report :=
| NotSet
| OkLocal (n : nat) (head : list Departure)
| OkHttp (n : nat) (head : list Departure)
| Failed.

(** [run] of [test_gtfs.py]: [on_disk] is [os.path.exists(url)], [src] what
    reading the locator comes to. *)
Definition run (url : pystr) (on_disk : bool) (src : Source) (now_ts : Z)
  : Report :=
  match url with
  | [] => NotSet
  | _ :: _ =>
      if str_startswith (py "file://") url || on_disk
      then
        match src with
        | Content (Some feed) =>
            let deps := parse_feed_bytes feed now_ts in
            OkLocal (length deps) (firstn 10 deps)
        | _ => Failed
        end
      else
        match fetch_gtfs_rt url src now_ts with
        | Some ((_ :: _) as deps) => OkHttp (length deps) (firstn 10 deps)
        | _ => Failed
        end
  end.

End ToolsC.

(* ------------------------------------------------------------------ *)
(** ** Reference numbers *)

Module ReferenceNumbers.

(** A signed run of decimal digits, blanks around it allowed. *)
Fixpoint all_digits (acc : Z) (s : pystr) : option Z :=
  match s with
  | [] => Some acc
  | c :: s' =>
      if ((48 <=? c) && (c <=? 57))%N
      then all_digits (10 * acc + (Z.of_N c - 48)) s'
      else None
  end.

Definition parse_int (s : pystr) : option Z :=
  match Reference.strip s with
  | [] => None
  | 45%N :: ((_ :: _) as ds) => option_map Z.opp (all_digits 0 ds)
  | 43%N :: ((_ :: _) as ds) => all_digits 0 ds
  | ds => all_digits 0 ds
  end.

(** The integer part of a finite float. *)
Definition truncate (f : float) : option Z :=
  match FloatOps.Prim2SF f with
  | SpecFloat.S754_zero _ => Some 0
  | SpecFloat.S754_finite s m e =>
      let a := match e with
               | Z.neg p => Z.pos m / 2 ^ Z.pos p
               | _ => Z.pos m * 2 ^ e
               end in
      Some (if s then - a else a)
  | _ => None
  end.

#[export] Instance numbers : PyNumbers := {|
  int_of_text := parse_int;
  int_of_float := truncate
|}.

End ReferenceNumbers.

(* ------------------------------------------------------------------ *)
(** ** More sample data *)

Module Examples.
Local Open Scope string_scope.

(** A board of two trains of line A and one of line B. *)
Definition line_a_board : json :=
  departure_board
    [Samples.board_entry "A" "Skalka" "2099-01-01T10:07:30Z";
     Samples.board_entry " a " "Depo Hostivař" "2099-01-01T10:02:00Z";
     Samples.board_entry "B" "Zličín" "2099-01-01T10:01:00Z"].

Definition line_a_cycle : StructureA.Cycle :=
  {| StructureA.answer := StructureA.Body line_a_board;
     StructureA.fetched_at := Samples.ten_o_clock;
     StructureA.stored_at := Samples.ten_o_clock + 1 |}.

Definition no_credential : StructureA.Config :=
  {| StructureA.API_KEY := [];
     StructureA.STOP_NAMES := [py "Muzeum"];
     StructureA.OFFLINE_AFTER_SECONDS := 60 |}.

(** A trip with a headsign. *)
Definition signed_entity (route headsign : string) (times : list Z)
  : StructureC.FeedEntity :=
  {| StructureC.trip_update :=
       Some {| StructureC.trip :=
                 {| StructureC.route_id := py route;
                    StructureC.trip_headsign := Some (py headsign) |};
               StructureC.stop_time_update :=
                 map (fun t =>
                        {| StructureC.arrival :=
                             Some {| StructureC.time := t |} |}) times |}
  |}.

(** [n] trips of route [route], the [i]-th due [60 * i] seconds from 0. *)
Definition busy_feed (route : string) (n : nat) : StructureC.FeedMessage :=
  {| StructureC.entity :=
       map (fun i => Samples.trip_entity route [60 * Z.of_nat (S i)])
         (seq 0 n) |}.

(** A feed none of whose trips carries an arrival time. *)
Definition silent_feed : StructureC.FeedMessage :=
  {| StructureC.entity :=
       [Samples.trip_entity "A" [0]; {| StructureC.trip_update := None |}] |}.

(** A fallback file: a record as [mock_feed.py] writes it, one with text
    for minutes and blanks around its names, one of line B, and one due in
    the past. *)
Definition fallback_document : json :=
  departure_board
    [json_object [("line", json_text "A"); ("dest", json_text "Skalka");
                  ("in_min", JInt 7)];
     json_object [("line", json_text " a "); ("dest", json_text "  ");
                  ("in_min", json_text "3")];
     json_object [("line", json_text "B"); ("dest", json_text "Zličín");
                  ("in_min", JInt 1)];
     json_object [("line", json_text "A"); ("in_min", JInt (-4))]].

(** The same file with an entry whose minutes are not a number. *)
Definition broken_document : json :=
  departure_board
    [json_object [("line", json_text "A"); ("dest", json_text "Skalka");
                  ("in_min", JInt 7)];
     json_object [("line", json_text "A"); ("dest", json_text "Skalka");
                  ("in_min", json_text "soon")]].

(** A generator whose [n]-th raw draw is [7 n + 3]. *)
Definition stride_rng : StructureC.Rng :=
  {| StructureC.raw := fun n => Z.of_nat (7 * n + 3);
     StructureC.cursor := 0 |}.

End Examples.

(* ------------------------------------------------------------------ *)
(** ** Hosts and far timestamps *)

Module Hosts.
Local Open Scope string_scope.

(** A host on UTC, one an hour east of it (Central European Time) and one
    five hours west of it (Eastern Standard Time). *)
Definition utc : StructureC.HostZone := fun _ => 0.
Definition prague : StructureC.HostZone := fun _ => 3600.
Definition new_york : StructureC.HostZone := fun _ => -18000.

(** A clock reading: 2023-11-14T22:13:20Z. *)
Definition clock : Z := 1700000000.

(** A train of line A due one microsecond short of 286331154 minutes after
    [Samples.ten_o_clock]. *)
Definition far_entry : json :=
  Samples.board_entry "A" "Skalka" "2643-05-31T11:53:59.999999Z".

(** The instant of that timestamp. *)
Definition far_instant : instant :=
  Samples.ten_o_clock + 17179869240 * US_PER_SECOND - 1.

End Hosts.

(* ================================================================== *)
(** * Properties *)

(* ------------------------------------------------------------------ *)
(** ** The order on text *)

Lemma str_leb_total (a b : pystr) :
  str_leb a b = false -> str_leb b a = true.
Proof.
  revert b. induction a as [|x a IH]; intros [|y b]; simpl; try easy.
  destruct (N.ltb_spec x y); [discriminate|].
  destruct (N.eqb_spec x y) as [->|Hne].
  - rewrite N.ltb_irrefl, N.eqb_refl. apply IH.
  - intros _. destruct (N.ltb_spec y x); [reflexivity | lia].
Qed.

Lemma str_leb_trans (a b c : pystr) :
  str_leb a b = true -> str_leb b c = true -> str_leb a c = true.
Proof.
  revert b c. induction a as [|x a IH]; intros [|y b] [|z c]; simpl; try easy.
  destruct (N.ltb_spec x y) as [Hxy|Hxy].
  - intros _. destruct (N.ltb_spec y z) as [Hyz|Hyz].
    + intros _. destruct (N.ltb_spec x z); [reflexivity | lia].
    + destruct (N.eqb_spec y z) as [->|]; [|discriminate].
      intros _. destruct (N.ltb_spec x z); [reflexivity | lia].
  - destruct (N.eqb_spec x y) as [->|]; [|discriminate].
    intros Hab. destruct (N.ltb_spec y z); [reflexivity|].
    destruct (N.eqb_spec y z); [|discriminate].
    intros Hbc. exact (IH _ _ Hab Hbc).
Qed.

Lemma str_eqb_eq (a b : pystr) : str_eqb a b = true <-> a = b.
Proof.
  unfold str_eqb. destruct (pystr_eq_dec a b); split; congruence.
Qed.

(* ------------------------------------------------------------------ *)
(** ** The stable sort *)

Section StableSortFacts.
Context {A : Type} (leb : A -> A -> bool).

Lemma insert_perm (x : A) (l : list A) : Permutation (insert leb x l) (x :: l).
Proof.
  induction l as [|y l IH]; simpl; [reflexivity|].
  destruct (leb x y); [reflexivity|].
  rewrite IH. apply perm_swap.
Qed.

Lemma stable_sort_perm (l : list A) : Permutation (stable_sort leb l) l.
Proof.
  induction l as [|x l IH]; simpl; [reflexivity|].
  rewrite insert_perm. now constructor.
Qed.

Lemma stable_sort_In (l : list A) (x : A) :
  In x (stable_sort leb l) <-> In x l.
Proof.
  split; apply Permutation_in;
    [apply stable_sort_perm | symmetry; apply stable_sort_perm].
Qed.

Lemma stable_sort_length (l : list A) :
  length (stable_sort leb l) = length l.
Proof. apply Permutation_length, stable_sort_perm. Qed.

(** Elements that the predicate [p] selects stay in the order of the input
    when no selected element is ever moved behind a selected one. *)
Lemma insert_filter (p : A -> bool) (x : A) (l : list A) :
  (forall y, p x = true -> leb x y = false -> p y = false) ->
  filter p (insert leb x l) = filter p (x :: l).
Proof.
  intros Hp. induction l as [|y l IH]; simpl; [reflexivity|].
  destruct (leb x y) eqn:Hxy; [reflexivity|].
  simpl in *. rewrite IH.
  destruct (p x) eqn:Hx; [|reflexivity].
  now rewrite (Hp y eq_refl Hxy).
Qed.

Lemma stable_sort_filter (p : A -> bool) (l : list A) :
  (forall x y, p x = true -> leb x y = false -> p y = false) ->
  filter p (stable_sort leb l) = filter p l.
Proof.
  intros Hp. induction l as [|x l IH]; simpl; [reflexivity|].
  rewrite insert_filter by (apply Hp). simpl. now rewrite IH.
Qed.

Section Ordered.
Hypothesis leb_total : forall a b, leb a b = false -> leb b a = true.
Hypothesis leb_trans :
  forall a b c, leb a b = true -> leb b c = true -> leb a c = true.

Lemma insert_sorted (x : A) (l : list A) :
  StronglySorted (fun a b => leb a b = true) l ->
  StronglySorted (fun a b => leb a b = true) (insert leb x l).
Proof.
  induction 1 as [|y l Hl IH Hy]; simpl.
  - repeat constructor.
  - destruct (leb x y) eqn:Hxy.
    + constructor; [now constructor|].
      constructor; [exact Hxy|].
      eapply Forall_impl; [|exact Hy].
      intros z Hz. exact (leb_trans _ _ _ Hxy Hz).
    + constructor; [exact IH|].
      rewrite Forall_forall. intros z Hz.
      apply (Permutation_in _ (insert_perm x l)) in Hz.
      destruct Hz as [<-|Hz]; [now apply leb_total|].
      rewrite Forall_forall in Hy. now apply Hy.
Qed.

Lemma stable_sort_sorted (l : list A) :
  StronglySorted (fun a b => leb a b = true) (stable_sort leb l).
Proof.
  induction l as [|x l IH]; simpl; [constructor | now apply insert_sorted].
Qed.

End Ordered.
End StableSortFacts.

Lemma firstn_In {A} (n : nat) (l : list A) (x : A) :
  In x (firstn n l) -> In x l.
Proof.
  revert l. induction n as [|n IH]; intros [|y l]; simpl; try easy.
  intros [->|H]; [now left | right; now apply IH].
Qed.

Lemma firstn_StronglySorted {A} (R : A -> A -> Prop) (n : nat) (l : list A) :
  StronglySorted R l -> StronglySorted R (firstn n l).
Proof.
  intros H. revert n. induction H as [|x l Hl IH Hx]; intros [|n]; simpl;
    try constructor.
  - apply IH.
  - rewrite Forall_forall in *. intros y Hy. apply Hx.
    now apply firstn_In with n.
Qed.

(* ------------------------------------------------------------------ *)
(** ** binary64 quotients *)

Lemma round_half_even_bounds (num den : Z) :
  0 < den ->
  num / den <= round_half_even num den <= num / den + 1
  /\ (round_half_even num den = num / den + 1 -> den <= 2 * (num mod den)).
Proof.
  intros Hden. unfold round_half_even.
  destruct (Z.ltb_spec (2 * (num mod den)) den);
    [split; lia|].
  destruct (Z.ltb_spec den (2 * (num mod den))); [split; lia|].
  destruct (Z.even (num / den)); split; lia.
Qed.

Lemma ulp_exponent_bound (a b n : Z) :
  0 < a -> 0 < b -> 0 <= n -> a < b * 2 ^ n ->
  ulp_exponent a b <= n - 53.
Proof.
  intros Ha Hb Hn Hlt. unfold ulp_exponent.
  destruct (Z.log2_spec a Ha) as (Ha1 & Ha2).
  destruct (Z.log2_spec b Hb) as (Hb1 & Hb2).
  pose proof (Z.log2_nonneg a). pose proof (Z.log2_nonneg b).
  set (la := Z.log2 a) in *. set (lb := Z.log2 b) in *.
  assert (Hl : la - lb <= n).
  { assert (2 ^ la < 2 ^ (Z.succ lb + n)).
    { rewrite Z.pow_add_r by lia.
      apply Z.le_lt_trans with a; [exact Ha1|].
      apply Z.lt_le_trans with (b * 2 ^ n); [exact Hlt|].
      apply Z.mul_le_mono_nonneg_r; [apply Z.pow_nonneg; lia | lia]. }
    apply Z.pow_lt_mono_r_iff in H1; lia. }
  destruct (Z.eq_dec (la - lb) n) as [Heq|Hne].
  - rewrite Heq.
    replace (Z.max 0 (- n)) with 0 by lia.
    replace (Z.max 0 n) with n by lia.
    rewrite Z.pow_0_r, Z.mul_1_r.
    destruct (Z.ltb_spec a (b * 2 ^ n)); lia.
  - destruct (_ <? _); lia.
Qed.

(** Within reach of the rounding, dividing the float again gives the exact
    quotient. *)
Lemma float_floordiv_exact (a b c : Z) :
  0 <= a -> 0 < b -> 0 < c ->
  ulp_exponent a b < 0 -> b < 2 * 2 ^ (- ulp_exponent a b) ->
  float_floordiv (true_divide a b) c = a / (b * c).
Proof.
  intros Ha Hb Hc He Hulp.
  destruct (Z.eq_dec a 0) as [->|Hne]; [reflexivity|].
  unfold true_divide. destruct a as [|p|p]; try lia.
  cbn [Z.abs Z.sgn]. set (a := Z.pos p) in *.
  unfold float_floordiv. cbn [mant expo].
  set (e := ulp_exponent a b) in *.
  replace (Z.max 0 e) with 0 by lia.
  replace (Z.max 0 (- e)) with (- e) by lia.
  rewrite Z.pow_0_r, !Z.mul_1_r, Z.mul_1_l.
  assert (HP : 0 < 2 ^ (- e)) by (apply Z.pow_pos_nonneg; lia).
  set (P := 2 ^ (- e)) in *.
  destruct (round_half_even_bounds (a * P) b Hb) as ((Hlo & Hhi) & Hup).
  set (m := round_half_even (a * P) b) in *.
  pose proof (Z.div_mod (a * P) b ltac:(lia)) as Hdm.
  pose proof (Z.mod_pos_bound (a * P) b Hb) as Hr.
  pose proof (Z.div_mod a (b * c) ltac:(lia)) as Hdk.
  pose proof (Z.mod_pos_bound a (b * c) ltac:(lia)) as Hrk.
  set (q0 := a * P / b) in *. set (r0 := (a * P) mod b) in *.
  set (k := a / (b * c)) in *. set (r1 := a mod (b * c)) in *.
  symmetry. apply Z.div_unique with (r := m - k * (c * P)).
  - left. split.
    + assert (k * (c * P) <= q0); [|lia].
      apply Z.div_le_lower_bound; [lia|]. nia.
    + assert (q0 < (k + 1) * (c * P)).
      { apply Z.div_lt_upper_bound; [lia|]. nia. }
      destruct (Z.eq_dec m (q0 + 1)) as [Hm|Hm]; [|lia].
      specialize (Hup Hm).
      assert (q0 + 1 <> (k + 1) * (c * P)); [|lia].
      intros Heq. nia.
  - lia.
Qed.

Lemma true_divide_sign (a b : Z) :
  0 < b ->
  (a <= 0 -> mant (true_divide a b) <= 0)
  /\ (0 <= a -> 0 <= mant (true_divide a b)).
Proof.
  intros Hb. unfold true_divide.
  destruct a as [|p|p]; cbn [mant Z.abs Z.sgn]; [split; lia | |].
  - assert (0 < 2 ^ Z.max 0 (ulp_exponent (Z.pos p) b))
      by (apply Z.pow_pos_nonneg; lia).
    assert (0 <= 2 ^ Z.max 0 (- ulp_exponent (Z.pos p) b))
      by (apply Z.pow_nonneg; lia).
    destruct (round_half_even_bounds
                (Z.pos p * 2 ^ Z.max 0 (- ulp_exponent (Z.pos p) b))
                (b * 2 ^ Z.max 0 (ulp_exponent (Z.pos p) b))
                ltac:(nia)) as ((Hlo & _) & _).
    assert (0 <= Z.pos p * 2 ^ Z.max 0 (- ulp_exponent (Z.pos p) b)
                 / (b * 2 ^ Z.max 0 (ulp_exponent (Z.pos p) b)))
      by (apply Z.div_pos; nia).
    split; lia.
  - assert (0 < 2 ^ Z.max 0 (ulp_exponent (Z.pos p) b))
      by (apply Z.pow_pos_nonneg; lia).
    assert (0 <= 2 ^ Z.max 0 (- ulp_exponent (Z.pos p) b))
      by (apply Z.pow_nonneg; lia).
    destruct (round_half_even_bounds
                (Z.pos p * 2 ^ Z.max 0 (- ulp_exponent (Z.pos p) b))
                (b * 2 ^ Z.max 0 (ulp_exponent (Z.pos p) b))
                ltac:(nia)) as ((Hlo & _) & _).
    assert (0 <= Z.pos p * 2 ^ Z.max 0 (- ulp_exponent (Z.pos p) b)
                 / (b * 2 ^ Z.max 0 (ulp_exponent (Z.pos p) b)))
      by (apply Z.div_pos; nia).
    split; lia.
Qed.

Lemma float_floordiv_nonpos (x : binary64) (c : Z) :
  mant x <= 0 -> 0 < c -> float_floordiv x c <= 0.
Proof.
  intros Hm Hc. unfold float_floordiv.
  assert (0 < 2 ^ Z.max 0 (- expo x)) by (apply Z.pow_pos_nonneg; lia).
  assert (0 <= 2 ^ Z.max 0 (expo x)) by (apply Z.pow_nonneg; lia).
  apply Z.div_le_upper_bound; nia.
Qed.

Lemma float_int_nonpos (x : binary64) : mant x <= 0 -> float_int x <= 0.
Proof.
  intros Hm. unfold float_int.
  assert (0 < 2 ^ Z.max 0 (- expo x)) by (apply Z.pow_pos_nonneg; lia).
  assert (0 <= 2 ^ Z.max 0 (expo x)) by (apply Z.pow_nonneg; lia).
  apply Z.quot_le_upper_bound; nia.
Qed.

Lemma float_int_floordiv (x : binary64) :
  0 <= mant x -> float_int x = float_floordiv x 1.
Proof.
  intros Hm. unfold float_int, float_floordiv.
  assert (0 < 2 ^ Z.max 0 (- expo x)) by (apply Z.pow_pos_nonneg; lia).
  assert (0 <= 2 ^ Z.max 0 (expo x)) by (apply Z.pow_nonneg; lia).
  rewrite Z.mul_1_l. apply Z.quot_div_nonneg; nia.
Qed.

(** [total_seconds() // 60] is the exact count of minutes for a difference
    below 2^34 seconds, and never positive for a negative one. *)
Lemma total_seconds_floordiv (us : Z) :
  us < 2 ^ 34 * US_PER_SECOND ->
  Z.max 0 (float_floordiv (total_seconds us) 60)
  = Z.max 0 (us / (60 * US_PER_SECOND)).
Proof.
  intros Hrange. unfold total_seconds, US_PER_SECOND in *.
  destruct (Z.le_gt_cases 0 us) as [Hpos|Hneg].
  - destruct (Z.eq_dec us 0) as [->|Hne]; [reflexivity|].
    pose proof (ulp_exponent_bound us 1000000 34 ltac:(lia) ltac:(lia)
                  ltac:(lia) ltac:(lia)) as He.
    rewrite float_floordiv_exact; try lia.
    + now rewrite (Z.mul_comm 1000000 60).
    + assert (2 ^ 19 <= 2 ^ (- ulp_exponent us 1000000))
        by (apply Z.pow_le_mono_r; lia).
      change (2 ^ 19) with 524288 in *. lia.
  - pose proof (proj1 (true_divide_sign us 1000000 ltac:(lia)) ltac:(lia)).
    pose proof (float_floordiv_nonpos (true_divide us 1000000) 60 H
                  ltac:(lia)).
    assert (us / (60 * 1000000) < 0)
      by (apply Z.div_lt_upper_bound; lia).
    lia.
Qed.

(** [int(d / 60)] is the exact count of minutes, cut towards zero, for a
    difference below [60 * 2^48] seconds, and never positive for a negative
    one. *)
Lemma true_divide_minutes (d : Z) :
  d < 60 * 2 ^ 48 ->
  Z.max 0 (float_int (true_divide d 60)) = Z.max 0 (d / 60).
Proof.
  intros Hrange.
  destruct (Z.le_gt_cases 0 d) as [Hpos|Hneg].
  - destruct (Z.eq_dec d 0) as [->|Hne]; [reflexivity|].
    pose proof (ulp_exponent_bound d 60 48 ltac:(lia) ltac:(lia)
                  ltac:(lia) Hrange) as He.
    rewrite float_int_floordiv
      by (apply (true_divide_sign d 60); lia).
    rewrite float_floordiv_exact; try lia.
    + now rewrite Z.mul_1_r.
    + assert (2 ^ 5 <= 2 ^ (- ulp_exponent d 60))
        by (apply Z.pow_le_mono_r; lia).
      change (2 ^ 5) with 32 in *. lia.
  - pose proof (proj1 (true_divide_sign d 60 ltac:(lia)) ltac:(lia)).
    pose proof (float_int_nonpos (true_divide d 60) H).
    assert (d / 60 < 0) by (apply Z.div_lt_upper_bound; lia).
    lia.
Qed.

Lemma StronglySorted_weaken {A} (R S : A -> A -> Prop) (l : list A) :
  (forall a b, R a b -> S a b) -> StronglySorted R l -> StronglySorted S l.
Proof.
  intros HRS. induction 1 as [|x l Hl IH Hx]; constructor; [exact IH|].
  eapply Forall_impl; [|exact Hx]. intros y. apply HRS.
Qed.

(* ------------------------------------------------------------------ *)
(** ** The two sort keys *)

Lemma by_minutes_then_dest_spec (a b : Departure) :
  by_minutes_then_dest a b = true <-> in_display_order a b.
Proof.
  unfold by_minutes_then_dest, in_display_order.
  rewrite orb_true_iff, andb_true_iff, Z.ltb_lt, Z.eqb_eq. split.
  - intros [H|[H1 H2]]; split; try lia. intros _. exact H2.
  - intros [Hle Htie].
    destruct (Z.eq_dec (in_min a) (in_min b)) as [e|n];
      [right; split; auto | left; lia].
Qed.

Lemma by_minutes_then_dest_total (a b : Departure) :
  by_minutes_then_dest a b = false -> by_minutes_then_dest b a = true.
Proof.
  unfold by_minutes_then_dest.
  destruct (Z.ltb_spec (in_min a) (in_min b)); [discriminate|].
  destruct (Z.ltb_spec (in_min b) (in_min a)); [reflexivity|].
  destruct (Z.eqb_spec (in_min a) (in_min b)); [|lia].
  destruct (Z.eqb_spec (in_min b) (in_min a)); [|lia].
  simpl. apply str_leb_total.
Qed.

Lemma by_minutes_then_dest_trans (a b c : Departure) :
  by_minutes_then_dest a b = true -> by_minutes_then_dest b c = true ->
  by_minutes_then_dest a c = true.
Proof.
  rewrite !by_minutes_then_dest_spec. unfold in_display_order.
  intros [H1 T1] [H2 T2]. split; [lia|].
  intros E. apply str_leb_trans with (dest b); [apply T1 | apply T2]; lia.
Qed.

Lemma by_minutes_spec (a b : Departure) :
  by_minutes a b = true <-> not_later a b.
Proof. apply Z.leb_le. Qed.

Lemma by_minutes_total (a b : Departure) :
  by_minutes a b = false -> by_minutes b a = true.
Proof. unfold by_minutes. rewrite Z.leb_gt, Z.leb_le. lia. Qed.

Lemma by_minutes_trans (a b c : Departure) :
  by_minutes a b = true -> by_minutes b c = true -> by_minutes a c = true.
Proof. unfold by_minutes. rewrite !Z.leb_le. lia. Qed.

(** A record due in [m] minutes is never moved behind another one due in
    [m] minutes. *)
Lemma by_minutes_keeps_ties (m : Z) (x y : Departure) :
  due_in m x = true -> by_minutes x y = false -> due_in m y = false.
Proof.
  unfold due_in, by_minutes. rewrite Z.eqb_eq, Z.leb_gt, Z.eqb_neq. lia.
Qed.

(* ------------------------------------------------------------------ *)
(** ** Exceptions *)

Lemma bind_ok {A} (r : result A) : (x <- r ;; Ok x) = r.
Proof. now destruct r. Qed.

Lemma bind_inv {A B} (r : result A) (k : A -> result B) (b : B) :
  (x <- r ;; k x) = Ok b -> exists a, r = Ok a /\ k a = Ok b.
Proof. destruct r as [a|e]; simpl; [eauto | discriminate]. Qed.

(* ------------------------------------------------------------------ *)
(** ** Structure A: minutes until a timestamp *)

Lemma minutes_until_nonneg (u : option instant) (now : instant) (m : Z) :
  StructureA._minutes_until u now = Some m -> 0 <= m.
Proof.
  unfold StructureA._minutes_until. destruct u; [|discriminate].
  intros [= <-]. lia.
Qed.

(** Less than 2^34 seconds ahead, the minutes are the exact ones. *)
Lemma minutes_until_exact (ts now : instant) :
  ts - now < 2 ^ 34 * US_PER_SECOND ->
  StructureA._minutes_until (Some ts) now
  = Some (Z.max 0 ((ts - now) / (60 * US_PER_SECOND))).
Proof.
  intros Hrange. unfold StructureA._minutes_until.
  now rewrite total_seconds_floordiv.
Qed.

(* ------------------------------------------------------------------ *)
(** ** Structure A: the loop of [normalize_departureboards] *)

Section NormalizeFacts.
Context {RT : PyRuntime}.
Import StructureA.

(** The turn of the loop, stage by stage. *)
Lemma normalize_entry_staged (metro_line : pystr) (now : instant)
  (dep : json) :
  normalize_entry metro_line now dep =
  (code <- entry_line_of dep ;;
   if negb (str_eqb code metro_line) then Ok None
   else
     dest <- entry_dest_of dep ;;
     used <- entry_timestamp dep ;;
     match used, _minutes_until used now with
     | Some t, Some m =>
         Ok (Some {| line := metro_line; dest := dest; in_min := m;
                     t_utc := Some (isoformat (aware_utc t)) |})
     | _, _ => Ok None
     end).
Proof. destruct dep; reflexivity. Qed.

(** What an appended record says about its entry. *)
Lemma normalize_entry_some (metro_line : pystr) (now : instant) (dep : json)
  (r : Departure) :
  normalize_entry metro_line now dep = Ok (Some r) ->
  entry_line_of dep = Ok metro_line
  /\ entry_dest_of dep = Ok (dest r)
  /\ exists t,
       entry_timestamp dep = Ok (Some t)
       /\ line r = metro_line
       /\ _minutes_until (Some t) now = Some (in_min r)
       /\ t_utc r = Some (isoformat (aware_utc t)).
Proof.
  rewrite normalize_entry_staged.
  destruct (entry_line_of dep) as [code|] eqn:El; simpl; [|discriminate].
  destruct (str_eqb code metro_line) eqn:Eq; simpl; [|discriminate].
  apply str_eqb_eq in Eq. subst code.
  destruct (entry_dest_of dep) as [d|] eqn:Ed; simpl; [|discriminate].
  destruct (entry_timestamp dep) as [[t|]|] eqn:Et; simpl; try discriminate.
  intros [= <-]. simpl. repeat split. exists t. repeat split.
Qed.

(** An entry of another line is passed over. *)
Lemma normalize_entry_other_line (metro_line : pystr) (now : instant)
  (dep : json) (code : pystr) :
  entry_line_of dep = Ok code -> code <> metro_line ->
  normalize_entry metro_line now dep = Ok None.
Proof.
  intros El Hne. rewrite normalize_entry_staged, El. simpl.
  destruct (str_eqb code metro_line) eqn:Eq; [|reflexivity].
  apply str_eqb_eq in Eq. contradiction.
Qed.

(** An entry without a usable timestamp is passed over. *)
Lemma normalize_entry_no_timestamp (metro_line : pystr) (now : instant)
  (dep : json) (code d : pystr) :
  entry_line_of dep = Ok code -> entry_dest_of dep = Ok d ->
  entry_timestamp dep = Ok None ->
  normalize_entry metro_line now dep = Ok None.
Proof.
  intros El Ed Et. rewrite normalize_entry_staged, El, Ed, Et. simpl.
  now destruct (str_eqb code metro_line).
Qed.

Lemma normalize_loop_In (metro_line : pystr) (now : instant)
  (deps : list json) (out : list Departure) :
  normalize_loop metro_line now deps = Ok out ->
  forall r, In r out ->
    exists dep, In dep deps /\ normalize_entry metro_line now dep = Ok (Some r).
Proof.
  revert out. induction deps as [|dep deps IH]; simpl; intros out H r Hr.
  - injection H as <-. destruct Hr.
  - apply bind_inv in H. destruct H as (o & Ho & H).
    apply bind_inv in H. destruct H as (out' & Hout' & H).
    injection H as <-.
    assert (Hrest : In r out' ->
      exists dep0, In dep0 (dep :: deps)
        /\ normalize_entry metro_line now dep0 = Ok (Some r)).
    { intros Hin. destruct (IH _ Hout' _ Hin) as (dep0 & ? & ?).
      exists dep0. split; [now right | assumption]. }
    destruct o as [d|]; [|auto].
    destruct Hr as [<-|Hr]; [|auto].
    exists dep. split; [now left | assumption].
Qed.

(** A passed-over entry leaves no trace in the loop. *)
Lemma normalize_loop_skip (metro_line : pystr) (now : instant)
  (before after : list json) (dep : json) :
  normalize_entry metro_line now dep = Ok None ->
  normalize_loop metro_line now (before ++ dep :: after)
  = normalize_loop metro_line now (before ++ after).
Proof.
  intros Hskip. induction before as [|b before IH]; simpl.
  - rewrite Hskip. simpl. apply bind_ok.
  - now rewrite IH.
Qed.

(** A board whose [departures] is the array [deps]. *)
Lemma normalize_board (deps : list json) (metro_line : pystr)
  (now : instant) :
  normalize_departureboards (departure_board deps) metro_line now =
  (out <- normalize_loop (str_upper (str_strip metro_line)) now deps ;;
   Ok (stable_sort by_minutes_then_dest out)).
Proof.
  unfold normalize_departureboards, payload_departures. simpl.
  now destruct deps.
Qed.

Lemma payload_departures_board (deps : list json) :
  payload_departures (departure_board deps) = Ok deps.
Proof. unfold payload_departures. simpl. now destruct deps. Qed.

(** Where the records of a batch come from. *)
Lemma normalize_departureboards_In (payload : json) (metro_line : pystr)
  (now : instant) (out : list Departure) :
  normalize_departureboards payload metro_line now = Ok out ->
  exists deps,
    payload_departures payload = Ok deps
    /\ forall r, In r out ->
         exists dep,
           In dep deps
           /\ normalize_entry (str_upper (str_strip metro_line)) now dep
              = Ok (Some r).
Proof.
  unfold normalize_departureboards. intros H.
  apply bind_inv in H. destruct H as (deps & Hdeps & H).
  apply bind_inv in H. destruct H as (raw & Hraw & H).
  injection H as <-. exists deps. split; [assumption|].
  intros r Hr. apply stable_sort_In in Hr.
  exact (normalize_loop_In _ _ _ _ Hraw r Hr).
Qed.

Lemma normalize_departureboards_sorted (payload : json) (metro_line : pystr)
  (now : instant) (out : list Departure) :
  normalize_departureboards payload metro_line now = Ok out ->
  StronglySorted in_display_order out.
Proof.
  unfold normalize_departureboards. intros H.
  apply bind_inv in H. destruct H as (deps & _ & H).
  apply bind_inv in H. destruct H as (raw & _ & H).
  injection H as <-.
  apply StronglySorted_weaken
    with (R := fun a b => by_minutes_then_dest a b = true).
  - intros a b. apply by_minutes_then_dest_spec.
  - apply stable_sort_sorted.
    + exact by_minutes_then_dest_total.
    + exact by_minutes_then_dest_trans.
Qed.

End NormalizeFacts.

(* ------------------------------------------------------------------ *)
(** ** Structure C: the parse inside [fetch_gtfs_rt] *)

Section ParseFeedFacts.
Import StructureC.

Lemma arrival_time_some (stu : StopTimeUpdate) (ts : Z) :
  arrival_time stu = Some ts ->
  exists ev, arrival stu = Some ev /\ time ev = ts /\ ts <> 0.
Proof.
  unfold arrival_time. destruct (arrival stu) as [ev|]; [|discriminate].
  destruct (Z.eqb_spec (time ev) 0); [discriminate|].
  intros [= <-]. now exists ev.
Qed.

Lemma first_arrival_In (rid : pystr) (hs : option pystr) (now_ts : Z)
  (stus : list StopTimeUpdate) (r : Departure) :
  In r (first_arrival rid hs now_ts stus) ->
  exists stu ts,
    In stu stus /\ arrival_time stu = Some ts
    /\ r = departure_of rid hs now_ts ts.
Proof.
  induction stus as [|stu stus IH]; simpl; [easy|].
  destruct (arrival_time stu) as [ts|] eqn:E.
  - intros [<-|[]]. exists stu, ts. auto.
  - intros H. destruct (IH H) as (stu' & ts & ? & ? & ?).
    exists stu', ts. auto.
Qed.

Lemma first_arrival_length (rid : pystr) (hs : option pystr) (now_ts : Z)
  (stus : list StopTimeUpdate) :
  (length (first_arrival rid hs now_ts stus) <= 1)%nat.
Proof.
  induction stus as [|stu stus IH]; simpl; [lia|].
  destruct (arrival_time stu); simpl; lia.
Qed.

(** The updates in front of the first carrier are skipped, the ones behind
    it are not looked at. *)
Lemma first_arrival_first (rid : pystr) (hs : option pystr) (now_ts : Z)
  (skipped rest : list StopTimeUpdate) (stu : StopTimeUpdate) (ts : Z) :
  Forall (fun s => arrival_time s = None) skipped ->
  arrival_time stu = Some ts ->
  first_arrival rid hs now_ts (skipped ++ stu :: rest)
  = [departure_of rid hs now_ts ts].
Proof.
  intros Hskip Hts. induction Hskip as [|s skipped Hs _ IH]; simpl.
  - now rewrite Hts.
  - now rewrite Hs.
Qed.

Lemma first_arrival_none (rid : pystr) (hs : option pystr) (now_ts : Z)
  (stus : list StopTimeUpdate) :
  Forall (fun s => arrival_time s = None) stus ->
  first_arrival rid hs now_ts stus = [].
Proof.
  induction 1 as [|s stus Hs _ IH]; simpl; [reflexivity|]. now rewrite Hs.
Qed.

(** Below [60 * 2^48] seconds the minutes of a record are the exact
    ones. *)
Lemma departure_of_minutes (rid : pystr) (hs : option pystr)
  (now_ts ts : Z) :
  ts - now_ts < 60 * 2 ^ 48 ->
  in_min (departure_of rid hs now_ts ts) = Z.max 0 ((ts - now_ts) / 60).
Proof.
  intros Hrange. unfold departure_of. cbn [in_min].
  now apply true_divide_minutes.
Qed.

Lemma str_prefix_length (n : nat) (s : pystr) :
  (length (str_prefix n s) <= n)%nat.
Proof. apply firstn_le_length. Qed.

Lemma str_or_unknown_length (rid : pystr) (hs : option pystr)
  (now_ts ts : Z) :
  (length rid <= 10)%nat ->
  (length (line (departure_of rid hs now_ts ts)) <= 10)%nat.
Proof. destruct rid; simpl; lia. Qed.

Lemma parse_feed_In (feed : FeedMessage) (now_ts : Z) (r : Departure) :
  In r (parse_feed feed now_ts) ->
  exists e, In e (entity feed) /\ In r (entity_departures now_ts e).
Proof.
  unfold parse_feed. intros H. apply firstn_In in H.
  apply stable_sort_In in H. apply in_flat_map in H. exact H.
Qed.

Lemma parse_feed_sorted (feed : FeedMessage) (now_ts : Z) :
  StronglySorted not_later (parse_feed feed now_ts).
Proof.
  apply firstn_StronglySorted.
  apply StronglySorted_weaken with (R := fun a b => by_minutes a b = true).
  - intros a b. apply by_minutes_spec.
  - apply stable_sort_sorted.
    + exact by_minutes_total.
    + exact by_minutes_trans.
Qed.

End ParseFeedFacts.

(* ------------------------------------------------------------------ *)
(** ** Order of a batch *)

(** C1, as the claim states it, fails on the binary variant: two trips due
    in the same minute leave [parse_feed] in the order of the feed, here
    destination [B] ahead of destination [A]. *)
Lemma binary_ties_ignore_destination :
  ~ StronglySorted in_display_order
      (StructureC.parse_feed Samples.tie_feed 0).
Proof.
  intros H. apply StronglySorted_inv in H. destruct H as [_ H].
  apply Forall_inv in H. destruct H as [_ H].
  specialize (H eq_refl). discriminate H.
Qed.

(** Two lists sorted by minutes in which the records due in any one minute
    come in the same order are one list. *)
Lemma sorted_stable_unique (l1 l2 : list Departure) :
  StronglySorted not_later l1 -> StronglySorted not_later l2 ->
  (forall m, filter (due_in m) l1 = filter (due_in m) l2) ->
  l1 = l2.
Proof.
  assert (Hdue : forall d, due_in (in_min d) d = true)
    by (intros d; apply Z.eqb_refl).
  intros H1. revert l2.
  induction H1 as [|x t1 Ht1 IH Hx]; intros l2 H2 Hf.
  - destruct l2 as [|y t2]; [reflexivity|].
    specialize (Hf (in_min y)). cbn [filter] in Hf.
    rewrite Hdue in Hf. discriminate.
  - destruct H2 as [|y t2 Ht2 Hy].
    { specialize (Hf (in_min x)). cbn [filter] in Hf.
      rewrite Hdue in Hf. discriminate. }
    rewrite Forall_forall in Hx, Hy.
    assert (Hxy : in_min y <= in_min x).
    { assert (Hin : In x (y :: t2)).
      { apply (proj1 (filter_In (due_in (in_min x)) x (y :: t2))).
        rewrite <- Hf. cbn [filter]. rewrite Hdue. now left. }
      destruct Hin as [->|Hin]; [lia | exact (Hy x Hin)]. }
    assert (Hyx : in_min x <= in_min y).
    { assert (Hin : In y (x :: t1)).
      { apply (proj1 (filter_In (due_in (in_min y)) y (x :: t1))).
        rewrite Hf. cbn [filter]. rewrite Hdue. now left. }
      destruct Hin as [->|Hin]; [lia | exact (Hx y Hin)]. }
    assert (Hm : in_min y = in_min x) by lia.
    pose proof (Hf (in_min x)) as Hhead. cbn [filter] in Hhead.
    assert (Hy' : due_in (in_min x) y = true)
      by (unfold due_in; apply Z.eqb_eq; lia).
    rewrite Hdue, Hy' in Hhead.
    injection Hhead as <- Htail. f_equal. apply IH; [exact Ht2|].
    intros m. destruct (Z.eq_dec m (in_min x)) as [->|Hne]; [exact Htail|].
    specialize (Hf m). cbn [filter] in Hf.
    assert (Hno : due_in m x = false)
      by (unfold due_in; apply Z.eqb_neq; lia).
    now rewrite Hno in Hf.
Qed.

(** C1 (amended).  A batch of the JSON variant is sorted by [minutes_until],
    ties by destination ascending.  A batch of the binary variant is sorted
    by [minutes_until] alone: it is the first 50 records of the one
    rearrangement of the parsed records that is sorted by [minutes_until]
    and in which records due in the same minute keep the order of the
    feed. *)
Theorem batch_order {RT : PyRuntime} (payload : json) (metro_line : pystr)
  (now : instant) (feed : StructureC.FeedMessage) (now_ts : Z) :
  (forall out,
     StructureA.normalize_departureboards payload metro_line now = Ok out ->
     StronglySorted in_display_order out)
  /\ StronglySorted not_later (StructureC.parse_feed feed now_ts)
  /\ (exists sorted,
        StructureC.parse_feed feed now_ts = firstn 50 sorted
        /\ Permutation sorted
             (flat_map (StructureC.entity_departures now_ts)
                (StructureC.entity feed))
        /\ StronglySorted not_later sorted
        /\ forall m,
             filter (due_in m) sorted
             = filter (due_in m)
                 (flat_map (StructureC.entity_departures now_ts)
                    (StructureC.entity feed)))
  /\ (forall sorted,
        StronglySorted not_later sorted ->
        (forall m,
           filter (due_in m) sorted
           = filter (due_in m)
               (flat_map (StructureC.entity_departures now_ts)
                  (StructureC.entity feed))) ->
        StructureC.parse_feed feed now_ts = firstn 50 sorted).
Proof.
  assert (Hsorted : StronglySorted not_later
                      (stable_sort by_minutes
                         (flat_map (StructureC.entity_departures now_ts)
                            (StructureC.entity feed)))).
  { apply StronglySorted_weaken with (R := fun a b => by_minutes a b = true).
    - intros a b. apply by_minutes_spec.
    - apply stable_sort_sorted.
      + exact by_minutes_total.
      + exact by_minutes_trans. }
  assert (Hstable : forall m,
            filter (due_in m)
              (stable_sort by_minutes
                 (flat_map (StructureC.entity_departures now_ts)
                    (StructureC.entity feed)))
            = filter (due_in m)
                (flat_map (StructureC.entity_departures now_ts)
                   (StructureC.entity feed))).
  { intros m. apply stable_sort_filter. apply by_minutes_keeps_ties. }
  split; [|split; [|split]].
  - intros out. apply normalize_departureboards_sorted.
  - apply parse_feed_sorted.
  - eexists. split; [reflexivity|]. split; [apply stable_sort_perm|].
    split; [exact Hsorted | exact Hstable].
  - intros sorted Hs Hf. unfold StructureC.parse_feed. f_equal.
    apply sorted_stable_unique; [exact Hsorted | exact Hs|].
    intros m. now rewrite Hstable, Hf.
Qed.

Lemma batch_order_witness :
  (exists out,
     StructureA.normalize_departureboards (RT := Reference.runtime)
       Samples.two_departures (py "B") Samples.ten_o_clock = Ok out
     /\ map dest out = [py "Y"; py "X"]
     /\ StronglySorted in_display_order out)
  /\ StructureC.parse_feed Samples.tie_feed 0
     = firstn 50
         (flat_map (StructureC.entity_departures 0)
            (StructureC.entity Samples.tie_feed)).
Proof.
  destruct (batch_order (RT := Reference.runtime) Samples.two_departures
              (py "B") Samples.ten_o_clock Samples.tie_feed 0)
    as (HA & _ & _ & HC).
  split.
  - eexists. split; [vm_compute; reflexivity|]. split; [reflexivity|].
    apply HA. vm_compute. reflexivity.
  - apply HC.
    + repeat constructor; vm_compute; discriminate.
    + reflexivity.
Defined.

(* ------------------------------------------------------------------ *)
(** ** Minutes until departure *)

(** C4 (defect).  The minutes of a record miss
    [max(0, floor((timestamp - now) / one minute))] in both parsers.  The
    binary variant takes [int(utcnow().timestamp())] for [now], which is the
    clock moved by the zone of the host: the feed of [mock_feed.py], due 120
    seconds after it is written and read in that same second, is shown with
    62 minutes on a host an hour east of UTC, with 0 on a host five hours
    west, and with the 2 minutes the claim gives on a host on UTC only.  The
    JSON variant divides in binary64: a train due one microsecond short of
    286331154 minutes from now is shown with 286331154, one more than the
    floor. *)
Theorem minutes_until_misses_the_floor :
  map in_min
    (StructureC.parse_feed (ToolsC.mock_feed Hosts.clock)
       (StructureC.utcnow_timestamp Hosts.prague Hosts.clock)) = [62]
  /\ map in_min
       (StructureC.parse_feed (ToolsC.mock_feed Hosts.clock)
          (StructureC.utcnow_timestamp Hosts.new_york Hosts.clock)) = [0]
  /\ map in_min
       (StructureC.parse_feed (ToolsC.mock_feed Hosts.clock)
          (StructureC.utcnow_timestamp Hosts.utc Hosts.clock)) = [2]
  /\ Z.max 0 ((Hosts.clock + 120 - Hosts.clock) / 60) = 2
  /\ entry_timestamp (RT := Reference.runtime) Hosts.far_entry
     = Ok (Some Hosts.far_instant)
  /\ (exists r,
        StructureA.normalize_departureboards (RT := Reference.runtime)
          (departure_board [Hosts.far_entry]) (py "A") Samples.ten_o_clock
        = Ok [r]
        /\ in_min r = 286331154)
  /\ Z.max 0
       ((Hosts.far_instant - Samples.ten_o_clock) / (60 * US_PER_SECOND))
     = 286331153.
Proof.
  split; [vm_compute; reflexivity|]. split; [vm_compute; reflexivity|].
  split; [vm_compute; reflexivity|]. split; [reflexivity|].
  split; [vm_compute; reflexivity|]. split; [|vm_compute; reflexivity].
  eexists. split; vm_compute; reflexivity.
Qed.

(* ------------------------------------------------------------------ *)
(** ** The pollers *)

Section PollerFacts.
Context {RT : PyRuntime}.
Import StructureA.

Lemma poller_cycle_failed (cfg : Config) (st : Store) (c : Cycle) :
  succeeded cfg c = false -> poller_cycle cfg st c = st.
Proof.
  unfold succeeded, poller_cycle.
  now destruct (fetch_golemio_departures cfg (answer c) (fetched_at c)).
Qed.

Lemma poller_cycle_succeeded (cfg : Config) (st : Store) (c : Cycle) :
  succeeded cfg c = true ->
  LAST_OK_UTC (poller_cycle cfg st c) = Some (stored_at c).
Proof.
  unfold succeeded, poller_cycle.
  now destruct (fetch_golemio_departures cfg (answer c) (fetched_at c)).
Qed.

Lemma poller_loop_app (cfg : Config) (cs1 cs2 : list Cycle) (st : Store) :
  poller_loop cfg (cs1 ++ cs2) st
  = poller_loop cfg cs2 (poller_loop cfg cs1 st).
Proof. apply fold_left_app. Qed.

Lemma poller_loop_all_failed (cfg : Config) (cycles : list Cycle)
  (st : Store) :
  (forall c, In c cycles -> succeeded cfg c = false) ->
  poller_loop cfg cycles st = st.
Proof.
  revert st. induction cycles as [|c cycles IH]; intros st H; simpl;
    [reflexivity|].
  rewrite poller_cycle_failed by (apply H; now left).
  apply IH. intros c' Hc'. apply H. now right.
Qed.

(** The instant in the store is the one of the latest success. *)
Lemma poller_loop_last_success (cfg : Config) (before after : list Cycle)
  (c : Cycle) (st : Store) :
  succeeded cfg c = true ->
  (forall c', In c' after -> succeeded cfg c' = false) ->
  LAST_OK_UTC (poller_loop cfg (before ++ c :: after) st) = Some (stored_at c).
Proof.
  intros Hc Hafter. rewrite poller_loop_app. simpl.
  rewrite poller_loop_all_failed by assumption.
  now apply poller_cycle_succeeded.
Qed.


(** What makes a fetch fail: no credential, a request, status or body that
    raises, or a payload on which [normalize_departureboards] raises. *)
Lemma fetch_golemio_departures_none (cfg : Config) (up : Upstream)
  (now : instant) :
  fetch_golemio_departures cfg up now = None <->
  API_KEY cfg = []
  \/ up = RequestFailed \/ up = ErrorStatus \/ up = BodyNotJson
  \/ exists payload e,
       up = Body payload
       /\ normalize_departureboards payload METRO_LINE now = Raise e.
Proof.
  unfold fetch_golemio_departures. destruct (API_KEY cfg) as [|k ks].
  - split; [now left | reflexivity].
  - destruct up as [| | |payload]; try (split; [intuition | reflexivity]).
    destruct (normalize_departureboards payload METRO_LINE now) as [out|e]
      eqn:E; simpl.
    + split; [discriminate|].
      intros [H|[H|[H|[H|(p & e & [= <-] & H)]]]]; try discriminate H.
      rewrite E in H. discriminate H.
    + split; [|reflexivity]. intros _. do 4 right. now exists payload, e.
Qed.

(** Without a credential no cycle succeeds. *)
Lemma poller_without_credential (cfg : Config) (cycles : list Cycle) :
  API_KEY cfg = [] ->
  poller_loop cfg cycles initial_store = initial_store.
Proof.
  intros Hkey. apply poller_loop_all_failed. intros c _.
  unfold succeeded, fetch_golemio_departures. now rewrite Hkey.
Qed.

(** A failed cycle is absorbed: the cycles after it run as if it had not
    taken place. *)
Lemma failed_cycle_is_absorbed (cfg : Config) (before after : list Cycle)
  (c : Cycle) (st : Store) :
  succeeded cfg c = false ->
  poller_loop cfg (before ++ c :: after) st
  = poller_loop cfg (before ++ after) st.
Proof.
  intros Hc. rewrite !poller_loop_app. simpl.
  now rewrite poller_cycle_failed.
Qed.

(** A board without an entry of the target line gives the empty batch. *)
Lemma board_of_other_lines (cfg : Config) (deps : list json)
  (now : instant) :
  API_KEY cfg <> [] ->
  (forall dep, In dep deps ->
     exists code,
       entry_line_of dep = Ok code
       /\ code <> str_upper (str_strip METRO_LINE)) ->
  fetch_golemio_departures cfg (Body (departure_board deps)) now = Some [].
Proof.
  intros Hkey Hother. unfold fetch_golemio_departures.
  destruct (API_KEY cfg); [contradiction|].
  rewrite normalize_board.
  assert (Hloop :
    normalize_loop (str_upper (str_strip METRO_LINE)) now deps = Ok []).
  { induction deps as [|dep deps IH]; simpl; [reflexivity|].
    destruct (Hother dep (or_introl eq_refl)) as (code & Hcode & Hne).
    rewrite (normalize_entry_other_line _ _ _ _ Hcode Hne). simpl.
    rewrite IH; [reflexivity|]. intros d Hd. apply Hother. now right. }
  rewrite Hloop. reflexivity.
Qed.


End PollerFacts.

(** C2, as the claim states it, fails on structure C: after a cycle whose
    fetch gave a batch the store holds the batch and still no instant of
    success. *)
Lemma gtfs_poller_records_no_instant :
  ~ cycle_contract StructureC.initial_store
      (StructureC.poller_cycle (py "feed.pb") StructureC.initial_store
         Samples.tie_cycle)
      (StructureC.fetch_gtfs_rt (py "feed.pb")
         (StructureC.source Samples.tie_cycle)
         (StructureC.fetched_at Samples.tie_cycle))
      (StructureC.fetched_at Samples.tie_cycle).
Proof. intros [_ H]. discriminate H. Qed.

(** C2 (amended).  In structure A a cycle whose fetch gives nothing leaves
    the store as it was, and a cycle whose fetch gives a batch stores the
    batch and the reading of the clock as the instant of the last success.
    In structure C a cycle whose fetch gives nothing leaves the store as it
    was, and a cycle whose fetch gives a batch stores the batch; that store
    has no instant of the last success. *)
Theorem poller_cycle_effect {RT : PyRuntime} (cfg : StructureA.Config)
  (st : StructureA.Store) (c : StructureA.Cycle) (url : pystr)
  (st' : StructureC.Store) (c' : StructureC.Cycle) :
  cycle_contract st (StructureA.poller_cycle cfg st c)
    (StructureA.fetch_golemio_departures cfg (StructureA.answer c)
       (StructureA.fetched_at c))
    (StructureA.stored_at c)
  /\ (StructureA.fetch_golemio_departures cfg (StructureA.answer c)
        (StructureA.fetched_at c) = None ->
      StructureA.poller_cycle cfg st c = st)
  /\ (StructureC.fetch_gtfs_rt url (StructureC.source c')
        (StructureC.fetched_at c') = None ->
      StructureC.poller_cycle url st' c' = st')
  /\ (forall batch,
        StructureC.fetch_gtfs_rt url (StructureC.source c')
          (StructureC.fetched_at c') = Some batch ->
        StructureC.poller_cycle url st' c'
        = {| StructureC.LATEST_DEPARTURES := batch |}).
Proof.
  unfold StructureA.poller_cycle, StructureC.poller_cycle, cycle_contract.
  repeat split.
  - destruct (StructureA.fetch_golemio_departures cfg (StructureA.answer c)
                (StructureA.fetched_at c)); simpl; auto.
  - now intros ->.
  - now intros ->.
  - now intros batch ->.
Qed.

Lemma poller_cycle_effect_witness :
  (StructureA.fetch_golemio_departures (RT := Reference.runtime)
     Samples.config (StructureA.answer Samples.failed_cycle)
     (StructureA.fetched_at Samples.failed_cycle) = None
   /\ StructureA.poller_cycle (RT := Reference.runtime) Samples.config
        StructureA.initial_store Samples.failed_cycle
      = StructureA.initial_store)
  /\ (StructureC.fetch_gtfs_rt (py "feed.pb")
        (StructureC.source Samples.unreadable_cycle)
        (StructureC.fetched_at Samples.unreadable_cycle) = None
      /\ StructureC.poller_cycle (py "feed.pb") StructureC.initial_store
           Samples.unreadable_cycle
         = StructureC.initial_store)
  /\ (exists batch,
        StructureC.fetch_gtfs_rt (py "feed.pb")
          (StructureC.source Samples.tie_cycle)
          (StructureC.fetched_at Samples.tie_cycle) = Some batch
        /\ StructureC.poller_cycle (py "feed.pb") StructureC.initial_store
             Samples.tie_cycle
           = {| StructureC.LATEST_DEPARTURES := batch |}).
Proof.
  destruct (poller_cycle_effect (RT := Reference.runtime) Samples.config
              StructureA.initial_store Samples.failed_cycle (py "feed.pb")
              StructureC.initial_store Samples.unreadable_cycle)
    as (_ & HA & HC & _).
  destruct (poller_cycle_effect (RT := Reference.runtime) Samples.config
              StructureA.initial_store Samples.failed_cycle (py "feed.pb")
              StructureC.initial_store Samples.tie_cycle)
    as (_ & _ & _ & HC').
  split; [|split].
  - split; [reflexivity | apply HA; reflexivity].
  - split; [reflexivity | apply HC; reflexivity].
  - eexists. split; [reflexivity | apply HC'; reflexivity].
Defined.

(* ------------------------------------------------------------------ *)
(** ** Liveness *)



(* ------------------------------------------------------------------ *)
(** ** An empty batch *)

(** C10.  A cycle whose fetch gives the empty batch is a success: the store
    then holds the empty list and the reading of the clock, and [online] is
    true as long as that reading is no older than the threshold.  A board
    none of whose entries is of the target line is such a batch. *)
Theorem empty_batch_is_a_success {RT : PyRuntime} (cfg : StructureA.Config)
  (st : StructureA.Store) (c : StructureA.Cycle) (now : instant) :
  StructureA.fetch_golemio_departures cfg (StructureA.answer c)
    (StructureA.fetched_at c) = Some [] ->
  now - StructureA.stored_at c
  <= StructureA.OFFLINE_AFTER_SECONDS cfg * US_PER_SECOND ->
  StructureA.poller_cycle cfg st c
  = {| StructureA.LATEST_DEPARTURES := [];
       StructureA.LAST_OK_UTC := Some (StructureA.stored_at c) |}
  /\ StructureA._is_online cfg (StructureA.poller_cycle cfg st c) now = true
  /\ StructureA.LATEST_DEPARTURES (StructureA.poller_cycle cfg st c) = [].
Proof.
  intros Hfetch Hrecent. unfold StructureA.poller_cycle. rewrite Hfetch.
  repeat split. unfold StructureA._is_online. simpl.
  apply Z.leb_le. exact Hrecent.
Qed.

Lemma empty_batch_is_a_success_witness :
  StructureA.fetch_golemio_departures (RT := Reference.runtime)
    Samples.config (StructureA.answer Samples.board_cycle)
    (StructureA.fetched_at Samples.board_cycle) = Some []
  /\ StructureA._is_online Samples.config
       (StructureA.poller_cycle (RT := Reference.runtime) Samples.config
          StructureA.initial_store Samples.board_cycle)
       (Samples.ten_o_clock + 30 * US_PER_SECOND) = true
  /\ StructureA.LATEST_DEPARTURES
       (StructureA.poller_cycle (RT := Reference.runtime) Samples.config
          StructureA.initial_store Samples.board_cycle) = [].
Proof.
  split; [vm_compute; reflexivity|].
  apply (empty_batch_is_a_success (RT := Reference.runtime) Samples.config
           StructureA.initial_store Samples.board_cycle
           (Samples.ten_o_clock + 30 * US_PER_SECOND)).
  - vm_compute. reflexivity.
  - vm_compute. discriminate.
Defined.

(* ------------------------------------------------------------------ *)
(** ** The line filter of the JSON variant *)

(** C5, as the claim states it, fails: the comparison is made after
    [strip] as well, so the short name [" a "] is of line [A] although the
    two differ when merely uppercased. *)
Lemma line_filter_strips_blanks :
  ~ filters_by_uppercase (RT := Reference.runtime) (py "A")
      Samples.ten_o_clock Samples.padded.
Proof.
  intros H. specialize (H (py " a ") eq_refl).
  assert (Hne : str_upper (PyRuntime := Reference.runtime) (py " a ")
                <> str_upper (PyRuntime := Reference.runtime) (py "A"))
    by (vm_compute; discriminate).
  specialize (H Hne). vm_compute in H. discriminate H.
Qed.

(** C5 (amended).  A record of the batch comes from an entry whose line
    code is that of the target line, the line code of a text being the text
    stripped of surrounding blanks and uppercased.  An entry with another
    line code is passed over without an exception: the batch is the one the
    board gives without that entry. *)
Theorem other_lines_are_dropped {RT : PyRuntime} (payload : json)
  (metro_line : pystr) (now : instant) :
  (forall out r,
     StructureA.normalize_departureboards payload metro_line now = Ok out ->
     In r out ->
     exists deps dep,
       StructureA.payload_departures payload = Ok deps
       /\ In dep deps
       /\ entry_line_of dep = Ok (str_upper (str_strip metro_line))
       /\ StructureA.normalize_entry (str_upper (str_strip metro_line)) now
            dep = Ok (Some r))
  /\ (forall dep code,
        entry_line_of dep = Ok code ->
        code <> str_upper (str_strip metro_line) ->
        StructureA.normalize_entry (str_upper (str_strip metro_line)) now dep
        = Ok None
        /\ forall before after,
             StructureA.normalize_departureboards
               (departure_board (before ++ dep :: after)) metro_line now
             = StructureA.normalize_departureboards
                 (departure_board (before ++ after)) metro_line now)
  /\ (forall dep short_name,
        short_name_of dep = Some short_name ->
        entry_line_of dep = Ok (str_upper (str_strip short_name))).
Proof.
  split; [|split].
  - intros out r Hout Hr.
    destruct (normalize_departureboards_In _ _ _ _ Hout) as (deps & Hd & Hin).
    destruct (Hin r Hr) as (dep & Hdep & Hentry).
    exists deps, dep. repeat split; try assumption.
    now apply normalize_entry_some in Hentry.
  - intros dep code Hcode Hne.
    assert (Hskip :
      StructureA.normalize_entry (str_upper (str_strip metro_line)) now dep
      = Ok None) by (now apply normalize_entry_other_line with code).
    split; [exact Hskip|].
    intros before after. rewrite !normalize_board.
    now rewrite normalize_loop_skip.
  - intros dep short_name Hshort. unfold short_name_of in Hshort.
    destruct dep as [| | | | |l|fields]; try discriminate Hshort.
    destruct (assoc (py "route") fields) as [[| | | | |l|route]|] eqn:Hroute;
      try discriminate Hshort.
    destruct (assoc (py "short_name") route) as [[| | | |s|l|m]|] eqn:Hname;
      try discriminate Hshort.
    injection Hshort as ->.
    unfold entry_line_of, dict_get, dict_get_default. rewrite Hroute.
    cbn [bind].
    assert (Ht : py_or (JObj route) (JObj []) = JObj route).
    { destruct route; [discriminate Hname | reflexivity]. }
    rewrite Ht. unfold StructureA.entry_line, dict_get, dict_get_default.
    rewrite Hname. cbn [bind]. unfold py_or. now destruct short_name.
Qed.

Lemma other_lines_are_dropped_witness :
  (exists out r,
     StructureA.normalize_departureboards (RT := Reference.runtime)
       Samples.two_departures (py "b") Samples.ten_o_clock = Ok out
     /\ In r out
     /\ line r = py "B")
  /\ entry_line_of (RT := Reference.runtime)
       (Samples.board_entry "B" "X" "2099-01-01T10:10:00Z") = Ok (py "B")
  /\ StructureA.normalize_entry (RT := Reference.runtime) (py "A")
       Samples.ten_o_clock
       (Samples.board_entry "B" "X" "2099-01-01T10:10:00Z") = Ok None
  /\ StructureA.normalize_departureboards (RT := Reference.runtime)
       (departure_board
          ([Samples.scheduled_only]
           ++ Samples.board_entry "B" "X" "2099-01-01T10:10:00Z" :: []))
       (py "a") Samples.ten_o_clock
     = StructureA.normalize_departureboards (RT := Reference.runtime)
         (departure_board ([Samples.scheduled_only] ++ []))
         (py "a") Samples.ten_o_clock
  /\ entry_line_of (RT := Reference.runtime) Samples.scheduled_only
     = Ok (py "A").
Proof.
  destruct (other_lines_are_dropped (RT := Reference.runtime)
              Samples.two_departures (py "b") Samples.ten_o_clock)
    as (Hfrom & _ & _).
  destruct (other_lines_are_dropped (RT := Reference.runtime)
              Samples.two_departures (py "a") Samples.ten_o_clock)
    as (_ & Hdrop & Hcode).
  destruct (Hdrop (Samples.board_entry "B" "X" "2099-01-01T10:10:00Z")
              (py "B")) as [Hskip Hbatch].
  - vm_compute. reflexivity.
  - vm_compute. discriminate.
  - split; [|split; [|split; [|split]]].
    + eexists. eexists. split; [vm_compute; reflexivity|].
      split; [left; reflexivity|].
      match goal with
      | |- line ?r = _ =>
          destruct (Hfrom _ r eq_refl (or_introl eq_refl))
            as (deps & dep & _ & _ & _ & Hentry)
      end.
      apply normalize_entry_some in Hentry.
      destruct Hentry as (_ & _ & t & _ & Hline & _). exact Hline.
    + vm_compute. reflexivity.
    + exact Hskip.
    + apply Hbatch.
    + apply (Hcode _ (py "a")). reflexivity.
Defined.

(* ------------------------------------------------------------------ *)
(** ** The timestamp of an entry *)

Section TimestampFacts.
Context {RT : PyRuntime}.
Import StructureA.

Lemma str_replace_app (c : N) (by_ s1 s2 : pystr) :
  str_replace c by_ (s1 ++ s2) = str_replace c by_ s1 ++ str_replace c by_ s2.
Proof. apply flat_map_app. Qed.

(** [_parse_iso] on a text that is not empty. *)
Lemma parse_iso_text (s : pystr) :
  s <> [] ->
  _parse_iso (JStr s) =
  match fromisoformat (str_replace 90%N (py "+00:00") s) with
  | None => Ok None
  | Some d =>
      t <- astimezone_utc
             match utcoffset d with
             | None => {| wall := wall d; utcoffset := Some 0 |}
             | Some _ => d
             end ;;
      Ok (Some t)
  end.
Proof. intros Hs. destruct s; [contradiction | reflexivity]. Qed.

Lemma entry_timestamp_iff (dep : json) (u : option instant) :
  entry_timestamp dep = Ok u <->
  exists p s,
    entry_predicted dep = Ok p /\ entry_scheduled dep = Ok s
    /\ u = match p with Some t => Some t | None => s end.
Proof.
  unfold entry_timestamp, entry_predicted, entry_scheduled, entry_used.
  destruct (dict_get dep (py "departure_timestamp")) as [ts|]; simpl.
  2: { split; [discriminate | intros (? & ? & H & _); discriminate H]. }
  destruct (dict_get (py_or ts (JObj [])) (py "predicted")) as [pj|]; simpl.
  2: { split; [discriminate | intros (? & ? & H & _); discriminate H]. }
  destruct (_parse_iso pj) as [p|]; simpl.
  2: { split; [discriminate | intros (? & ? & H & _); discriminate H]. }
  destruct (dict_get (py_or ts (JObj [])) (py "scheduled")) as [sj|]; simpl.
  2: { split; [discriminate | intros (? & ? & _ & H & _); discriminate H]. }
  destruct (_parse_iso sj) as [s|]; simpl.
  2: { split; [discriminate | intros (? & ? & _ & H & _); discriminate H]. }
  split.
  - intros [= <-]. now exists p, s.
  - intros (p' & s' & [= <-] & [= <-] & ->). reflexivity.
Qed.

(** A field that is read without an exception is read off the entry as
    [timestamp_field] has it. *)
Lemma entry_field_parse (dep : json) (key : pystr) (r : option instant) :
  (ts <- dict_get dep (py "departure_timestamp") ;;
   v <- dict_get (py_or ts (JObj [])) key ;;
   _parse_iso v) = Ok r ->
  _parse_iso (timestamp_field dep key) = Ok r.
Proof.
  destruct dep as [| | | | | |fields]; try discriminate.
  unfold dict_get, dict_get_default, timestamp_field. cbn [bind].
  destruct (assoc (py "departure_timestamp") fields)
    as [[|b|n|f|s|l|ts]|]; unfold py_or; cbn [truthy].
  - trivial.
  - destruct b; cbn [bind]; [discriminate | trivial].
  - destruct (n =? 0); cbn [negb bind]; [trivial | discriminate].
  - destruct (PrimFloat.eqb f _); cbn [negb bind]; [trivial | discriminate].
  - destruct s; cbn [bind]; [trivial | discriminate].
  - destruct l; cbn [bind]; [trivial | discriminate].
  - destruct ts; cbn [bind assoc]; trivial.
  - trivial.
Qed.

Lemma timestamp_rule_holds (dep : json) (p s : option instant) :
  entry_predicted dep = Ok p -> entry_scheduled dep = Ok s ->
  timestamp_rule dep.
Proof.
  intros Hp Hs. unfold timestamp_rule, instant_of.
  rewrite (entry_field_parse _ _ _ Hp), (entry_field_parse _ _ _ Hs).
  apply entry_timestamp_iff. exists p, s. repeat split; try assumption.
  now destruct p, s.
Qed.

End TimestampFacts.

(** A prediction that is a number is no instant, yet the entry does not fall
    back on its schedule: [_parse_iso] is written for [Optional[str]] and
    raises on what is not a text. *)
Lemma numeric_prediction_is_not_skipped :
  ~ timestamp_rule (RT := Reference.runtime) Samples.numeric_prediction.
Proof. intros H. vm_compute in H. discriminate H. Qed.

(** C6 (defect).  A prediction that is a well-formed ISO-8601 text with an
    offset, whose UTC reading lies before [datetime.min], is neither used
    nor counted as absent: [astimezone] stands after the [try] of
    [_parse_iso], its [OverflowError] ends the loop, and the fetch gives
    nothing although the board holds a good entry and the entry itself a
    good schedule.  Without that entry the batch is produced. *)
Theorem out_of_range_prediction_loses_the_batch :
  fromisoformat (PyRuntime := Reference.runtime)
    (py "0001-01-01T00:00:00+01:00")
  = Some {| wall := DATETIME_MIN; utcoffset := Some (3600 * US_PER_SECOND) |}
  /\ StructureA._parse_iso (RT := Reference.runtime)
       (JStr (py "0001-01-01T00:00:00+01:00")) = Raise OverflowError
  /\ entry_scheduled (RT := Reference.runtime) Samples.before_year_one
     = Ok (Some (Samples.ten_o_clock + 300 * US_PER_SECOND))
  /\ StructureA.normalize_departureboards (RT := Reference.runtime)
       (departure_board [Samples.scheduled_only; Samples.before_year_one])
       (py "A") Samples.ten_o_clock = Raise OverflowError
  /\ StructureA.fetch_golemio_departures (RT := Reference.runtime)
       Samples.config
       (StructureA.Body
          (departure_board [Samples.scheduled_only; Samples.before_year_one]))
       Samples.ten_o_clock = None
  /\ (exists r,
        StructureA.normalize_departureboards (RT := Reference.runtime)
          (departure_board [Samples.scheduled_only]) (py "A")
          Samples.ten_o_clock = Ok [r]
        /\ in_min r = 5).
Proof.
  split; [vm_compute; reflexivity|]. split; [vm_compute; reflexivity|].
  split; [vm_compute; reflexivity|]. split; [vm_compute; reflexivity|].
  split; [vm_compute; reflexivity|].
  eexists. split; vm_compute; reflexivity.
Qed.

(** X28 ([_parse_iso], [normalize_departureboards]).  For an entry whose
    [predicted] and [scheduled] fields are read without an exception, the
    timestamp is what [_parse_iso] makes of [predicted] when that is an
    instant, and of [scheduled] otherwise; the minutes of an emitted record
    are those [_minutes_until] gives for it.  A final [Z] reads as the
    offset [+00:00], a reading without offset is taken as UTC, a text
    [fromisoformat] rejects counts as absent and raises nothing, and an
    entry neither of whose fields gives an instant is passed over: the loop
    gives what it gives without that entry. *)
Theorem timestamp_selection {RT : PyRuntime} (metro_line : pystr)
  (now : instant) (dep : json) :
  (forall p s,
     entry_predicted dep = Ok p -> entry_scheduled dep = Ok s ->
     timestamp_rule dep
     /\ entry_timestamp dep
        = Ok match p with Some t => Some t | None => s end)
  /\ (forall r,
        StructureA.normalize_entry metro_line now dep = Ok (Some r) ->
        exists p s t,
          entry_predicted dep = Ok p /\ entry_scheduled dep = Ok s
          /\ match p with Some t' => Some t' | None => s end = Some t
          /\ StructureA._minutes_until (Some t) now = Some (in_min r))
  /\ (forall s,
        StructureA._parse_iso (JStr (s ++ py "Z"))
        = StructureA._parse_iso (JStr (s ++ py "+00:00")))
  /\ (forall s d,
        s <> [] ->
        fromisoformat (str_replace 90%N (py "+00:00") s) = Some d ->
        utcoffset d = None ->
        DATETIME_MIN <= wall d <= DATETIME_MAX ->
        StructureA._parse_iso (JStr s) = Ok (Some (wall d)))
  /\ (forall s d o,
        s <> [] ->
        fromisoformat (str_replace 90%N (py "+00:00") s) = Some d ->
        utcoffset d = Some o ->
        DATETIME_MIN <= wall d - o <= DATETIME_MAX ->
        StructureA._parse_iso (JStr s) = Ok (Some (wall d - o)))
  /\ (forall s,
        fromisoformat (str_replace 90%N (py "+00:00") s) = None ->
        StructureA._parse_iso (JStr s) = Ok None)
  /\ (forall code d,
        entry_line_of dep = Ok code ->
        entry_dest_of dep = Ok d ->
        entry_predicted dep = Ok None ->
        entry_scheduled dep = Ok None ->
        StructureA.normalize_entry metro_line now dep = Ok None
        /\ forall before after,
             StructureA.normalize_loop metro_line now
               (before ++ dep :: after)
             = StructureA.normalize_loop metro_line now (before ++ after)).
Proof.
  split; [|split; [|split; [|split; [|split; [|split]]]]].
  - intros p s Hp Hs. split; [now apply timestamp_rule_holds with p s|].
    apply entry_timestamp_iff. now exists p, s.
  - intros r Hr. apply normalize_entry_some in Hr.
    destruct Hr as (_ & _ & t & Ht & _ & Hm & _).
    apply entry_timestamp_iff in Ht. destruct Ht as (p & s & Hp & Hs & Hu).
    exists p, s, t. now repeat split.
  - intros s. rewrite !parse_iso_text by (now destruct s).
    rewrite !str_replace_app. reflexivity.
  - intros s d Hs Hd Hnaive Hrange. rewrite parse_iso_text, Hd, Hnaive by
      assumption.
    unfold astimezone_utc. simpl. rewrite Z.sub_0_r.
    destruct Hrange as [Hlo Hhi].
    apply Z.leb_le in Hlo. apply Z.leb_le in Hhi. rewrite Hlo, Hhi.
    reflexivity.
  - intros s d o Hs Hd Haware Hrange. rewrite parse_iso_text, Hd, Haware by
      assumption.
    unfold astimezone_utc. rewrite Haware.
    destruct Hrange as [Hlo Hhi].
    apply Z.leb_le in Hlo. apply Z.leb_le in Hhi. rewrite Hlo, Hhi.
    reflexivity.
  - intros s Hs. destruct s as [|c s]; [reflexivity|].
    rewrite parse_iso_text, Hs by discriminate. reflexivity.
  - intros code d Hcode Hdest Hp Hs.
    assert (Hskip : StructureA.normalize_entry metro_line now dep = Ok None).
    { apply normalize_entry_no_timestamp with code d; try assumption.
      apply entry_timestamp_iff. now exists None, None. }
    split; [exact Hskip|].
    intros before after. now apply normalize_loop_skip.
Qed.

Lemma timestamp_selection_witness :
  timestamp_rule (RT := Reference.runtime) Samples.scheduled_only
  /\ (exists r,
     StructureA.normalize_entry (RT := Reference.runtime) (py "A")
       Samples.ten_o_clock Samples.scheduled_only = Ok (Some r)
     /\ entry_predicted (RT := Reference.runtime) Samples.scheduled_only
        = Ok None
     /\ in_min r = 5)
  /\ StructureA._parse_iso (RT := Reference.runtime) (JStr (py "soon"))
     = Ok None
  /\ StructureA._parse_iso (RT := Reference.runtime)
       (JStr (py "2099-01-01T10:05:00"))
     = Ok (Some (Samples.ten_o_clock + 300 * US_PER_SECOND))
  /\ StructureA._parse_iso (RT := Reference.runtime)
       (JStr (py "2099-01-01T12:05:00+02:00"))
     = Ok (Some (Samples.ten_o_clock + 300 * US_PER_SECOND))
  /\ StructureA._parse_iso (RT := Reference.runtime)
       (JStr (py "2099-01-01T10:05:00Z"))
     = StructureA._parse_iso (RT := Reference.runtime)
         (JStr (py "2099-01-01T10:05:00+00:00"))
  /\ StructureA.normalize_loop (RT := Reference.runtime) (py "A")
       Samples.ten_o_clock
       ([Samples.scheduled_only] ++ Samples.untimed :: [])
     = StructureA.normalize_loop (RT := Reference.runtime) (py "A")
         Samples.ten_o_clock ([Samples.scheduled_only] ++ []).
Proof.
  destruct (timestamp_selection (RT := Reference.runtime) (py "A")
              Samples.ten_o_clock Samples.scheduled_only)
    as (Hrule & Hused & _ & Hnaive & Haware & Hbad & _).
  destruct (timestamp_selection (RT := Reference.runtime) (py "A")
              Samples.ten_o_clock Samples.untimed)
    as (_ & _ & _ & _ & _ & _ & Hnone).
  destruct (timestamp_selection (RT := Reference.runtime) (py "A")
              Samples.ten_o_clock Samples.untimed)
    as (_ & _ & HZ & _).
  split; [|split; [|split; [|split; [|split; [|split]]]]].
  - apply (Hrule None (Some (Samples.ten_o_clock + 300 * US_PER_SECOND)));
      vm_compute; reflexivity.
  - eexists. split; [vm_compute; reflexivity|].
    split; [vm_compute; reflexivity|].
    match goal with
    | |- in_min ?r = 5 =>
        destruct (Hused r) as (p & s & t & Hp & Hs & Ht & Hm);
          [vm_compute; reflexivity|];
        change (in_min r)
          with (match Some (in_min r) with Some v => v | None => 0 end)
    end.
    rewrite <- Hm. vm_compute in Hp. injection Hp as <-.
    vm_compute in Hs. injection Hs as <-. injection Ht as <-.
    vm_compute. reflexivity.
  - apply Hbad. vm_compute. reflexivity.
  - apply (Hnaive (py "2099-01-01T10:05:00")
             {| wall := Samples.ten_o_clock + 300 * US_PER_SECOND;
                utcoffset := None |}).
    + discriminate.
    + vm_compute. reflexivity.
    + reflexivity.
    + vm_compute. split; discriminate.
  - apply (Haware (py "2099-01-01T12:05:00+02:00")
             {| wall := Samples.ten_o_clock + 7500 * US_PER_SECOND;
                utcoffset := Some (7200 * US_PER_SECOND) |}
             (7200 * US_PER_SECOND)).
    + discriminate.
    + vm_compute. reflexivity.
    + reflexivity.
    + vm_compute. split; discriminate.
  - apply (HZ (py "2099-01-01T10:05:00")).
  - apply (fun h1 h2 h3 h4 =>
             proj2 (Hnone (py "A") (py "Skalka") h1 h2 h3 h4));
      vm_compute; reflexivity.
Defined.

(* ------------------------------------------------------------------ *)
(** ** One departure per trip *)

(** C7, as the claim states it, fails: a trip whose descriptor names no
    route is listed under the line [?], which is not its route id. *)
Lemma line_of_unnamed_route_is_a_question_mark :
  ~ lines_are_route_ids Samples.anonymous_feed
      (StructureC.parse_feed Samples.anonymous_feed 0).
Proof.
  intros H.
  destruct (H (StructureC.departure_of [] None 0 120)) as
    (e & tu & He & Htu & Hline); [left; reflexivity|].
  destruct He as [<-|[]]. injection Htu as <-. discriminate Hline.
Qed.

(** C7 (amended).  An entity without a trip update gives no record, an
    entity with one gives at most one: the record of the first stop-time
    update that carries an arrival time, whatever follows it, and none when
    no update carries one.  The line of the record is the route id cut to
    10 characters, or [?] when the route id is empty; it is at most 10
    characters long.  The batch is the first 50 of the records sorted by
    [minutes_until]. *)
Theorem one_departure_per_trip (feed : StructureC.FeedMessage) (now_ts : Z)
  (tu : StructureC.TripUpdate) :
  (forall e, (length (StructureC.entity_departures now_ts e) <= 1)%nat)
  /\ StructureC.entity_departures now_ts
       {| StructureC.trip_update := None |} = []
  /\ (forall skipped stu rest ts,
        StructureC.stop_time_update tu = skipped ++ stu :: rest ->
        Forall (fun s => StructureC.arrival_time s = None) skipped ->
        StructureC.arrival_time stu = Some ts ->
        StructureC.entity_departures now_ts
          {| StructureC.trip_update := Some tu |}
        = [StructureC.departure_of
             (str_prefix 10 (StructureC.route_id (StructureC.trip tu)))
             (StructureC.trip_headsign (StructureC.trip tu)) now_ts ts])
  /\ (Forall (fun s => StructureC.arrival_time s = None)
        (StructureC.stop_time_update tu) ->
      StructureC.entity_departures now_ts
        {| StructureC.trip_update := Some tu |} = [])
  /\ (forall r,
        In r (StructureC.entity_departures now_ts
                {| StructureC.trip_update := Some tu |}) ->
        line r
        = StructureC.str_or
            (str_prefix 10 (StructureC.route_id (StructureC.trip tu)))
            StructureC.UNKNOWN
        /\ (length (line r) <= 10)%nat)
  /\ StructureC.parse_feed feed now_ts
     = firstn 50
         (stable_sort by_minutes
            (flat_map (StructureC.entity_departures now_ts)
               (StructureC.entity feed)))
  /\ (length (StructureC.parse_feed feed now_ts) <= 50)%nat
  /\ StronglySorted not_later (StructureC.parse_feed feed now_ts).
Proof.
  repeat match goal with |- _ /\ _ => split end.
  - intros [[tu'|]]; simpl; [apply first_arrival_length | lia].
  - reflexivity.
  - intros skipped stu rest ts Hsplit Hskip Hts.
    unfold StructureC.entity_departures. simpl. rewrite Hsplit.
    now apply first_arrival_first.
  - intros Hnone. unfold StructureC.entity_departures. simpl.
    now apply first_arrival_none.
  - intros r Hr.
    apply (first_arrival_In
             (str_prefix 10 (StructureC.route_id (StructureC.trip tu)))
             (StructureC.trip_headsign (StructureC.trip tu)) now_ts
             (StructureC.stop_time_update tu)) in Hr.
    destruct Hr as (stu & ts & _ & _ & ->).
    split; [reflexivity|]. apply str_or_unknown_length.
    apply str_prefix_length.
  - reflexivity.
  - apply firstn_le_length.
  - apply parse_feed_sorted.
Qed.

Lemma one_departure_per_trip_witness :
  StructureC.entity_departures 0
    (Samples.trip_entity "12345678901234" [0; 120; 60])
  = [{| line := py "1234567890"; dest := py "1234567890"; in_min := 2;
        t_utc := None |}]
  /\ StructureC.entity_departures 0 (Samples.trip_entity "X" [0; 0]) = []
  /\ (length (py "1234567890") <= 10)%nat.
Proof.
  destruct (one_departure_per_trip Samples.tie_feed 0
              {| StructureC.trip :=
                   {| StructureC.route_id := py "12345678901234";
                      StructureC.trip_headsign := None |};
                 StructureC.stop_time_update :=
                   map (fun t =>
                          {| StructureC.arrival :=
                               Some {| StructureC.time := t |} |})
                     [0; 120; 60] |})
    as (_ & _ & Hfirst & _ & Hline & _).
  destruct (one_departure_per_trip Samples.tie_feed 0
              {| StructureC.trip :=
                   {| StructureC.route_id := py "X";
                      StructureC.trip_headsign := None |};
                 StructureC.stop_time_update :=
                   map (fun t =>
                          {| StructureC.arrival :=
                               Some {| StructureC.time := t |} |})
                     [0; 0] |})
    as (_ & _ & _ & Hnone & _).
  split; [|split].
  - apply (Hfirst [{| StructureC.arrival :=
                        Some {| StructureC.time := 0 |} |}]
             {| StructureC.arrival := Some {| StructureC.time := 120 |} |}
             [{| StructureC.arrival :=
                   Some {| StructureC.time := 60 |} |}] 120).
    + reflexivity.
    + repeat constructor.
    + reflexivity.
  - apply Hnone. repeat constructor.
  - apply (Hline {| line := py "1234567890"; dest := py "1234567890";
                    in_min := 2; t_utc := None |}).
    left. reflexivity.
Defined.

(* ------------------------------------------------------------------ *)
(** ** The push channel *)

Section BroadcastFacts.

Lemma ws_departures_A_length (st : StructureA.Store) (now : pystr) :
  (1 <= length (StructureA.ws_departures st now) <= 20)%nat.
Proof.
  unfold StructureA.ws_departures.
  destruct (StructureA.LATEST_DEPARTURES st) as [|d l]; [simpl; lia|].
  rewrite firstn_cons. cbn [length].
  pose proof (firstn_le_length 19 l). lia.
Qed.

Lemma simulate_spec (entries : list (pystr * pystr)) (g : StructureC.Rng) :
  map line (fst (StructureC.simulate entries g)) = map fst entries
  /\ map dest (fst (StructureC.simulate entries g)) = map snd entries
  /\ Forall (fun d => 1 <= in_min d <= 12 /\ t_utc d = None)
       (fst (StructureC.simulate entries g)).
Proof.
  revert g. induction entries as [|[l d] entries IH]; intros g.
  - repeat split. constructor.
  - cbn [StructureC.simulate]. unfold StructureC.randint.
    specialize (IH {| StructureC.raw := StructureC.raw g;
                      StructureC.cursor := S (StructureC.cursor g) |}).
    destruct (StructureC.simulate entries _) as [out g2].
    cbn [fst snd map line dest] in *.
    destruct IH as (Hl & Hd & Hm). repeat split; try congruence.
    constructor; [|exact Hm]. cbn [in_min t_utc].
    pose proof (Z.mod_pos_bound
                  (StructureC.raw g (StructureC.cursor g)) (12 - 1 + 1)).
    split; [lia | reflexivity].
Qed.

Lemma ws_departures_C_length (st : StructureC.Store) (g : StructureC.Rng) :
  (1 <= length (fst (StructureC.ws_departures st g)) <= 20)%nat.
Proof.
  unfold StructureC.ws_departures.
  destruct (StructureC.LATEST_DEPARTURES st) as [|d l]; cbn [fst].
  - destruct (simulate_spec StructureC.base_lines g) as (Hl & _).
    apply (f_equal (@length _)) in Hl. rewrite !length_map in Hl.
    rewrite Hl. simpl. lia.
  - rewrite firstn_cons. cbn [length].
    pose proof (firstn_le_length 19 l). lia.
Qed.

End BroadcastFacts.

(** C8, as the claim states it, fails on structure C: its message has the
    keys [t] and [departures] and no key [online]. *)
Lemma gtfs_push_has_no_online_flag :
  ~ push_shape
      (fst (StructureC.websocket_endpoint (RT := Reference.runtime)
              StructureC.initial_store 0 Samples.zero_rng)).
Proof.
  intros (t & ds & online & H & _). vm_compute in H. discriminate H.
Qed.

(** C8 (amended).  A message of structure A is [{t, departures, online}],
    one of structure C is [{t, departures}]; in both [t] is the text of the
    clock reading and [departures] lists between 1 and 20 records. *)
Theorem push_message_shape {RT : PyRuntime} (cfg : StructureA.Config)
  (st : StructureA.Store) (now now' : instant) (st' : StructureC.Store)
  (now_ts : Z) (g : StructureC.Rng) :
  push_shape (StructureA.ws_updates cfg st now now')
  /\ (exists records,
        StructureA.ws_updates cfg st now now'
        = JObj [(py "t", JStr (isoformat (aware_utc now)));
                (py "departures", JArr (map departure_json records));
                (py "online", JBool (StructureA._is_online cfg st now'))]
        /\ (1 <= length records <= 20)%nat)
  /\ (exists records,
        fst (StructureC.websocket_endpoint st' now_ts g)
        = JObj [(py "t",
                 JStr (isoformat {| wall := now_ts; utcoffset := None |}));
                (py "departures", JArr (map departure_json records))]
        /\ (1 <= length records <= 20)%nat).
Proof.
  pose proof (ws_departures_A_length st (isoformat (aware_utc now))) as HA.
  pose proof (ws_departures_C_length st' g) as HC.
  split; [|split].
  - unfold push_shape, StructureA.ws_updates. do 3 eexists.
    split; [reflexivity|]. rewrite length_map. lia.
  - eexists. split; [reflexivity | exact HA].
  - unfold StructureC.websocket_endpoint.
    destruct (StructureC.ws_departures st' g) as [records g'].
    exists records. split; [reflexivity | exact HC].
Qed.

(* ------------------------------------------------------------------ *)
(** ** The placeholder *)




(* ================================================================== *)
(** * Further properties of structure A *)

Lemma stable_sort_sorted_id {A} (leb : A -> A -> bool) (l : list A) :
  StronglySorted (fun a b => leb a b = true) l -> stable_sort leb l = l.
Proof.
  induction 1 as [|x l Hl IH Hx]; simpl; [reflexivity|].
  rewrite IH. destruct l as [|y l]; simpl; [reflexivity|].
  inversion Hx as [|? ? Hxy _]; subst. now rewrite Hxy.
Qed.

Lemma firstn_skipn_sorted {A} (R : A -> A -> Prop) (n : nat) (l : list A) :
  StronglySorted R l ->
  forall a b, In a (firstn n l) -> In b (skipn n l) -> R a b.
Proof.
  intros H. revert n.
  induction H as [|x l Hl IH Hx]; intros [|n] a b Ha Hb; simpl in *;
    try contradiction.
  destruct Ha as [<-|Ha].
  - rewrite Forall_forall in Hx. apply Hx.
    rewrite <- (firstn_skipn n l). apply in_or_app. now right.
  - exact (IH n a b Ha Hb).
Qed.

Section MoreNormalizeFacts.
Context {RT : PyRuntime}.
Import StructureA.

Lemma placeholder_not_empty : PLACEHOLDER <> [].
Proof. vm_compute. discriminate. Qed.

Lemma str_or_not_empty_A (s : pystr) :
  StructureC.str_or s PLACEHOLDER <> [].
Proof.
  destruct s; simpl; [exact placeholder_not_empty | discriminate].
Qed.

Lemma entry_dest_not_empty (trip last_stop : json) (d : pystr) :
  entry_dest trip last_stop = Ok d -> d <> [].
Proof.
  unfold entry_dest. intros H.
  apply bind_inv in H. destruct H as (h & _ & H).
  apply bind_inv in H. destruct H as (v & _ & H).
  injection H as <-.
  destruct (str_strip (py_str v)); [exact placeholder_not_empty | discriminate].
Qed.

Lemma entry_dest_of_not_empty (dep : json) (d : pystr) :
  entry_dest_of dep = Ok d -> d <> [].
Proof.
  unfold entry_dest_of. intros H.
  apply bind_inv in H. destruct H as (t & _ & H).
  apply bind_inv in H. destruct H as (l & _ & H).
  exact (entry_dest_not_empty _ _ _ H).
Qed.

Lemma parse_iso_range (v : json) (t : instant) :
  _parse_iso v = Ok (Some t) -> DATETIME_MIN <= t <= DATETIME_MAX.
Proof.
  unfold _parse_iso. destruct (truthy v); simpl; [|discriminate].
  destruct v; try discriminate.
  destruct (fromisoformat _) as [d|]; [|discriminate].
  intros H. apply bind_inv in H. destruct H as (t' & Ht' & H).
  injection H as <-. unfold astimezone_utc in Ht'.
  match type of Ht' with
  | (if ?c then _ else _) = _ => destruct c eqn:Hc; [|discriminate]
  end.
  injection Ht' as <-. apply andb_true_iff in Hc.
  rewrite !Z.leb_le in Hc. exact Hc.
Qed.

Lemma entry_timestamp_range (dep : json) (t : instant) :
  entry_timestamp dep = Ok (Some t) -> DATETIME_MIN <= t <= DATETIME_MAX.
Proof.
  unfold entry_timestamp, entry_used. intros H.
  apply bind_inv in H. destruct H as (ts & _ & H).
  apply bind_inv in H. destruct H as (p & _ & H).
  apply bind_inv in H. destruct H as (predicted & Hp & H).
  apply bind_inv in H. destruct H as (s & _ & H).
  apply bind_inv in H. destruct H as (scheduled & Hs & H).
  injection H as H. destruct predicted as [t'|].
  - injection H as ->. exact (parse_iso_range _ _ Hp).
  - subst scheduled. exact (parse_iso_range _ _ Hs).
Qed.

Lemma normalize_loop_length (metro_line : pystr) (now : instant)
  (deps : list json) (out : list Departure) :
  normalize_loop metro_line now deps = Ok out ->
  (length out <= length deps)%nat.
Proof.
  revert out. induction deps as [|dep deps IH]; simpl; intros out H.
  - injection H as <-. simpl. lia.
  - apply bind_inv in H. destruct H as (o & _ & H).
    apply bind_inv in H. destruct H as (out' & Hout' & H).
    injection H as <-. specialize (IH _ Hout').
    destruct o; simpl; lia.
Qed.

End MoreNormalizeFacts.

(** X1 ([_minutes_until]): for a timestamp less than 2^34 seconds (some 544
    years) ahead of the clock, the count of minutes is never negative; it is
    0 exactly when the timestamp is less than a minute ahead of the clock (or
    behind it); a positive count [m] means between [m] and [m + 1] minutes
    ahead; as the clock advances the count never grows; no timestamp gives
    no count. *)
Theorem shown_minutes_bracket (ts now : instant) :
  ts - now < 2 ^ 34 * US_PER_SECOND ->
  StructureA._minutes_until None now = None
  /\ exists m,
       StructureA._minutes_until (Some ts) now = Some m
       /\ 0 <= m
       /\ (m = 0 <-> ts - now < 60 * US_PER_SECOND)
       /\ (0 < m ->
           60 * US_PER_SECOND * m <= ts - now
           < 60 * US_PER_SECOND * (m + 1))
       /\ forall now', now <= now' ->
            exists m',
              StructureA._minutes_until (Some ts) now' = Some m' /\ m' <= m.
Proof.
  intros Hrange. split; [reflexivity|].
  exists (Z.max 0 ((ts - now) / (60 * US_PER_SECOND))).
  split; [now apply minutes_until_exact|].
  unfold US_PER_SECOND in *. change (60 * 1000000) with 60000000.
  pose proof (Z.div_mod (ts - now) 60000000 ltac:(lia)) as Hdm.
  pose proof (Z.mod_pos_bound (ts - now) 60000000 ltac:(lia)) as Hb.
  repeat split; try lia.
  intros now' Hle. exists (Z.max 0 ((ts - now') / 60000000)).
  split.
  - rewrite minutes_until_exact by (unfold US_PER_SECOND; lia).
    reflexivity.
  - assert ((ts - now') / 60000000 <= (ts - now) / 60000000)
      by (apply Z.div_le_mono; lia).
    lia.
Qed.

Lemma shown_minutes_bracket_witness :
  Samples.ten_o_clock + 450 * US_PER_SECOND - Samples.ten_o_clock
  < 2 ^ 34 * US_PER_SECOND
  /\ exists m,
       StructureA._minutes_until
         (Some (Samples.ten_o_clock + 450 * US_PER_SECOND))
         Samples.ten_o_clock = Some m
       /\ 0 < m
       /\ 60 * US_PER_SECOND * m
          <= Samples.ten_o_clock + 450 * US_PER_SECOND - Samples.ten_o_clock
          < 60 * US_PER_SECOND * (m + 1).
Proof.
  assert (Hrange : Samples.ten_o_clock + 450 * US_PER_SECOND
                   - Samples.ten_o_clock < 2 ^ 34 * US_PER_SECOND)
    by (vm_compute; reflexivity).
  split; [exact Hrange|].
  destruct (shown_minutes_bracket
              (Samples.ten_o_clock + 450 * US_PER_SECOND)
              Samples.ten_o_clock Hrange)
    as (_ & m & Hm & _ & _ & Hpos & _).
  assert (H7 : m = 7) by (vm_compute in Hm; now injection Hm as <-).
  exists m. split; [exact Hm|]. split; [lia | apply Hpos; lia].
Defined.

(** X2 ([normalize_departureboards]): a batch has no more records than the
    board has entries, and every record is complete: its line is the target
    line stripped and uppercased, its destination is never empty, its
    minutes are not negative and its [t_utc] is the UTC rendering of a
    timestamp within the range of [datetime]. *)
Theorem normalized_records_are_complete {RT : PyRuntime} (payload : json)
  (metro_line : pystr) (now : instant) (out : list Departure) :
  StructureA.normalize_departureboards payload metro_line now = Ok out ->
  (exists deps,
     StructureA.payload_departures payload = Ok deps
     /\ (length out <= length deps)%nat)
  /\ forall r, In r out ->
       line r = str_upper (str_strip metro_line)
       /\ dest r <> []
       /\ 0 <= in_min r
       /\ exists t,
            t_utc r = Some (isoformat (aware_utc t))
            /\ DATETIME_MIN <= t <= DATETIME_MAX.
Proof.
  intros H. split.
  - unfold StructureA.normalize_departureboards in H.
    apply bind_inv in H. destruct H as (deps & Hdeps & H).
    apply bind_inv in H. destruct H as (raw & Hraw & H).
    injection H as <-. exists deps. split; [assumption|].
    rewrite stable_sort_length.
    exact (normalize_loop_length _ _ _ _ Hraw).
  - destruct (normalize_departureboards_In _ _ _ _ H) as (deps & _ & Hin).
    intros r Hr. destruct (Hin r Hr) as (dep & _ & Hdep).
    destruct (normalize_entry_some _ _ _ _ Hdep)
      as (_ & Hd & t & Ht & Hl & Hm & Hu).
    split; [exact Hl|].
    split; [exact (entry_dest_of_not_empty _ _ Hd)|].
    split; [exact (minutes_until_nonneg _ _ _ Hm)|].
    exists t. split; [exact Hu | exact (entry_timestamp_range _ _ Ht)].
Qed.

Lemma normalized_records_are_complete_witness :
  exists out,
    StructureA.normalize_departureboards (RT := Reference.runtime)
      Examples.line_a_board (py " a ") Samples.ten_o_clock = Ok out
    /\ map in_min out = [2; 7]
    /\ forall r, In r out ->
         line r = py "A" /\ dest r <> [] /\ 0 <= in_min r
         /\ exists t,
              t_utc r = Some (Reference.format_datetime (aware_utc t))
              /\ DATETIME_MIN <= t <= DATETIME_MAX.
Proof.
  eexists. split; [vm_compute; reflexivity|].
  split; [vm_compute; reflexivity|].
  assert (H : StructureA.normalize_departureboards (RT := Reference.runtime)
                Examples.line_a_board (py " a ") Samples.ten_o_clock
              = Ok _) by (vm_compute; reflexivity).
  exact (proj2 (normalized_records_are_complete (RT := Reference.runtime)
                  _ _ _ _ H)).
Defined.

(** X3 ([normalize_departureboards], the destination): with [trip] and
    [last_stop] the values the entry holds under these keys (a value that
    counts as false standing for the empty object), a headsign that counts
    as true decides the destination alone, whatever the last stop is; a
    headsign of blanks gives the dash, not the name of the last stop;
    without a headsign, a last stop that counts as true and is no object
    fails the batch, one that counts as false gives the dash, and one that
    is an object gives its name, or the dash when it has none; and no
    destination is ever empty. *)
Theorem destination_fallback_chain {RT : PyRuntime} (dep trip last_stop : json)
  (h : json) :
  dict_get dep (py "trip") = Ok trip ->
  dict_get dep (py "last_stop") = Ok last_stop ->
  dict_get (py_or trip (JObj [])) (py "headsign") = Ok h ->
  (truthy h = true ->
   entry_dest_of dep
   = Ok (StructureC.str_or (str_strip (StructureA.py_str h))
           StructureA.PLACEHOLDER))
  /\ (forall s,
        h = JStr s -> s <> [] -> str_strip s = [] ->
        entry_dest_of dep = Ok StructureA.PLACEHOLDER)
  /\ (truthy h = false -> truthy last_stop = true ->
      (forall m, last_stop <> JObj m) ->
      entry_dest_of dep = Raise AttributeError)
  /\ (truthy h = false -> truthy last_stop = false ->
      entry_dest_of dep
      = Ok (StructureC.str_or (str_strip StructureA.PLACEHOLDER)
              StructureA.PLACEHOLDER))
  /\ (forall n,
        truthy h = false -> truthy last_stop = true ->
        dict_get last_stop (py "name") = Ok n ->
        entry_dest_of dep
        = Ok (StructureC.str_or
                (str_strip
                   (StructureA.py_str
                      (py_or n (JStr StructureA.PLACEHOLDER))))
                StructureA.PLACEHOLDER))
  /\ (forall d, entry_dest_of dep = Ok d -> d <> []).
Proof.
  intros Htrip Hls Hh.
  assert (Hor : forall s : pystr,
            match s with [] => StructureA.PLACEHOLDER | _ :: _ => s end
            = StructureC.str_or s StructureA.PLACEHOLDER)
    by (intros [|c s]; reflexivity).
  unfold entry_dest_of. rewrite Htrip, Hls. cbn [bind].
  unfold StructureA.entry_dest. rewrite Hh. cbn [bind].
  split; [|split; [|split; [|split; [|split]]]].
  - intros Ht. rewrite Ht. cbn [bind]. now rewrite Hor.
  - intros s -> Hs Hblank. destruct s as [|c s]; [contradiction|].
    cbn [truthy bind StructureA.py_str]. now rewrite Hblank.
  - intros Hf Hlt Hno. rewrite Hf. unfold py_or at 1. rewrite Hlt.
    destruct last_stop; try reflexivity. now destruct (Hno m).
  - intros Hf Hlf. rewrite Hf. unfold py_or at 1. rewrite Hlf.
    cbn [dict_get dict_get_default assoc bind py_or truthy
         StructureA.py_str].
    now rewrite Hor.
  - intros n Hf Hlt Hn. rewrite Hf. unfold py_or at 1. rewrite Hlt, Hn.
    cbn [bind]. now rewrite Hor.
  - intros d Hd.
    destruct (if truthy h then Ok h
              else name <- dict_get (py_or last_stop (JObj [])) (py "name") ;;
                   Ok (py_or name (JStr StructureA.PLACEHOLDER)))
      as [v|e]; [|discriminate].
    cbn [bind] in Hd. injection Hd as <-. rewrite Hor.
    apply str_or_not_empty_A.
Qed.

Lemma destination_fallback_chain_witness :
  entry_dest_of (RT := Reference.runtime)
    (json_object
       [("trip"%string, json_object [("headsign"%string, json_text " ")]);
        ("last_stop"%string,
         json_object [("name"%string, json_text "Skalka")])])
  = Ok (py "—")
  /\ entry_dest_of (RT := Reference.runtime)
       (json_object [("last_stop"%string, JInt 7)])
     = Raise AttributeError
  /\ entry_dest_of (RT := Reference.runtime)
       (json_object [("last_stop"%string, JInt 0)])
     = Ok (py "—")
  /\ entry_dest_of (RT := Reference.runtime)
       (json_object
          [("trip"%string,
            json_object [("headsign"%string, json_text "Motol")]);
           ("last_stop"%string, JInt 7)])
     = Ok (py "Motol").
Proof.
  split; [|split; [|split]].
  - apply (proj1 (proj2 (destination_fallback_chain
                           (RT := Reference.runtime)
                           (json_object
                              [("trip"%string,
                                json_object
                                  [("headsign"%string, json_text " ")]);
                               ("last_stop"%string,
                                json_object
                                  [("name"%string, json_text "Skalka")])])
                           (json_object [("headsign"%string, json_text " ")])
                           (json_object [("name"%string, json_text "Skalka")])
                           (JStr (py " "))
                           eq_refl eq_refl eq_refl)) (py " "));
      [reflexivity | discriminate | reflexivity].
  - apply (proj1 (proj2 (proj2 (destination_fallback_chain
                                  (RT := Reference.runtime)
                                  (json_object
                                     [("last_stop"%string, JInt 7)])
                                  JNull (JInt 7) JNull
                                  eq_refl eq_refl eq_refl))));
      [reflexivity | reflexivity | discriminate].
  - exact (proj1 (proj2 (proj2 (proj2 (destination_fallback_chain
                                         (RT := Reference.runtime)
                                         (json_object
                                            [("last_stop"%string, JInt 0)])
                                         JNull (JInt 0) JNull
                                         eq_refl eq_refl eq_refl))))
             eq_refl eq_refl).
  - exact (proj1 (destination_fallback_chain
                    (RT := Reference.runtime)
                    (json_object
                       [("trip"%string,
                         json_object
                           [("headsign"%string, json_text "Motol")]);
                        ("last_stop"%string, JInt 7)])
                    (json_object [("headsign"%string, json_text "Motol")])
                    (JInt 7) (JStr (py "Motol"))
                    eq_refl eq_refl eq_refl) eq_refl).
Defined.

(** X4 ([normalize_departureboards], the payload): a payload that is no
    object fails with [AttributeError]; an object without [departures], or
    with a [departures] that counts as false, gives the empty batch; a
    [departures] that is a number or [true] fails with [TypeError]; one that
    is a text or an object (not empty) fails with [AttributeError], as its
    items are texts. *)
Theorem payload_without_a_board {RT : PyRuntime} (metro_line : pystr)
  (now : instant) :
  (forall payload,
     (forall m, payload <> JObj m) ->
     StructureA.normalize_departureboards payload metro_line now
     = Raise AttributeError)
  /\ (forall m,
        assoc (py "departures") m = None ->
        StructureA.normalize_departureboards (JObj m) metro_line now = Ok [])
  /\ (forall m v,
        assoc (py "departures") m = Some v -> truthy v = false ->
        StructureA.normalize_departureboards (JObj m) metro_line now = Ok [])
  /\ (forall m v,
        assoc (py "departures") m = Some v -> truthy v = true ->
        (exists b, v = JBool b) \/ (exists n, v = JInt n)
        \/ (exists f, v = JFloat f) ->
        StructureA.normalize_departureboards (JObj m) metro_line now
        = Raise TypeError)
  /\ (forall m v,
        assoc (py "departures") m = Some v -> truthy v = true ->
        (exists s, v = JStr s) \/ (exists o, v = JObj o) ->
        StructureA.normalize_departureboards (JObj m) metro_line now
        = Raise AttributeError).
Proof.
  unfold StructureA.normalize_departureboards, StructureA.payload_departures.
  repeat split.
  - intros payload Hno. destruct payload; try reflexivity.
    now destruct (Hno m).
  - intros m Hm. simpl. now rewrite Hm.
  - intros m v Hm Hv. simpl. rewrite Hm. unfold py_or. now rewrite Hv.
  - intros m v Hm Hv Hkind. simpl. rewrite Hm. unfold py_or. rewrite Hv.
    destruct Hkind as [[b ->]|[[n ->]|[f ->]]]; reflexivity.
  - intros m v Hm Hv Hkind. simpl. rewrite Hm. unfold py_or. rewrite Hv.
    destruct Hkind as [[s ->]|[o ->]].
    + destruct s as [|c s]; [discriminate|]. reflexivity.
    + destruct o as [|[k x] o]; [discriminate|]. reflexivity.
Qed.

Lemma payload_without_a_board_witness :
  StructureA.normalize_departureboards (RT := Reference.runtime)
    (JArr []) (py "A") Samples.ten_o_clock = Raise AttributeError
  /\ StructureA.normalize_departureboards (RT := Reference.runtime)
       (JObj []) (py "A") Samples.ten_o_clock = Ok []
  /\ StructureA.normalize_departureboards (RT := Reference.runtime)
       (JObj [(py "departures", JNull)]) (py "A") Samples.ten_o_clock = Ok []
  /\ StructureA.normalize_departureboards (RT := Reference.runtime)
       (JObj [(py "departures", JInt 3)]) (py "A") Samples.ten_o_clock
     = Raise TypeError
  /\ StructureA.normalize_departureboards (RT := Reference.runtime)
       (JObj [(py "departures", JStr (py "none"))]) (py "A")
       Samples.ten_o_clock
     = Raise AttributeError.
Proof.
  destruct (payload_without_a_board (RT := Reference.runtime) (py "A")
              Samples.ten_o_clock) as (H1 & H2 & H3 & H4 & H5).
  split; [|split; [|split; [|split]]].
  - apply H1. discriminate.
  - apply H2. reflexivity.
  - apply (H3 _ JNull); reflexivity.
  - apply (H4 _ (JInt 3)); [reflexivity | reflexivity |].
    right. left. now exists 3.
  - apply (H5 _ (JStr (py "none"))); [reflexivity | reflexivity |].
    left. now eexists.
Defined.

(* ------------------------------------------------------------------ *)
(** ** Structure A: what the poller keeps and the endpoints show *)

Section MorePollerFacts.
Context {RT : PyRuntime}.
Import StructureA.

Lemma normalize_entry_some_of_batch (payload : json) (metro_line : pystr)
  (now : instant) (out : list Departure) :
  normalize_departureboards payload metro_line now = Ok out ->
  forall r, In r out ->
    line r = str_upper (str_strip metro_line)
    /\ dest r <> [] /\ 0 <= in_min r /\ t_utc r <> None.
Proof.
  intros H r Hr.
  destruct (normalize_departureboards_In _ _ _ _ H) as (deps & _ & Hin).
  destruct (Hin r Hr) as (dep & _ & Hdep).
  destruct (normalize_entry_some _ _ _ _ Hdep)
    as (_ & Hd & t & _ & Hl & Hm & Hu).
  split; [exact Hl|].
  split; [exact (entry_dest_of_not_empty _ _ Hd)|].
  split; [exact (minutes_until_nonneg _ _ _ Hm)|].
  rewrite Hu. discriminate.
Qed.

Lemma poller_loop_invariant (P : Store -> Prop) (cfg : Config) :
  (forall st c, P st -> P (poller_cycle cfg st c)) ->
  forall cycles st, P st -> P (poller_loop cfg cycles st).
Proof.
  intros Hstep. unfold poller_loop.
  induction cycles as [|c cycles IH]; simpl; intros st Hst; [exact Hst|].
  apply IH. now apply Hstep.
Qed.

Lemma fetch_golemio_departures_some (cfg : Config) (up : Upstream)
  (now : instant) (batch : list Departure) :
  fetch_golemio_departures cfg up now = Some batch ->
  exists payload,
    up = Body payload
    /\ normalize_departureboards payload METRO_LINE now = Ok batch.
Proof.
  unfold fetch_golemio_departures.
  destruct (API_KEY cfg); [discriminate|].
  destruct up as [| | |payload]; try discriminate.
  destruct (normalize_departureboards payload METRO_LINE now) eqn:E;
    simpl; [|discriminate].
  intros [= <-]. now exists payload.
Qed.

Lemma poller_cycle_some (cfg : Config) (st : Store) (c : Cycle)
  (batch : list Departure) :
  fetch_golemio_departures cfg (answer c) (fetched_at c) = Some batch ->
  poller_cycle cfg st c
  = {| LATEST_DEPARTURES := batch; LAST_OK_UTC := Some (stored_at c) |}.
Proof. intros H. unfold poller_cycle. now rewrite H. Qed.

Lemma poller_loop_keeps_instant (cfg : Config) (cycles : list Cycle)
  (st : Store) (t : instant) :
  LAST_OK_UTC st = Some t ->
  exists t', LAST_OK_UTC (poller_loop cfg cycles st) = Some t'.
Proof.
  revert st t. unfold poller_loop.
  induction cycles as [|c cycles IH]; simpl; intros st t Ht;
    [now exists t|].
  unfold poller_cycle at 2.
  destruct (fetch_golemio_departures cfg (answer c) (fetched_at c));
    [now apply (IH _ (stored_at c)) | now apply (IH _ t)].
Qed.

(** What every store the poller can reach satisfies. *)
Lemma poller_loop_kept_well (cfg : Config) (cycles : list Cycle) :
  StronglySorted in_display_order
    (LATEST_DEPARTURES (poller_loop cfg cycles initial_store))
  /\ (forall r,
        In r (LATEST_DEPARTURES (poller_loop cfg cycles initial_store)) ->
        line r = str_upper (str_strip METRO_LINE)
        /\ dest r <> [] /\ 0 <= in_min r /\ t_utc r <> None)
  /\ (LAST_OK_UTC (poller_loop cfg cycles initial_store) = None ->
      LATEST_DEPARTURES (poller_loop cfg cycles initial_store) = []).
Proof.
  apply (poller_loop_invariant
           (fun st =>
              StronglySorted in_display_order (LATEST_DEPARTURES st)
              /\ (forall r, In r (LATEST_DEPARTURES st) ->
                    line r = str_upper (str_strip METRO_LINE)
                    /\ dest r <> [] /\ 0 <= in_min r /\ t_utc r <> None)
              /\ (LAST_OK_UTC st = None -> LATEST_DEPARTURES st = []))).
  - intros st c Hst. unfold poller_cycle.
    destruct (fetch_golemio_departures cfg (answer c) (fetched_at c))
      as [batch|] eqn:E; [|exact Hst].
    destruct (fetch_golemio_departures_some _ _ _ _ E) as (payload & _ & Hn).
    split; [|split]; simpl.
    + exact (normalize_departureboards_sorted _ _ _ _ Hn).
    + exact (normalize_entry_some_of_batch payload METRO_LINE
               (fetched_at c) batch Hn).
    + discriminate.
  - split; [|split]; simpl; [constructor | contradiction | reflexivity].
Qed.

End MorePollerFacts.

(** X5 ([fetch_golemio_departures], [poller_loop], [api_status],
    [ws_updates]): without an API key no cycle ever changes the store,
    whatever upstream would answer: the backend stays offline, reports no
    last success, and pushes the one placeholder record. *)
Theorem no_credential_stays_offline {RT : PyRuntime}
  (cfg : StructureA.Config) (cycles : list StructureA.Cycle)
  (now now' : instant) :
  StructureA.API_KEY cfg = [] ->
  StructureA.poller_loop cfg cycles StructureA.initial_store
  = StructureA.initial_store
  /\ StructureA._is_online cfg
       (StructureA.poller_loop cfg cycles StructureA.initial_store) now
     = false
  /\ dict_get
       (StructureA.api_status cfg
          (StructureA.poller_loop cfg cycles StructureA.initial_store)
          now now') (py "last_ok_utc") = Ok JNull
  /\ forall t,
       StructureA.ws_departures
         (StructureA.poller_loop cfg cycles StructureA.initial_store) t
       = [{| line := StructureA.METRO_LINE;
             dest := StructureA.PLACEHOLDER; in_min := 0;
             t_utc := Some t |}].
Proof.
  intros Hkey. rewrite (poller_without_credential cfg cycles Hkey).
  repeat split.
Qed.

Lemma no_credential_stays_offline_witness :
  StructureA.poller_loop (RT := Reference.runtime) Examples.no_credential
    [Examples.line_a_cycle; Samples.board_cycle] StructureA.initial_store
  = StructureA.initial_store
  /\ StructureA._is_online Examples.no_credential
       (StructureA.poller_loop (RT := Reference.runtime)
          Examples.no_credential
          [Examples.line_a_cycle; Samples.board_cycle]
          StructureA.initial_store) Samples.ten_o_clock
     = false.
Proof.
  destruct (no_credential_stays_offline (RT := Reference.runtime)
              Examples.no_credential
              [Examples.line_a_cycle; Samples.board_cycle]
              Samples.ten_o_clock Samples.ten_o_clock eq_refl)
    as (H1 & H2 & _).
  exact (conj H1 H2).
Defined.

(** X6 ([poller_loop]): failed cycles leave no trace: after any run the
    store is the one the successful cycles alone would have left. *)
Theorem failures_leave_no_trace {RT : PyRuntime} (cfg : StructureA.Config)
  (cycles : list StructureA.Cycle) (st : StructureA.Store) :
  StructureA.poller_loop cfg cycles st
  = StructureA.poller_loop cfg (filter (succeeded cfg) cycles) st.
Proof.
  unfold StructureA.poller_loop. revert st.
  induction cycles as [|c cycles IH]; intros st; simpl; [reflexivity|].
  destruct (succeeded cfg c) eqn:E; simpl.
  - apply IH.
  - rewrite (poller_cycle_failed cfg st c E). apply IH.
Qed.

(** X7 ([poller_loop]): after any run the snapshot is exactly the batch of
    the latest successful cycle, whatever was stored before and however
    many failures followed, and the last-success instant is the clock of
    that cycle. *)
Theorem snapshot_is_latest_batch {RT : PyRuntime} (cfg : StructureA.Config)
  (before after : list StructureA.Cycle) (c : StructureA.Cycle)
  (st : StructureA.Store) (batch : list Departure) :
  StructureA.fetch_golemio_departures cfg (StructureA.answer c)
    (StructureA.fetched_at c) = Some batch ->
  (forall c', In c' after -> succeeded cfg c' = false) ->
  StructureA.poller_loop cfg (before ++ c :: after) st
  = {| StructureA.LATEST_DEPARTURES := batch;
       StructureA.LAST_OK_UTC := Some (StructureA.stored_at c) |}.
Proof.
  intros Hc Hafter. rewrite poller_loop_app.
  change (StructureA.poller_loop cfg (c :: after)
            (StructureA.poller_loop cfg before st))
    with (StructureA.poller_loop cfg after
            (StructureA.poller_cycle cfg
               (StructureA.poller_loop cfg before st) c)).
  rewrite (poller_loop_all_failed cfg after _ Hafter).
  now apply poller_cycle_some.
Qed.

Lemma snapshot_is_latest_batch_witness :
  map dest
    (StructureA.LATEST_DEPARTURES
       (StructureA.poller_loop (RT := Reference.runtime) Samples.config
          [Samples.board_cycle; Examples.line_a_cycle; Samples.failed_cycle]
          StructureA.initial_store))
  = [py "Depo Hostivař"; py "Skalka"].
Proof.
  assert (H : exists batch,
            StructureA.fetch_golemio_departures (RT := Reference.runtime)
              Samples.config (StructureA.answer Examples.line_a_cycle)
              (StructureA.fetched_at Examples.line_a_cycle) = Some batch
            /\ map dest batch = [py "Depo Hostivař"; py "Skalka"]).
  { eexists. split; vm_compute; reflexivity. }
  destruct H as (batch & Hbatch & Hdest).
  assert (Hfail : forall c', In c' [Samples.failed_cycle] ->
            succeeded (RT := Reference.runtime) Samples.config c' = false).
  { intros c' [<-|[]]. vm_compute. reflexivity. }
  pose proof (snapshot_is_latest_batch (RT := Reference.runtime)
                Samples.config [Samples.board_cycle] [Samples.failed_cycle]
                Examples.line_a_cycle StructureA.initial_store batch Hbatch
                Hfail) as H.
  change ([Samples.board_cycle]
          ++ Examples.line_a_cycle :: [Samples.failed_cycle])
    with [Samples.board_cycle; Examples.line_a_cycle; Samples.failed_cycle]
    in H.
  rewrite H. exact Hdest.
Defined.

(** X8 ([poller_loop], [normalize_departureboards]): whatever upstream
    answered over any number of cycles, the stored snapshot is sorted by
    minutes and then destination, each of its records carries the line
    of the backend, a destination that is not empty, minutes that are not
    negative and a [t_utc]; and as long as no cycle has succeeded the
    snapshot is empty. *)
Theorem stored_snapshot_is_well_formed {RT : PyRuntime}
  (cfg : StructureA.Config) (cycles : list StructureA.Cycle) :
  StronglySorted in_display_order
    (StructureA.LATEST_DEPARTURES
       (StructureA.poller_loop cfg cycles StructureA.initial_store))
  /\ (forall r,
        In r (StructureA.LATEST_DEPARTURES
                (StructureA.poller_loop cfg cycles
                   StructureA.initial_store)) ->
        line r = str_upper (str_strip StructureA.METRO_LINE)
        /\ dest r <> [] /\ 0 <= in_min r /\ t_utc r <> None)
  /\ (StructureA.LAST_OK_UTC
        (StructureA.poller_loop cfg cycles StructureA.initial_store) = None
      -> StructureA.LATEST_DEPARTURES
           (StructureA.poller_loop cfg cycles StructureA.initial_store)
         = []).
Proof. apply poller_loop_kept_well. Qed.

(** X9 ([ws_updates] after [poller_loop]): the push channel shows the head
    of the board: when the snapshot is not empty the pushed list is its
    first 20 records, in display order, and no record left out is due
    before a record shown. *)
Theorem push_shows_the_soonest {RT : PyRuntime} (cfg : StructureA.Config)
  (cycles : list StructureA.Cycle) (now : pystr) :
  StronglySorted in_display_order
    (StructureA.ws_departures
       (StructureA.poller_loop cfg cycles StructureA.initial_store) now)
  /\ (StructureA.LATEST_DEPARTURES
        (StructureA.poller_loop cfg cycles StructureA.initial_store) <> []
      -> StructureA.ws_departures
           (StructureA.poller_loop cfg cycles StructureA.initial_store) now
         = firstn 20
             (StructureA.LATEST_DEPARTURES
                (StructureA.poller_loop cfg cycles
                   StructureA.initial_store))
         /\ forall shown hidden,
              In shown
                (StructureA.ws_departures
                   (StructureA.poller_loop cfg cycles
                      StructureA.initial_store) now) ->
              In hidden
                (skipn 20
                   (StructureA.LATEST_DEPARTURES
                      (StructureA.poller_loop cfg cycles
                         StructureA.initial_store))) ->
              in_display_order shown hidden).
Proof.
  destruct (poller_loop_kept_well cfg cycles) as (Hsorted & _).
  set (st := StructureA.poller_loop cfg cycles StructureA.initial_store) in *.
  assert (Hpush : StructureA.LATEST_DEPARTURES st <> [] ->
            StructureA.ws_departures st now
            = firstn 20 (StructureA.LATEST_DEPARTURES st)).
  { unfold StructureA.ws_departures.
    destruct (StructureA.LATEST_DEPARTURES st) as [|r l]; [congruence|].
    intros _. rewrite firstn_cons. reflexivity. }
  split.
  - destruct (StructureA.LATEST_DEPARTURES st) as [|r l] eqn:E.
    + unfold StructureA.ws_departures. rewrite E.
      repeat constructor.
    + rewrite Hpush by discriminate.
      now apply firstn_StronglySorted.
  - intros Hne. split; [exact (Hpush Hne)|].
    rewrite (Hpush Hne). intros shown hidden Hs Hh.
    exact (firstn_skipn_sorted _ 20 _ Hsorted shown hidden Hs Hh).
Qed.

Lemma push_shows_the_soonest_witness :
  map dest
    (StructureA.ws_departures
       (StructureA.poller_loop (RT := Reference.runtime) Samples.config
          [Examples.line_a_cycle] StructureA.initial_store) (py "now"))
  = [py "Depo Hostivař"; py "Skalka"].
Proof.
  destruct (push_shows_the_soonest (RT := Reference.runtime) Samples.config
              [Examples.line_a_cycle] (py "now")) as (_ & H).
  assert (Hne : StructureA.LATEST_DEPARTURES
                  (StructureA.poller_loop (RT := Reference.runtime)
                     Samples.config [Examples.line_a_cycle]
                     StructureA.initial_store) <> [])
    by (vm_compute; discriminate).
  rewrite (proj1 (H Hne)). vm_compute. reflexivity.
Defined.

(** X10 ([api_status] after [poller_loop]): the status names the last
    success: [last_ok_utc] is null exactly as long as every cycle has
    failed, after a success it is the UTC rendering of the clock of the
    latest successful cycle, and [online] is never true while it is null;
    [ok] is always true and [stops] lists the configured stops. *)
Theorem status_reports_last_success {RT : PyRuntime}
  (cfg : StructureA.Config) (cycles : list StructureA.Cycle)
  (now now' : instant) :
  (dict_get
     (StructureA.api_status cfg
        (StructureA.poller_loop cfg cycles StructureA.initial_store)
        now now') (py "last_ok_utc") = Ok JNull
   <-> forall c, In c cycles -> succeeded cfg c = false)
  /\ (forall before c after,
        cycles = before ++ c :: after ->
        succeeded cfg c = true ->
        (forall c', In c' after -> succeeded cfg c' = false) ->
        dict_get
          (StructureA.api_status cfg
             (StructureA.poller_loop cfg cycles StructureA.initial_store)
             now now') (py "last_ok_utc")
        = Ok (JStr (isoformat (aware_utc (StructureA.stored_at c)))))
  /\ (dict_get
        (StructureA.api_status cfg
           (StructureA.poller_loop cfg cycles StructureA.initial_store)
           now now') (py "last_ok_utc") = Ok JNull ->
      dict_get
        (StructureA.api_status cfg
           (StructureA.poller_loop cfg cycles StructureA.initial_store)
           now now') (py "online") = Ok (JBool false))
  /\ dict_get
       (StructureA.api_status cfg
          (StructureA.poller_loop cfg cycles StructureA.initial_store)
          now now') (py "ok") = Ok (JBool true)
  /\ dict_get
       (StructureA.api_status cfg
          (StructureA.poller_loop cfg cycles StructureA.initial_store)
          now now') (py "stops")
     = Ok (JArr (map JStr (StructureA.STOP_NAMES cfg))).
Proof.
  set (st := StructureA.poller_loop cfg cycles StructureA.initial_store).
  assert (Hkey : dict_get (StructureA.api_status cfg st now now')
                   (py "last_ok_utc")
                 = Ok match StructureA.LAST_OK_UTC st with
                      | Some t => JStr (isoformat (aware_utc t))
                      | None => JNull
                      end) by reflexivity.
  assert (Honline : dict_get (StructureA.api_status cfg st now now')
                      (py "online")
                    = Ok (JBool (StructureA._is_online cfg st now)))
    by reflexivity.
  split; [|split; [|split; [|split]]]; try reflexivity.
  - rewrite Hkey. split.
    + intros H c Hc.
      destruct (succeeded cfg c) eqn:E; [|reflexivity].
      destruct (in_split _ _ Hc) as (l1 & l2 & Hsplit).
      assert (Hlast : exists t, StructureA.LAST_OK_UTC st = Some t).
      { unfold st. rewrite Hsplit, poller_loop_app.
        change (StructureA.poller_loop cfg (c :: l2)
                  (StructureA.poller_loop cfg l1 StructureA.initial_store))
          with (StructureA.poller_loop cfg l2
                  (StructureA.poller_cycle cfg
                     (StructureA.poller_loop cfg l1
                        StructureA.initial_store) c)).
        apply (poller_loop_keeps_instant cfg l2 _ (StructureA.stored_at c)).
        now apply poller_cycle_succeeded. }
      destruct Hlast as (t & Ht). rewrite Ht in H. discriminate.
    + intros Hall. unfold st.
      rewrite (poller_loop_all_failed cfg cycles _ Hall). reflexivity.
  - intros before c after Hsplit Hc Hafter. rewrite Hkey. unfold st.
    rewrite Hsplit.
    now rewrite (poller_loop_last_success cfg before after c _ Hc Hafter).
  - rewrite Hkey, Honline. unfold StructureA._is_online.
    destruct (StructureA.LAST_OK_UTC st); [discriminate | reflexivity].
Qed.

(* ------------------------------------------------------------------ *)
(** ** Structure A: the fallback file and the mock feed that writes it *)

Lemma and_then_inv {A B} (o : option A) (k : A -> option B) (b : B) :
  (x <-? o ;; k x) = Some b -> exists a, o = Some a /\ k a = Some b.
Proof. destruct o as [a|]; simpl; [eauto | discriminate]. Qed.

Section FallbackFacts.
Context {RT : PyRuntime} {NUM : PyNumbers}.
Import StructureA EndpointsA.

(** What an appended record says about its entry. *)
Lemma fallback_entry_some (d : json) (r : Departure) :
  fallback_entry d = Some (Some r) ->
  line r = METRO_LINE /\ dest r <> [] /\ t_utc r = None
  /\ exists v,
       dict_get_default d (py "in_min") (JInt 0) = Ok v
       /\ py_int v = Some (in_min r).
Proof.
  unfold fallback_entry. intros H.
  apply and_then_inv in H. destruct H as (l & _ & H).
  destruct (negb _); [discriminate|].
  apply and_then_inv in H. destruct H as (dst & _ & H).
  apply and_then_inv in H. destruct H as (m & Hm & H).
  apply and_then_inv in H. destruct H as (n & Hn & H).
  injection H as <-. simpl. repeat split.
  - destruct (str_strip (py_str dst));
      [exact placeholder_not_empty | discriminate].
  - exists m. split; [|exact Hn].
    destruct (dict_get_default d (py "in_min") (JInt 0));
      [now injection Hm as -> | discriminate].
Qed.

Lemma fallback_loop_In (deps : list json) (out : list Departure) :
  fallback_loop deps = Some out ->
  forall r, In r out ->
    exists d, In d deps /\ fallback_entry d = Some (Some r).
Proof.
  revert out. induction deps as [|d deps IH]; simpl; intros out H r Hr.
  - injection H as <-. destruct Hr.
  - apply and_then_inv in H. destruct H as (o & Ho & H).
    apply and_then_inv in H. destruct H as (out' & Hout' & H).
    injection H as <-.
    assert (Hrest : In r out' ->
      exists d0, In d0 (d :: deps) /\ fallback_entry d0 = Some (Some r)).
    { intros Hin. destruct (IH _ Hout' _ Hin) as (d0 & ? & ?).
      exists d0. split; [now right | assumption]. }
    destruct o as [x|]; [|auto].
    destruct Hr as [<-|Hr]; [|auto].
    exists d. split; [now left | assumption].
Qed.

Lemma fallback_loop_raises (deps : list json) (d : json) :
  In d deps -> fallback_entry d = None -> fallback_loop deps = None.
Proof.
  induction deps as [|d0 deps IH]; simpl; [contradiction|].
  intros [->|Hin] Hd.
  - now rewrite Hd.
  - destruct (fallback_entry d0); simpl; [|reflexivity].
    now rewrite (IH Hin Hd).
Qed.

Lemma fallback_try_board (deps : list json) :
  fallback_try (departure_board deps) =
  (out <-? fallback_loop deps ;; Some (stable_sort by_minutes out)).
Proof. unfold fallback_try. simpl. now destruct deps. Qed.

(** The entries a readable file holds and the records before sorting. *)
Lemma fallback_departures_In (file : DataFile) (r : Departure) :
  In r (fallback_departures file) ->
  exists data deps0 deps d,
    file = Document data
    /\ dict_get data (py "departures") = Ok deps0
    /\ py_iter (py_or deps0 (JArr [])) = Ok deps
    /\ In d deps
    /\ fallback_entry d = Some (Some r).
Proof.
  destruct file as [| |data]; simpl; try contradiction.
  destruct (fallback_try data) as [out|] eqn:E; [|contradiction].
  unfold fallback_try in E.
  apply and_then_inv in E. destruct E as (deps0 & H0 & E).
  apply and_then_inv in E. destruct E as (deps & H1 & E).
  apply and_then_inv in E. destruct E as (raw & Hraw & E).
  injection E as <-. intros Hr. apply stable_sort_In in Hr.
  destruct (fallback_loop_In _ _ Hraw r Hr) as (d & Hd & He).
  exists data, deps0, deps, d. repeat split; try assumption.
  - destruct (dict_get data (py "departures"));
      [now injection H0 as -> | discriminate].
  - destruct (py_iter (py_or deps0 (JArr [])));
      [now injection H1 as -> | discriminate].
Qed.

Lemma fallback_departures_sorted (file : DataFile) :
  StronglySorted not_later (fallback_departures file).
Proof.
  destruct file as [| |data]; simpl; try constructor.
  destruct (fallback_try data) as [out|] eqn:E; [|constructor].
  unfold fallback_try in E.
  apply and_then_inv in E. destruct E as (deps0 & _ & E).
  apply and_then_inv in E. destruct E as (deps & _ & E).
  apply and_then_inv in E. destruct E as (raw & _ & E).
  injection E as <-.
  apply StronglySorted_weaken with (R := fun a b => by_minutes a b = true).
  - intros a b. apply by_minutes_spec.
  - apply stable_sort_sorted.
    + exact by_minutes_total.
    + exact by_minutes_trans.
Qed.

End FallbackFacts.

(** X11 ([api_fallback]): whatever the file holds, the answer is one object
    with the key [departures]; its records are sorted by minutes, each has
    the line of the backend, a destination that is not empty and no
    [t_utc]. *)
Theorem fallback_records_are_well_formed {RT : PyRuntime} {NUM : PyNumbers}
  (file : EndpointsA.DataFile) :
  (exists records,
     EndpointsA.api_fallback file
     = departure_board (map departure_json records)
     /\ records = EndpointsA.fallback_departures file)
  /\ StronglySorted not_later (EndpointsA.fallback_departures file)
  /\ forall r, In r (EndpointsA.fallback_departures file) ->
       line r = StructureA.METRO_LINE /\ dest r <> [] /\ t_utc r = None.
Proof.
  split; [now eexists|].
  split; [apply fallback_departures_sorted|].
  intros r Hr.
  destruct (fallback_departures_In file r Hr)
    as (data & deps0 & deps & d & _ & _ & _ & _ & He).
  destruct (fallback_entry_some d r He) as (Hl & Hd & Hu & _).
  auto.
Qed.

(** X12 ([api_fallback]): the answer is all or nothing.  A missing or
    unreadable file, a document that is no object, one entry that is no
    object, or one entry of the line whose [in_min] is no number, each give
    the empty list, however many good entries there are; an entry of
    another line is passed over before its minutes are looked at; and when
    every entry goes through, the answer is the kept records sorted by
    minutes. *)
Theorem fallback_is_all_or_nothing {RT : PyRuntime} {NUM : PyNumbers} :
  EndpointsA.fallback_departures EndpointsA.Absent = []
  /\ EndpointsA.fallback_departures EndpointsA.Unreadable = []
  /\ (forall data,
        (forall m, data <> JObj m) ->
        EndpointsA.fallback_departures (EndpointsA.Document data) = [])
  /\ (forall d, (forall m, d <> JObj m) -> EndpointsA.fallback_entry d = None)
  /\ (forall m l v,
        dict_get_default (JObj m) (py "line") (JStr []) = Ok l ->
        str_upper (str_strip (StructureA.py_str l)) = StructureA.METRO_LINE ->
        dict_get_default (JObj m) (py "in_min") (JInt 0) = Ok v ->
        EndpointsA.py_int v = None ->
        EndpointsA.fallback_entry (JObj m) = None)
  /\ (forall m l,
        dict_get_default (JObj m) (py "line") (JStr []) = Ok l ->
        str_upper (str_strip (StructureA.py_str l))
        <> StructureA.METRO_LINE ->
        EndpointsA.fallback_entry (JObj m) = Some None)
  /\ (forall deps d,
        In d deps -> EndpointsA.fallback_entry d = None ->
        EndpointsA.fallback_departures
          (EndpointsA.Document (departure_board deps)) = [])
  /\ (forall deps out,
        EndpointsA.fallback_loop deps = Some out ->
        EndpointsA.fallback_departures
          (EndpointsA.Document (departure_board deps))
        = stable_sort by_minutes out).
Proof.
  repeat split.
  - intros data Hno. destruct data; try reflexivity. now destruct (Hno m).
  - intros d Hno. destruct d; try reflexivity. now destruct (Hno m).
  - intros m l v Hl Hline Hv Hint. unfold EndpointsA.fallback_entry.
    unfold dict_get_default in *. injection Hl as Hl. injection Hv as Hv.
    cbn [except_none and_then]. rewrite Hl, Hline, Hv, Hint.
    replace (str_eqb StructureA.METRO_LINE StructureA.METRO_LINE) with true
      by (symmetry; now apply str_eqb_eq).
    reflexivity.
  - intros m l Hl Hline. unfold EndpointsA.fallback_entry.
    unfold dict_get_default in *. injection Hl as Hl.
    cbn [except_none and_then]. rewrite Hl.
    destruct (str_eqb _ StructureA.METRO_LINE) eqn:E; [|reflexivity].
    apply str_eqb_eq in E. contradiction.
  - intros deps d Hin Hd. unfold EndpointsA.fallback_departures.
    rewrite fallback_try_board, (fallback_loop_raises deps d Hin Hd).
    reflexivity.
  - intros deps out Hout. unfold EndpointsA.fallback_departures.
    rewrite fallback_try_board, Hout. reflexivity.
Qed.

Lemma fallback_is_all_or_nothing_witness :
  EndpointsA.fallback_departures (RT := Reference.runtime)
    (NUM := ReferenceNumbers.numbers)
    (EndpointsA.Document Examples.broken_document) = []
  /\ map in_min
       (EndpointsA.fallback_departures (RT := Reference.runtime)
          (NUM := ReferenceNumbers.numbers)
          (EndpointsA.Document Examples.fallback_document))
     = [-4; 3; 7].
Proof.
  destruct (fallback_is_all_or_nothing (RT := Reference.runtime)
              (NUM := ReferenceNumbers.numbers))
    as (_ & _ & _ & _ & _ & _ & Hnone & Hall).
  split.
  - apply (Hnone _ (json_object
                      [("line"%string, json_text "A");
                       ("dest"%string, json_text "Skalka");
                       ("in_min"%string, json_text "soon")])).
    + right. left. reflexivity.
    + vm_compute. reflexivity.
  - assert (Hloop : exists out,
              EndpointsA.fallback_loop (RT := Reference.runtime)
                (NUM := ReferenceNumbers.numbers)
                [json_object [("line"%string, json_text "A");
                              ("dest"%string, json_text "Skalka");
                              ("in_min"%string, JInt 7)];
                 json_object [("line"%string, json_text " a ");
                              ("dest"%string, json_text "  ");
                              ("in_min"%string, json_text "3")];
                 json_object [("line"%string, json_text "B");
                              ("dest"%string, json_text "Zličín");
                              ("in_min"%string, JInt 1)];
                 json_object [("line"%string, json_text "A");
                              ("in_min"%string, JInt (-4))]] = Some out
              /\ map in_min (stable_sort by_minutes out) = [-4; 3; 7]).
    { eexists. split; vm_compute; reflexivity. }
    destruct Hloop as (out & Hout & Hmin).
    unfold Examples.fallback_document. rewrite (Hall _ out Hout).
    exact Hmin.
Defined.

(** X13 ([api_fallback]): the minutes of a record are the entry's [in_min]
    as [int()] reads it, 0 when the key is missing: they are not clamped,
    so an entry of the file due in the past is shown with negative
    minutes. *)
Theorem fallback_minutes_are_not_clamped {RT : PyRuntime} {NUM : PyNumbers}
  (file : EndpointsA.DataFile) (r : Departure) :
  In r (EndpointsA.fallback_departures file) ->
  exists data deps0 deps d v,
    file = EndpointsA.Document data
    /\ dict_get data (py "departures") = Ok deps0
    /\ py_iter (py_or deps0 (JArr [])) = Ok deps
    /\ In d deps
    /\ dict_get_default d (py "in_min") (JInt 0) = Ok v
    /\ EndpointsA.py_int v = Some (in_min r).
Proof.
  intros Hr.
  destruct (fallback_departures_In file r Hr)
    as (data & deps0 & deps & d & Hf & H0 & H1 & Hd & He).
  destruct (fallback_entry_some d r He) as (_ & _ & _ & v & Hv & Hn).
  exists data, deps0, deps, d, v. auto 10.
Qed.

Lemma fallback_minutes_are_not_clamped_witness :
  In {| line := py "A"; dest := py "—"; in_min := -4; t_utc := None |}
    (EndpointsA.fallback_departures (RT := Reference.runtime)
       (NUM := ReferenceNumbers.numbers)
       (EndpointsA.Document Examples.fallback_document))
  /\ exists data deps0 deps d v,
       EndpointsA.Document Examples.fallback_document
       = EndpointsA.Document data
       /\ dict_get data (py "departures") = Ok deps0
       /\ py_iter (py_or deps0 (JArr [])) = Ok deps
       /\ In d deps
       /\ dict_get_default d (py "in_min") (JInt 0) = Ok v
       /\ EndpointsA.py_int (NUM := ReferenceNumbers.numbers) v = Some (-4).
Proof.
  assert (Hin : In {| line := py "A"; dest := py "—"; in_min := -4;
                      t_utc := None |}
                  (EndpointsA.fallback_departures (RT := Reference.runtime)
                     (NUM := ReferenceNumbers.numbers)
                     (EndpointsA.Document Examples.fallback_document))).
  { vm_compute. left. reflexivity. }
  split; [exact Hin|].
  exact (fallback_minutes_are_not_clamped (RT := Reference.runtime)
           (NUM := ReferenceNumbers.numbers) _ _ Hin).
Defined.

Section MockFeedFacts.
Import StructureC MockFeedA.

Lemma pick_lt (n : nat) (g : Rng) : (0 < n)%nat -> (pick n g < n)%nat.
Proof.
  intros Hn. unfold pick.
  pose proof (Z.mod_pos_bound (raw g (cursor g)) (Z.of_nat n) ltac:(lia)).
  lia.
Qed.

Lemma nth_split_at {A} (i : nat) (l : list A) (d : A) :
  (i < length l)%nat ->
  l = firstn i l ++ nth i l d :: skipn (S i) l.
Proof.
  revert l. induction i as [|i IH]; intros [|x l] H; simpl in *;
    try lia; [reflexivity|].
  f_equal. apply IH. lia.
Qed.

Lemma sample_spec (k : nat) (pool : list Z) (g : Rng) :
  NoDup pool -> (k <= length pool)%nat ->
  length (fst (sample pool k g)) = k
  /\ NoDup (fst (sample pool k g))
  /\ incl (fst (sample pool k g)) pool
  /\ cursor (snd (sample pool k g)) = (cursor g + k)%nat
  /\ raw (snd (sample pool k g)) = raw g.
Proof.
  revert pool g. induction k as [|k IH]; intros pool g Hnd Hk.
  - simpl. repeat split; [constructor | intros x [] | lia].
  - cbn [sample].
    assert (Hi : (pick (length pool) g < length pool)%nat)
      by (apply pick_lt; lia).
    set (i := pick (length pool) g) in *.
    pose proof (nth_split_at i pool 0 Hi) as Hsplit.
    set (x := nth i pool 0) in *.
    set (pool' := firstn i pool ++ skipn (S i) pool) in *.
    assert (Hrem : NoDup pool' /\ ~ In x pool').
    { apply NoDup_remove. now rewrite <- Hsplit. }
    assert (Hlen : length pool = S (length pool')).
    { rewrite Hsplit at 1. unfold pool'. rewrite !length_app.
      cbn [length]. lia. }
    assert (Hincl : incl pool' pool).
    { intros y Hy. rewrite Hsplit. unfold pool' in Hy.
      apply in_app_or in Hy. apply in_or_app.
      destruct Hy; [now left | right; now right]. }
    destruct (IH pool' (advance g) (proj1 Hrem) ltac:(lia))
      as (Hl & Hn & Hin & Hc & Hr).
    destruct (sample pool' k (advance g)) as [rest g'] eqn:E.
    cbn [fst snd length] in *.
    repeat split.
    + now rewrite Hl.
    + constructor; [|exact Hn]. intros Hx. apply (proj2 Hrem).
      now apply Hin.
    + intros y [<-|Hy].
      * rewrite Hsplit. apply in_or_app. right. now left.
      * apply Hincl. now apply Hin.
    + rewrite Hc. cbn [advance cursor]. lia.
    + exact Hr.
Qed.

Lemma NoDup_map_injective {A B} (f : A -> B) (l : list A) :
  (forall a b, f a = f b -> a = b) -> NoDup l -> NoDup (map f l).
Proof.
  intros Hf. induction 1 as [|x l Hx _ IH]; simpl; constructor; [|exact IH].
  rewrite in_map_iff. intros (y & Hy & Hin).
  apply Hf in Hy. now subst y.
Qed.

Lemma py_range_spec (lo hi : Z) :
  NoDup (py_range lo hi)
  /\ length (py_range lo hi) = Z.to_nat (hi - lo)
  /\ forall x, In x (py_range lo hi) <-> lo <= x < hi.
Proof.
  unfold py_range. split; [|split].
  - apply NoDup_map_injective; [|apply seq_NoDup].
    intros a b. lia.
  - now rewrite length_map, length_seq.
  - intros x. rewrite in_map_iff. split.
    + intros (i & <- & Hi). apply in_seq in Hi. lia.
    + intros Hx. exists (Z.to_nat (x - lo)). split; [lia|].
      apply in_seq. lia.
Qed.

Lemma choice_In (g : Rng) : In (fst (choice destinations g)) destinations.
Proof.
  unfold choice. cbn [fst]. apply nth_In. apply pick_lt.
  unfold destinations. cbn [length]. lia.
Qed.

Lemma fill_spec (mins : list Z) (g : Rng) :
  map in_min (fst (fill mins g)) = mins
  /\ Forall (fun r => line r = py "A" /\ In (dest r) destinations
                      /\ t_utc r = None) (fst (fill mins g))
  /\ cursor (snd (fill mins g)) = (cursor g + length mins)%nat.
Proof.
  revert g. induction mins as [|m mins IH]; intros g.
  - simpl. repeat split; [constructor | lia].
  - cbn [fill]. pose proof (choice_In g) as Hc.
    destruct (choice destinations g) as [d g1] eqn:E.
    assert (Hg1 : cursor g1 = S (cursor g)).
    { unfold choice in E. injection E as _ <-. reflexivity. }
    destruct (IH g1) as (Hm & Hf & Hcur).
    destruct (fill mins g1) as [out g2]. simpl in *.
    repeat split.
    + now rewrite Hm.
    + constructor; [|exact Hf]. simpl. auto.
    + rewrite Hcur. lia.
Qed.

Lemma sorted_nodup_strict (l : list Z) :
  StronglySorted (fun a b => (a <=? b) = true) l -> NoDup l ->
  StronglySorted Z.lt l.
Proof.
  induction 1 as [|x l Hl IH Hx]; intros Hnd; constructor.
  - apply IH. now inversion Hnd.
  - inversion Hnd as [|? ? Hnotin _]; subst.
    rewrite Forall_forall in *. intros y Hy.
    specialize (Hx y Hy). apply Z.leb_le in Hx.
    assert (x <> y) by (intros ->; contradiction). lia.
Qed.

(** What [main] appends, for a count that is not negative. *)
Lemma mock_departures_spec (count : Z) (g : Rng) :
  0 <= count ->
  exists recs g',
    mock_departures count g = Some (recs, g')
    /\ length recs = Z.to_nat (Z.min count 10)
    /\ StronglySorted Z.lt (map in_min recs)
    /\ Forall (fun r => 1 <= in_min r <= 19 /\ line r = py "A"
                        /\ In (dest r) destinations /\ t_utc r = None) recs
    /\ cursor g' = (cursor g + 2 * length recs)%nat.
Proof.
  intros Hcount. unfold mock_departures.
  destruct (Z.ltb_spec (Z.min count 10) 0) as [?|_]; [lia|].
  destruct (py_range_spec 1 20) as (Hnd & Hlen & Hin).
  destruct (sample_spec (Z.to_nat (Z.min count 10)) (py_range 1 20) g Hnd
              ltac:(rewrite Hlen; lia)) as (Hl & Hn & Hi & Hc & _).
  destruct (sample (py_range 1 20) (Z.to_nat (Z.min count 10)) g)
    as [picked g1]. simpl in *.
  destruct (fill_spec (stable_sort Z.leb picked) g1) as (Hm & Hf & Hcur).
  destruct (fill (stable_sort Z.leb picked) g1) as [recs g2] eqn:E.
  simpl in *. exists recs, g2.
  assert (Hlr : length recs = Z.to_nat (Z.min count 10)).
  { rewrite <- Hl, <- (stable_sort_length Z.leb picked), <- Hm.
    now rewrite length_map. }
  repeat split.
  - exact Hlr.
  - rewrite Hm. apply sorted_nodup_strict.
    + apply stable_sort_sorted.
      * intros a b. rewrite Z.leb_gt, Z.leb_le. lia.
      * intros a b c. rewrite !Z.leb_le. lia.
    + apply (Permutation_NoDup (l := picked)); [|exact Hn].
      symmetry. apply stable_sort_perm.
  - rewrite Forall_forall in *. intros r Hr.
    destruct (Hf r Hr) as (Ha & Hd & Hu).
    assert (Hmin : In (in_min r) picked).
    { apply (stable_sort_In Z.leb). rewrite <- Hm. now apply in_map. }
    apply Hi, Hin in Hmin. repeat split; try assumption; lia.
  - rewrite Hcur, Hc, stable_sort_length, Hl, Hlr. lia.
Qed.

End MockFeedFacts.

Lemma mock_feed_is_well_formed_aux (count : Z) (g : StructureC.Rng) :
  (count < 0 -> MockFeedA.main count g = None)
  /\ (0 <= count ->
      exists recs g',
        MockFeedA.main count g
        = Some (departure_board (map departure_json recs), g')
        /\ length recs = Z.to_nat (Z.min count 10)
        /\ StronglySorted Z.lt (map in_min recs)
        /\ Forall (fun r => 1 <= in_min r <= 19 /\ line r = py "A"
                            /\ In (dest r) MockFeedA.destinations
                            /\ t_utc r = None) recs
        /\ StructureC.cursor g'
           = (StructureC.cursor g + 2 * length recs)%nat).
Proof.
  split.
  - intros Hneg. unfold MockFeedA.main, MockFeedA.mock_departures.
    destruct (Z.ltb_spec (Z.min count 10) 0) as [_|?]; [reflexivity | lia].
  - intros Hcount.
    destruct (mock_departures_spec count g Hcount)
      as (recs & g' & Hrun & Hrest).
    exists recs, g'. split; [|exact Hrest].
    unfold MockFeedA.main. now rewrite Hrun.
Qed.

(** X14 ([mock_feed.py], [main]): a negative [--count] ends in the
    [ValueError] of [random.sample]; otherwise the file holds
    [min(count, 10)] records whose minutes are distinct, ascending and
    between 1 and 19, each of line A, with one of the four destinations; the
    run takes two draws per record. *)
Theorem mock_feed_is_well_formed (count : Z) (g : StructureC.Rng) :
  (count < 0 -> MockFeedA.main count g = None)
  /\ (0 <= count ->
      exists recs g',
        MockFeedA.main count g
        = Some (departure_board (map departure_json recs), g')
        /\ length recs = Z.to_nat (Z.min count 10)
        /\ StronglySorted Z.lt (map in_min recs)
        /\ Forall (fun r => 1 <= in_min r <= 19 /\ line r = py "A"
                            /\ In (dest r) MockFeedA.destinations
                            /\ t_utc r = None) recs
        /\ StructureC.cursor g'
           = (StructureC.cursor g + 2 * length recs)%nat).
Proof. exact (mock_feed_is_well_formed_aux count g). Qed.

Lemma mock_feed_is_well_formed_witness :
  MockFeedA.main (-1) Examples.stride_rng = None
  /\ exists recs g',
       MockFeedA.main 60 Examples.stride_rng
       = Some (departure_board (map departure_json recs), g')
       /\ length recs = 10%nat
       /\ StronglySorted Z.lt (map in_min recs)
       /\ Forall (fun r => 1 <= in_min r <= 19 /\ line r = py "A"
                           /\ In (dest r) MockFeedA.destinations
                           /\ t_utc r = None) recs
       /\ StructureC.cursor g' = 20%nat.
Proof.
  destruct (mock_feed_is_well_formed (-1) Examples.stride_rng) as (Hneg & _).
  destruct (mock_feed_is_well_formed 60 Examples.stride_rng) as (_ & Hpos).
  split; [apply Hneg; lia|].
  destruct (Hpos ltac:(lia)) as (recs & g' & Hrun & Hlen & Hs & Hf & Hc).
  exists recs, g'. change (Z.to_nat (Z.min 60 10)) with 10%nat in Hlen.
  repeat split; try assumption.
  rewrite Hc, Hlen. reflexivity.
Defined.

Section RoundTripFacts.
Context {RT : PyRuntime} {NUM : PyNumbers}.
Import StructureA EndpointsA.

Lemma fallback_entry_written (d : pystr) (m : Z) :
  str_upper (str_strip (py "A")) = py "A" ->
  str_strip d = d -> d <> [] ->
  fallback_entry
    (departure_json {| line := py "A"; dest := d; in_min := m;
                       t_utc := None |})
  = Some (Some {| line := py "A"; dest := d; in_min := m; t_utc := None |}).
Proof.
  intros Hup Hd Hne. unfold fallback_entry, departure_json.
  cbn [line dest in_min t_utc app].
  change (dict_get_default
            (JObj [(py "line", JStr (py "A")); (py "dest", JStr d);
                   (py "in_min", JInt m)]) (py "line") (JStr []))
    with (Ok (JStr (py "A"))).
  change (dict_get_default
            (JObj [(py "line", JStr (py "A")); (py "dest", JStr d);
                   (py "in_min", JInt m)]) (py "dest") (JStr PLACEHOLDER))
    with (Ok (JStr d)).
  change (dict_get_default
            (JObj [(py "line", JStr (py "A")); (py "dest", JStr d);
                   (py "in_min", JInt m)]) (py "in_min") (JInt 0))
    with (Ok (JInt m)).
  cbn [except_none and_then py_str py_int]. rewrite Hup, Hd.
  change (negb (str_eqb (py "A") METRO_LINE)) with false. cbv iota.
  destruct d; [contradiction | reflexivity].
Qed.

Lemma fallback_loop_written (recs : list Departure) :
  str_upper (str_strip (py "A")) = py "A" ->
  Forall (fun r => line r = py "A" /\ str_strip (dest r) = dest r
                   /\ dest r <> [] /\ t_utc r = None) recs ->
  fallback_loop (map departure_json recs) = Some recs.
Proof.
  intros Hup. induction 1 as [|r recs Hr _ IH]; [reflexivity|].
  destruct r as [l d m u]. simpl in Hr. destruct Hr as (-> & Hd & Hne & ->).
  cbn [map fallback_loop].
  rewrite (fallback_entry_written d m Hup Hd Hne). simpl.
  now rewrite IH.
Qed.

End RoundTripFacts.

(** X15 ([mock_feed.py] and [api_fallback]): what the mock feed writes, the
    fallback endpoint serves back unchanged: same records, same order.
    [strip] and [upper] are taken to leave the text A and the four
    destinations as they are. *)
Theorem mock_feed_round_trip {RT : PyRuntime} {NUM : PyNumbers} (count : Z)
  (g g' : StructureC.Rng) (doc : json) :
  str_upper (str_strip (py "A")) = py "A" ->
  (forall d, In d MockFeedA.destinations -> str_strip d = d) ->
  MockFeedA.main count g = Some (doc, g') ->
  EndpointsA.api_fallback (EndpointsA.Document doc) = doc.
Proof.
  intros Hup Hstrip Hmain.
  destruct (Z.ltb_spec count 0) as [Hneg|Hpos].
  - destruct (mock_feed_is_well_formed_aux count g) as (Hnone & _).
    rewrite (Hnone Hneg) in Hmain. discriminate.
  - destruct (mock_feed_is_well_formed_aux count g) as (_ & Hsome).
    destruct (Hsome Hpos) as (recs & g2 & Hrun & _ & Hsorted & Hf & _).
    rewrite Hrun in Hmain. injection Hmain as <- <-.
    unfold EndpointsA.api_fallback, EndpointsA.fallback_departures.
    rewrite fallback_try_board.
    rewrite (fallback_loop_written recs Hup).
    + cbn [and_then]. rewrite stable_sort_sorted_id; [reflexivity|].
      clear - Hsorted. induction recs as [|r recs IH]; [constructor|].
      simpl in Hsorted. inversion Hsorted as [|? ? Hs Hr]; subst.
      constructor; [now apply IH|].
      rewrite Forall_forall in *. intros y Hy. unfold by_minutes.
      apply Z.leb_le. specialize (Hr (in_min y) (in_map in_min _ _ Hy)).
      lia.
    + eapply Forall_impl; [|exact Hf]. intros r (_ & Hl & Hd & Hu).
      repeat split; try assumption.
      * now apply Hstrip.
      * intros He. rewrite He in Hd. vm_compute in Hd.
        decompose [or] Hd; discriminate || contradiction.
Qed.

Lemma mock_feed_round_trip_witness :
  exists doc g',
    MockFeedA.main 6 Examples.stride_rng = Some (doc, g')
    /\ EndpointsA.api_fallback (RT := Reference.runtime)
         (NUM := ReferenceNumbers.numbers) (EndpointsA.Document doc) = doc.
Proof.
  assert (H : exists doc g',
            MockFeedA.main 6 Examples.stride_rng = Some (doc, g'))
    by (vm_compute; eauto).
  destruct H as (doc & g' & Hmain). exists doc, g'.
  split; [exact Hmain|].
  apply (mock_feed_round_trip (RT := Reference.runtime)
           (NUM := ReferenceNumbers.numbers) 6 Examples.stride_rng g' doc).
  - vm_compute. reflexivity.
  - intros d Hd. vm_compute in Hd.
    decompose [or] Hd; try contradiction; subst d; vm_compute; reflexivity.
  - exact Hmain.
Defined.

(* ------------------------------------------------------------------ *)
(** ** Structure A: the list of stops *)

Lemma str_split_not_nil (sep : N) (s : pystr) : str_split sep s <> [].
Proof.
  destruct s as [|c s]; simpl; [discriminate|].
  destruct (c =? sep)%N; [discriminate|].
  destruct (str_split sep s); discriminate.
Qed.

Lemma str_join_split (sep : N) (s : pystr) :
  str_join sep (str_split sep s) = s.
Proof.
  induction s as [|c s IH]; [reflexivity|]. cbn [str_split].
  pose proof (str_split_not_nil sep s) as Hne.
  destruct (N.eqb_spec c sep) as [->|_].
  - destruct (str_split sep s) as [|seg segs]; [contradiction|].
    cbn [str_join app] in *. now rewrite IH.
  - destruct (str_split sep s) as [|seg segs]; [contradiction|].
    destruct segs as [|seg' segs]; cbn [str_join app] in *; now rewrite <- IH.
Qed.

Lemma str_split_no_sep (sep : N) (s : pystr) :
  Forall (fun seg => ~ In sep seg) (str_split sep s).
Proof.
  induction s as [|c s IH]; cbn [str_split].
  - constructor; [intros [] | constructor].
  - destruct (N.eqb_spec c sep) as [->|Hne].
    + constructor; [intros [] | exact IH].
    + destruct (str_split sep s) as [|seg segs].
      * constructor; [|constructor]. intros [H|[]]. contradiction.
      * inversion IH as [|? ? Hseg Hsegs]; subst.
        constructor; [|exact Hsegs].
        intros [H|H]; [contradiction | now apply Hseg].
Qed.

Lemma str_split_length (sep : N) (s : pystr) :
  length (str_split sep s) = S (count_occ N.eq_dec s sep).
Proof.
  induction s as [|c s IH]; [reflexivity|]. cbn [str_split count_occ].
  pose proof (str_split_not_nil sep s) as Hne.
  destruct (N.eqb_spec c sep) as [->|Hc].
  - destruct (N.eq_dec sep sep); [|contradiction]. cbn [length].
    now rewrite IH.
  - destruct (N.eq_dec c sep); [contradiction|].
    destruct (str_split sep s) as [|seg segs]; [contradiction|].
    exact IH.
Qed.

Lemma kept_names_In {RT : PyRuntime} (segs : list pystr) (n : pystr) :
  In n (flat_map (fun s => match str_strip s with
                           | [] => []
                           | c :: t => [c :: t]
                           end) segs) <->
  exists seg, In seg segs /\ n = str_strip seg /\ n <> [].
Proof.
  rewrite in_flat_map. split.
  - intros (seg & Hseg & Hn). exists seg. split; [exact Hseg|].
    destruct (str_strip seg) as [|c t] eqn:E; [destruct Hn|].
    destruct Hn as [<-|[]]. split; [reflexivity | discriminate].
  - intros (seg & Hseg & -> & Hne). exists seg. split; [exact Hseg|].
    destruct (str_strip seg); [contradiction | now left].
Qed.

Lemma kept_names_length {RT : PyRuntime} (segs : list pystr) :
  (length (flat_map (fun s => match str_strip s with
                              | [] => []
                              | c :: t => [c :: t]
                              end) segs) <= length segs)%nat.
Proof.
  induction segs as [|seg segs IH]; [simpl; lia|].
  cbn [flat_map]. rewrite length_app. cbn [length].
  destruct (str_strip seg); cbn [length]; lia.
Qed.

(** X16 ([STOP_NAMES]): the comma-separated value of the environment is cut
    at every comma (joining the pieces with commas gives the value back, and
    no piece holds a comma); the stops are the stripped pieces that are not
    empty, in their order: no stop is ever the empty text, there are at most
    one more stops than commas, and a value of blanks and commas gives no
    stop at all. *)
Theorem stop_names_are_clean {RT : PyRuntime} (env : pystr) :
  str_join 44%N (str_split 44%N env) = env
  /\ Forall (fun seg => ~ In 44%N seg) (str_split 44%N env)
  /\ Forall (fun n => n <> []) (EndpointsA.stop_names env)
  /\ (forall n,
        In n (EndpointsA.stop_names env) <->
        exists seg,
          In seg (str_split 44%N env) /\ n = str_strip seg /\ n <> [])
  /\ (length (EndpointsA.stop_names env)
      <= S (count_occ N.eq_dec env 44%N))%nat
  /\ ((forall seg, In seg (str_split 44%N env) -> str_strip seg = []) ->
      EndpointsA.stop_names env = []).
Proof.
  split; [apply str_join_split|].
  split; [apply str_split_no_sep|].
  rewrite <- str_split_length. unfold EndpointsA.stop_names.
  split; [|split; [apply kept_names_In | split; [apply kept_names_length|]]].
  - rewrite Forall_forall. intros n Hn. apply kept_names_In in Hn.
    now destruct Hn as (_ & _ & _ & Hne).
  - intros Hblank.
    destruct (flat_map _ (str_split 44%N env)) as [|n rest] eqn:E;
      [reflexivity|].
    assert (Hn : In n (n :: rest)) by now left.
    rewrite <- E in Hn.
    apply kept_names_In in Hn. destruct Hn as (seg & Hseg & -> & Hne).
    now rewrite (Hblank seg Hseg) in Hne.
Qed.

Lemma stop_names_are_clean_witness :
  EndpointsA.stop_names (RT := Reference.runtime) (py " Muzeum , ,Můstek,")
  = [py "Muzeum"; py "Můstek"]
  /\ EndpointsA.stop_names (RT := Reference.runtime) (py " , ,") = [].
Proof.
  split; [vm_compute; reflexivity|].
  apply (stop_names_are_clean (RT := Reference.runtime) (py " , ,")).
  intros seg Hseg. vm_compute in Hseg.
  decompose [or] Hseg; try contradiction; subst seg; reflexivity.
Defined.

(* ================================================================== *)
(** * Further properties of structure C *)

Section MoreParseFeedFacts.
Import StructureC.

Lemma unknown_not_empty : UNKNOWN <> [].
Proof. vm_compute. discriminate. Qed.

Lemma str_or_not_empty (a b : pystr) : b <> [] -> str_or a b <> [].
Proof. destruct a; simpl; [auto | discriminate]. Qed.

Lemma departure_of_complete (rid : pystr) (hs : option pystr)
  (now_ts ts : Z) :
  line (departure_of rid hs now_ts ts) = str_or rid UNKNOWN
  /\ line (departure_of rid hs now_ts ts) <> []
  /\ dest (departure_of rid hs now_ts ts) <> []
  /\ dest (departure_of rid hs now_ts ts)
     = match hs with
       | Some (c :: h) => c :: h
       | _ => line (departure_of rid hs now_ts ts)
       end
  /\ t_utc (departure_of rid hs now_ts ts) = None
  /\ 0 <= in_min (departure_of rid hs now_ts ts).
Proof.
  unfold departure_of. cbn [line dest t_utc in_min].
  pose proof (str_or_not_empty rid UNKNOWN unknown_not_empty).
  split; [reflexivity|]. split; [assumption|].
  split; [destruct hs as [[|c h]|]; try assumption; discriminate|].
  split; [destruct hs as [[|c h]|]; reflexivity|].
  split; [reflexivity | lia].
Qed.

Lemma entity_departures_In (now_ts : Z) (e : FeedEntity) (r : Departure) :
  In r (entity_departures now_ts e) ->
  exists tu ts,
    trip_update e = Some tu
    /\ r = departure_of (str_prefix 10 (route_id (trip tu)))
             (trip_headsign (trip tu)) now_ts ts.
Proof.
  unfold entity_departures. destruct (trip_update e) as [tu|]; [|intros []].
  intros Hr.
  apply (first_arrival_In (str_prefix 10 (route_id (trip tu)))
           (trip_headsign (trip tu)) now_ts (stop_time_update tu) r) in Hr.
  destruct Hr as (stu & ts & _ & _ & ->). now exists tu, ts.
Qed.

Lemma entity_departures_length (now_ts : Z) (e : FeedEntity) :
  (length (entity_departures now_ts e) <= 1)%nat.
Proof.
  unfold entity_departures. destruct (trip_update e); [|simpl; lia].
  apply first_arrival_length.
Qed.

Lemma flat_map_entity_length (now_ts : Z) (es : list FeedEntity) :
  (length (flat_map (entity_departures now_ts) es) <= length es)%nat.
Proof.
  induction es as [|e es IH]; [simpl; lia|].
  cbn [flat_map]. rewrite length_app. cbn [length].
  pose proof (entity_departures_length now_ts e). lia.
Qed.

Lemma parse_feed_length (feed : FeedMessage) (now_ts : Z) :
  (length (parse_feed feed now_ts) <= 50)%nat
  /\ (length (parse_feed feed now_ts) <= length (entity feed))%nat.
Proof.
  unfold parse_feed. rewrite length_firstn, stable_sort_length.
  pose proof (flat_map_entity_length now_ts (entity feed)). lia.
Qed.

Lemma parse_feed_complete (feed : FeedMessage) (now_ts : Z) (r : Departure) :
  In r (parse_feed feed now_ts) ->
  exists e tu ts,
    In e (entity feed) /\ trip_update e = Some tu
    /\ r = departure_of (str_prefix 10 (route_id (trip tu)))
             (trip_headsign (trip tu)) now_ts ts.
Proof.
  intros Hr. destruct (parse_feed_In feed now_ts r Hr) as (e & He & Hin).
  destruct (entity_departures_In now_ts e r Hin) as (tu & ts & Htu & ->).
  now exists e, tu, ts.
Qed.

(** The loops of the test script and of the backend do the same. *)
Lemma stop_time_updates_loop_first_arrival (rid : pystr)
  (hs : option pystr) (now_ts : Z) (stus : list StopTimeUpdate) :
  ToolsC.stop_time_updates_loop rid hs now_ts stus
  = first_arrival rid hs now_ts stus.
Proof.
  induction stus as [|stu stus IH]; [reflexivity|].
  cbn [ToolsC.stop_time_updates_loop first_arrival]. unfold arrival_time.
  destruct (arrival stu) as [ev|]; [|exact IH].
  destruct (time ev =? 0); [exact IH | reflexivity].
Qed.

Lemma entities_loop_flat_map (now_ts : Z) (es : list FeedEntity) :
  ToolsC.entities_loop now_ts es = flat_map (entity_departures now_ts) es.
Proof.
  induction es as [|e es IH]; [reflexivity|].
  cbn [ToolsC.entities_loop flat_map]. unfold entity_departures at 1.
  destruct (trip_update e) as [tu|]; [|exact IH].
  now rewrite stop_time_updates_loop_first_arrival, IH.
Qed.

Lemma parse_feed_bytes_firstn (feed : FeedMessage) (now_ts : Z) :
  parse_feed feed now_ts = firstn 50 (ToolsC.parse_feed_bytes feed now_ts).
Proof.
  unfold parse_feed, ToolsC.parse_feed_bytes.
  now rewrite entities_loop_flat_map.
Qed.

Lemma parse_feed_bytes_small (feed : FeedMessage) (now_ts : Z) :
  (length (entity feed) <= 50)%nat ->
  ToolsC.parse_feed_bytes feed now_ts = parse_feed feed now_ts.
Proof.
  intros Hsmall. rewrite parse_feed_bytes_firstn.
  symmetry. apply firstn_all2. unfold ToolsC.parse_feed_bytes.
  rewrite stable_sort_length, entities_loop_flat_map.
  pose proof (flat_map_entity_length now_ts (entity feed)). lia.
Qed.

(** The store of the binary poller. *)
Lemma gtfs_poller_loop_invariant (P : Store -> Prop) (url : pystr) :
  (forall st c, P st -> P (poller_cycle url st c)) ->
  forall cycles st, P st -> P (gtfs_poller_loop url cycles st).
Proof.
  intros Hstep cycles st Hst. unfold gtfs_poller_loop.
  destruct url as [|c0 url']; [exact Hst|].
  revert st Hst. induction cycles as [|c cycles IH]; simpl; intros st Hst;
    [exact Hst|].
  apply IH. now apply Hstep.
Qed.

Lemma gtfs_poller_loop_kept_well (url : pystr) (cycles : list Cycle) :
  (length (LATEST_DEPARTURES (gtfs_poller_loop url cycles initial_store))
   <= 50)%nat
  /\ StronglySorted not_later
       (LATEST_DEPARTURES (gtfs_poller_loop url cycles initial_store))
  /\ forall r,
       In r (LATEST_DEPARTURES (gtfs_poller_loop url cycles initial_store))
       -> line r <> [] /\ (length (line r) <= 10)%nat /\ dest r <> []
          /\ t_utc r = None /\ 0 <= in_min r.
Proof.
  apply (gtfs_poller_loop_invariant
           (fun st =>
              (length (LATEST_DEPARTURES st) <= 50)%nat
              /\ StronglySorted not_later (LATEST_DEPARTURES st)
              /\ forall r, In r (LATEST_DEPARTURES st) ->
                   line r <> [] /\ (length (line r) <= 10)%nat
                   /\ dest r <> [] /\ t_utc r = None /\ 0 <= in_min r)).
  - intros st c Hst. unfold poller_cycle, fetch_gtfs_rt.
    destruct url as [|c0 url']; [exact Hst|].
    destruct (source c) as [| |[feed|]]; try exact Hst.
    cbn [LATEST_DEPARTURES]. split; [|split].
    + apply parse_feed_length.
    + apply parse_feed_sorted.
    + intros r Hr.
      destruct (parse_feed_complete feed (fetched_at c) r Hr)
        as (e & tu & ts & _ & _ & ->).
      destruct (departure_of_complete
                  (str_prefix 10 (route_id (trip tu)))
                  (trip_headsign (trip tu)) (fetched_at c) ts)
        as (_ & Hl & Hd & _ & Hu & Hm).
      repeat split; try assumption.
      apply str_or_unknown_length. apply str_prefix_length.
  - cbn [initial_store LATEST_DEPARTURES length]. split; [lia|].
    split; [constructor | intros r []].
Qed.

Lemma gtfs_poller_cycle_failed (url : pystr) (st : Store) (c : Cycle) :
  fetch_gtfs_rt url (source c) (fetched_at c) = None ->
  poller_cycle url st c = st.
Proof. intros H. unfold poller_cycle. now rewrite H. Qed.

Lemma gtfs_fold_all_failed (url : pystr) (cycles : list Cycle) (st : Store) :
  (forall c, In c cycles ->
     fetch_gtfs_rt url (source c) (fetched_at c) = None) ->
  fold_left (poller_cycle url) cycles st = st.
Proof.
  revert st. induction cycles as [|c cycles IH]; intros st H; [reflexivity|].
  simpl. rewrite (gtfs_poller_cycle_failed url st c (H c (or_introl eq_refl))).
  apply IH. intros c' Hc'. apply H. now right.
Qed.

Lemma simulate_cursor (entries : list (pystr * pystr)) (g : Rng) :
  cursor (snd (simulate entries g)) = (cursor g + length entries)%nat
  /\ raw (snd (simulate entries g)) = raw g.
Proof.
  revert g. induction entries as [|[l d] entries IH]; intros g.
  - simpl. split; [lia | reflexivity].
  - cbn [simulate]. unfold randint.
    destruct (IH {| raw := raw g; cursor := S (cursor g) |}) as (Hc & Hr).
    destruct (simulate entries {| raw := raw g; cursor := S (cursor g) |})
      as [out g2].
    cbn [fst snd length cursor raw] in *. split; [lia | exact Hr].
Qed.

End MoreParseFeedFacts.

(** X17 ([fetch_gtfs_rt], the parse): every record of a batch is complete:
    its line is not empty and at most 10 characters long, its destination is
    the headsign of the trip when that is not empty and otherwise the line
    itself, it carries no [t_utc] and its minutes are not negative; and a
    batch has no more records than the feed has entities. *)
Theorem binary_records_are_complete (feed : StructureC.FeedMessage)
  (now_ts : Z) :
  (length (StructureC.parse_feed feed now_ts)
   <= length (StructureC.entity feed))%nat
  /\ forall r, In r (StructureC.parse_feed feed now_ts) ->
       line r <> [] /\ (length (line r) <= 10)%nat
       /\ dest r <> [] /\ t_utc r = None /\ 0 <= in_min r
       /\ exists e tu,
            In e (StructureC.entity feed)
            /\ StructureC.trip_update e = Some tu
            /\ dest r
               = match StructureC.trip_headsign (StructureC.trip tu) with
                 | Some (c :: h) => c :: h
                 | _ => line r
                 end.
Proof.
  split; [apply parse_feed_length|].
  intros r Hr.
  destruct (parse_feed_complete feed now_ts r Hr)
    as (e & tu & ts & He & Htu & ->).
  destruct (departure_of_complete
              (str_prefix 10 (StructureC.route_id (StructureC.trip tu)))
              (StructureC.trip_headsign (StructureC.trip tu)) now_ts ts)
    as (_ & Hl & Hd & Hdest & Hu & Hm).
  repeat split; try assumption.
  - apply str_or_unknown_length. apply str_prefix_length.
  - now exists e, tu.
Qed.

Lemma binary_records_are_complete_witness :
  map dest
    (StructureC.parse_feed
       {| StructureC.entity :=
            [Examples.signed_entity "A" "Skalka" [0; 300];
             Samples.trip_entity "B" [60];
             Examples.signed_entity "" "" [120]] |} 0)
  = [py "B"; py "?"; py "Skalka"]
  /\ forall r,
       In r (StructureC.parse_feed
               {| StructureC.entity :=
                    [Examples.signed_entity "A" "Skalka" [0; 300];
                     Samples.trip_entity "B" [60];
                     Examples.signed_entity "" "" [120]] |} 0) ->
       line r <> [] /\ dest r <> [].
Proof.
  split; [vm_compute; reflexivity|].
  intros r Hr.
  destruct (proj2 (binary_records_are_complete _ _) r Hr)
    as (Hl & _ & Hd & _).
  exact (conj Hl Hd).
Defined.

(** X18 ([gtfs_poller_loop]): whatever the feed held over any number of
    cycles, the stored snapshot has at most 50 records, is sorted by
    minutes, and each record has a line of 1 to 10 characters, a destination
    that is not empty, no [t_utc] and minutes that are not negative; without
    a locator the loop leaves the store as it is. *)
Theorem gtfs_snapshot_is_well_formed (url : pystr)
  (cycles : list StructureC.Cycle) :
  (length
     (StructureC.LATEST_DEPARTURES
        (StructureC.gtfs_poller_loop url cycles StructureC.initial_store))
   <= 50)%nat
  /\ StronglySorted not_later
       (StructureC.LATEST_DEPARTURES
          (StructureC.gtfs_poller_loop url cycles StructureC.initial_store))
  /\ (forall r,
        In r (StructureC.LATEST_DEPARTURES
                (StructureC.gtfs_poller_loop url cycles
                   StructureC.initial_store)) ->
        line r <> [] /\ (length (line r) <= 10)%nat /\ dest r <> []
        /\ t_utc r = None /\ 0 <= in_min r)
  /\ forall st, StructureC.gtfs_poller_loop [] cycles st = st.
Proof.
  destruct (gtfs_poller_loop_kept_well url cycles) as (H1 & H2 & H3).
  split; [exact H1|]. split; [exact H2|]. split; [exact H3|].
  reflexivity.
Qed.

(** X19 ([gtfs_poller_loop]): after any run the snapshot is exactly the
    batch of the latest cycle whose feed could be read and decoded,
    whatever was stored before and however many failures followed. *)
Theorem gtfs_snapshot_is_latest_batch (url : pystr)
  (before after : list StructureC.Cycle) (c : StructureC.Cycle)
  (st : StructureC.Store) (feed : StructureC.FeedMessage) :
  url <> [] ->
  StructureC.source c = StructureC.Content (Some feed) ->
  (forall c', In c' after ->
     forall feed',
       StructureC.source c' <> StructureC.Content (Some feed')) ->
  StructureC.gtfs_poller_loop url (before ++ c :: after) st
  = {| StructureC.LATEST_DEPARTURES :=
         StructureC.parse_feed feed (StructureC.fetched_at c) |}.
Proof.
  intros Hurl Hc Hafter. unfold StructureC.gtfs_poller_loop.
  destruct url as [|c0 url']; [contradiction|].
  rewrite fold_left_app. cbn [fold_left].
  rewrite gtfs_fold_all_failed.
  - unfold StructureC.poller_cycle, StructureC.fetch_gtfs_rt.
    now rewrite Hc.
  - intros c' Hc'. unfold StructureC.fetch_gtfs_rt.
    specialize (Hafter c' Hc').
    destruct (StructureC.source c') as [| |[feed'|]]; try reflexivity.
    now destruct (Hafter feed').
Qed.

Lemma gtfs_snapshot_is_latest_batch_witness :
  map line
    (StructureC.LATEST_DEPARTURES
       (StructureC.gtfs_poller_loop (py "feed.pb")
          [Samples.unreadable_cycle; Samples.tie_cycle;
           Samples.unreadable_cycle] StructureC.initial_store))
  = [py "B"; py "A"].
Proof.
  assert (Hafter : forall c', In c' [Samples.unreadable_cycle] ->
            forall feed',
              StructureC.source c' <> StructureC.Content (Some feed')).
  { intros c' [<-|[]] feed'. discriminate. }
  pose proof (gtfs_snapshot_is_latest_batch (py "feed.pb")
                [Samples.unreadable_cycle] [Samples.unreadable_cycle]
                Samples.tie_cycle StructureC.initial_store Samples.tie_feed
                ltac:(discriminate) eq_refl Hafter) as H.
  change ([Samples.unreadable_cycle]
          ++ Samples.tie_cycle :: [Samples.unreadable_cycle])
    with [Samples.unreadable_cycle; Samples.tie_cycle;
          Samples.unreadable_cycle] in H.
  rewrite H. vm_compute. reflexivity.
Defined.

(** X20 ([websocket_endpoint] after [gtfs_poller_loop]): while the snapshot
    is not empty the push shows its first 20 records, no record left out is
    due before a record shown, and the random generator is not touched;
    when the snapshot is empty the simulated list takes exactly four draws. *)
Theorem gtfs_push_shows_the_soonest (url : pystr)
  (cycles : list StructureC.Cycle) (g : StructureC.Rng) :
  (StructureC.LATEST_DEPARTURES
     (StructureC.gtfs_poller_loop url cycles StructureC.initial_store) <> []
   -> StructureC.ws_departures
        (StructureC.gtfs_poller_loop url cycles StructureC.initial_store) g
      = (firstn 20
           (StructureC.LATEST_DEPARTURES
              (StructureC.gtfs_poller_loop url cycles
                 StructureC.initial_store)), g)
      /\ forall shown hidden,
           In shown
             (fst (StructureC.ws_departures
                     (StructureC.gtfs_poller_loop url cycles
                        StructureC.initial_store) g)) ->
           In hidden
             (skipn 20
                (StructureC.LATEST_DEPARTURES
                   (StructureC.gtfs_poller_loop url cycles
                      StructureC.initial_store))) ->
           not_later shown hidden)
  /\ (StructureC.LATEST_DEPARTURES
        (StructureC.gtfs_poller_loop url cycles StructureC.initial_store) = []
      -> StructureC.cursor
           (snd (StructureC.ws_departures
                   (StructureC.gtfs_poller_loop url cycles
                      StructureC.initial_store) g))
         = (StructureC.cursor g + 4)%nat
         /\ StructureC.raw
              (snd (StructureC.ws_departures
                      (StructureC.gtfs_poller_loop url cycles
                         StructureC.initial_store) g))
            = StructureC.raw g).
Proof.
  destruct (gtfs_poller_loop_kept_well url cycles) as (_ & Hsorted & _).
  set (st := StructureC.gtfs_poller_loop url cycles StructureC.initial_store)
    in *.
  unfold StructureC.ws_departures. split.
  - intros Hne.
    destruct (StructureC.LATEST_DEPARTURES st) as [|r l] eqn:E;
      [contradiction|].
    split; [reflexivity|]. cbn [fst]. intros shown hidden Hs Hh.
    exact (firstn_skipn_sorted _ 20 _ Hsorted shown hidden Hs Hh).
  - intros ->. apply (simulate_cursor StructureC.base_lines g).
Qed.

Lemma gtfs_push_shows_the_soonest_witness :
  (length
     (fst (StructureC.ws_departures
             (StructureC.gtfs_poller_loop (py "feed.pb")
                [{| StructureC.source :=
                      StructureC.Content
                        (Some (Examples.busy_feed "A" 30));
                    StructureC.fetched_at := 0 |}]
                StructureC.initial_store) Samples.zero_rng)) = 20)%nat
  /\ StructureC.cursor
       (snd (StructureC.ws_departures
               (StructureC.gtfs_poller_loop (py "feed.pb")
                  [Samples.unreadable_cycle] StructureC.initial_store)
               Samples.zero_rng)) = 4%nat.
Proof.
  split.
  - destruct (gtfs_push_shows_the_soonest (py "feed.pb")
                [{| StructureC.source :=
                      StructureC.Content
                        (Some (Examples.busy_feed "A" 30));
                    StructureC.fetched_at := 0 |}] Samples.zero_rng)
      as (H & _).
    rewrite (proj1 (H ltac:(vm_compute; discriminate))).
    vm_compute. reflexivity.
  - destruct (gtfs_push_shows_the_soonest (py "feed.pb")
                [Samples.unreadable_cycle] Samples.zero_rng) as (_ & H).
    exact (proj1 (H eq_refl)).
Defined.

(** X21 ([gtfs_poller_loop], [websocket_endpoint]): a feed that is read and
    decoded but holds no arrival time is a success that empties the
    snapshot, whatever it held; the push channel then shows the four
    simulated lines, exactly as if nothing had ever been fetched. *)
Theorem silent_feed_shows_simulation (url : pystr) (st : StructureC.Store)
  (c : StructureC.Cycle) (feed : StructureC.FeedMessage)
  (g : StructureC.Rng) :
  url <> [] ->
  StructureC.source c = StructureC.Content (Some feed) ->
  (forall e, In e (StructureC.entity feed) ->
     StructureC.entity_departures (StructureC.fetched_at c) e = []) ->
  StructureC.fetch_gtfs_rt url (StructureC.source c)
    (StructureC.fetched_at c) = Some []
  /\ StructureC.poller_cycle url st c = StructureC.initial_store
  /\ StructureC.ws_departures (StructureC.poller_cycle url st c) g
     = StructureC.ws_departures StructureC.initial_store g
  /\ map line
       (fst (StructureC.ws_departures (StructureC.poller_cycle url st c) g))
     = [py "A"; py "B"; py "C"; py "D"].
Proof.
  intros Hurl Hc Hsilent.
  assert (Hbatch : StructureC.parse_feed feed (StructureC.fetched_at c) = []).
  { unfold StructureC.parse_feed.
    replace (flat_map (StructureC.entity_departures (StructureC.fetched_at c))
               (StructureC.entity feed)) with (@nil Departure);
      [reflexivity|].
    symmetry. induction (StructureC.entity feed) as [|e es IH];
      [reflexivity|].
    cbn [flat_map]. rewrite (Hsilent e (or_introl eq_refl)).
    apply IH. intros e' He'. apply Hsilent. now right. }
  assert (Hfetch : StructureC.fetch_gtfs_rt url (StructureC.source c)
                     (StructureC.fetched_at c) = Some []).
  { unfold StructureC.fetch_gtfs_rt. destruct url; [contradiction|].
    now rewrite Hc, Hbatch. }
  assert (Hcycle : StructureC.poller_cycle url st c
                   = StructureC.initial_store).
  { unfold StructureC.poller_cycle. now rewrite Hfetch. }
  rewrite Hcycle. split; [exact Hfetch|]. split; [reflexivity|].
  split; [reflexivity|].
  exact (proj1 (simulate_spec StructureC.base_lines g)).
Qed.

Lemma silent_feed_shows_simulation_witness :
  StructureC.poller_cycle (py "feed.pb")
    {| StructureC.LATEST_DEPARTURES :=
         StructureC.parse_feed Samples.tie_feed 0 |}
    {| StructureC.source := StructureC.Content (Some Examples.silent_feed);
       StructureC.fetched_at := 0 |}
  = StructureC.initial_store
  /\ map line
       (fst (StructureC.ws_departures
               (StructureC.poller_cycle (py "feed.pb")
                  {| StructureC.LATEST_DEPARTURES :=
                       StructureC.parse_feed Samples.tie_feed 0 |}
                  {| StructureC.source :=
                       StructureC.Content (Some Examples.silent_feed);
                     StructureC.fetched_at := 0 |}) Samples.zero_rng))
     = [py "A"; py "B"; py "C"; py "D"].
Proof.
  assert (Hsilent : forall e, In e (StructureC.entity Examples.silent_feed) ->
            StructureC.entity_departures 0 e = []).
  { intros e He. vm_compute in He.
    decompose [or] He; try contradiction; subst e; reflexivity. }
  destruct (silent_feed_shows_simulation (py "feed.pb")
              {| StructureC.LATEST_DEPARTURES :=
                   StructureC.parse_feed Samples.tie_feed 0 |}
              {| StructureC.source :=
                   StructureC.Content (Some Examples.silent_feed);
                 StructureC.fetched_at := 0 |}
              Examples.silent_feed Samples.zero_rng
              ltac:(discriminate) eq_refl Hsilent)
    as (_ & H1 & _ & H2).
  exact (conj H1 H2).
Defined.

(** X22 ([parse_feed_bytes] of [test_gtfs.py] against [fetch_gtfs_rt]): the
    parser of the test script and the parse inside the backend agree up to
    the cut: the backend's batch is the first 50 records of the script's
    list, the two are equal for a feed of at most 50 entities, and the
    script's list has no more records than the feed has entities. *)
Theorem test_parser_agrees_with_backend (feed : StructureC.FeedMessage)
  (now_ts : Z) :
  StructureC.parse_feed feed now_ts
  = firstn 50 (ToolsC.parse_feed_bytes feed now_ts)
  /\ (length (ToolsC.parse_feed_bytes feed now_ts)
      <= length (StructureC.entity feed))%nat
  /\ ((length (StructureC.entity feed) <= 50)%nat ->
      ToolsC.parse_feed_bytes feed now_ts = StructureC.parse_feed feed now_ts)
  /\ (forall url,
        url <> [] ->
        StructureC.fetch_gtfs_rt url (StructureC.Content (Some feed)) now_ts
        = Some (firstn 50 (ToolsC.parse_feed_bytes feed now_ts))).
Proof.
  assert (Hlen : (length (ToolsC.parse_feed_bytes feed now_ts)
                  <= length (StructureC.entity feed))%nat).
  { unfold ToolsC.parse_feed_bytes.
    rewrite stable_sort_length, entities_loop_flat_map.
    apply flat_map_entity_length. }
  split; [apply parse_feed_bytes_firstn|].
  split; [exact Hlen|]. split.
  - intros Hsmall. rewrite parse_feed_bytes_firstn.
    symmetry. apply firstn_all2. lia.
  - intros url Hurl. unfold StructureC.fetch_gtfs_rt.
    destruct url; [contradiction|]. now rewrite parse_feed_bytes_firstn.
Qed.

Lemma test_parser_agrees_with_backend_witness :
  length (ToolsC.parse_feed_bytes (Examples.busy_feed "A" 60) 0) = 60%nat
  /\ length (StructureC.parse_feed (Examples.busy_feed "A" 60) 0) = 50%nat
  /\ ToolsC.parse_feed_bytes Samples.tie_feed 0
     = StructureC.parse_feed Samples.tie_feed 0.
Proof.
  split; [vm_compute; reflexivity|].
  split; [vm_compute; reflexivity|].
  apply (test_parser_agrees_with_backend Samples.tie_feed 0).
  vm_compute. lia.
Defined.

(** X23 ([mock_feed.py] of structure C, read by [fetch_gtfs_rt]): the feed
    the script writes while its clock [time.time()] stands at [written]
    parses to exactly one record, line X with destination X (the feed names
    no headsign).  Read while the clock stands at [read] on a host whose
    zone is [offset] seconds east of UTC, it is due in
    [max(0, floor((written + 120 - read + offset) / 60))] minutes: read in
    the second it was written, in 2 minutes on a host on UTC and in
    [floor((120 + offset) / 60)] otherwise, 62 an hour east of UTC. *)
Theorem mock_feed_parses_to_one_departure (url : pystr)
  (zone : StructureC.HostZone) (written read : Z) :
  url <> [] -> 0 <= written < 2 ^ 40 -> 0 <= read ->
  -86400 <= zone read <= 86400 ->
  exists m,
    StructureC.fetch_gtfs_rt url
      (StructureC.Content (Some (ToolsC.mock_feed written)))
      (StructureC.utcnow_timestamp zone read)
    = Some [{| line := py "X"; dest := py "X"; in_min := m;
               t_utc := None |}]
    /\ ToolsC.parse_feed_bytes (ToolsC.mock_feed written)
         (StructureC.utcnow_timestamp zone read)
       = [{| line := py "X"; dest := py "X"; in_min := m; t_utc := None |}]
    /\ m = Z.max 0 ((written + 120 - read + zone read) / 60)
    /\ (read = written -> zone read = 0 -> m = 2)
    /\ (read = written -> zone read = 3600 -> m = 62)
    /\ (read = written -> m = Z.max 0 ((120 + zone read) / 60)).
Proof.
  intros Hurl Hw Hr Hz.
  exists (Z.max 0 ((written + 120 - read + zone read) / 60)).
  assert (Hparse : ToolsC.parse_feed_bytes (ToolsC.mock_feed written)
                     (StructureC.utcnow_timestamp zone read)
                   = [{| line := py "X"; dest := py "X";
                         in_min :=
                           Z.max 0 ((written + 120 - read + zone read) / 60);
                         t_utc := None |}]).
  { unfold ToolsC.parse_feed_bytes, ToolsC.mock_feed,
      StructureC.utcnow_timestamp.
    cbn [StructureC.entity ToolsC.entities_loop StructureC.trip_update
         StructureC.trip StructureC.route_id StructureC.trip_headsign
         StructureC.stop_time_update ToolsC.stop_time_updates_loop
         StructureC.arrival StructureC.time app].
    destruct (Z.eqb_spec (written + 120) 0) as [?|_]; [lia|].
    rewrite true_divide_minutes by lia.
    replace (written + 120 - (read - zone read))
      with (written + 120 - read + zone read) by lia.
    reflexivity. }
  split; [|split; [exact Hparse|]].
  - unfold StructureC.fetch_gtfs_rt. destruct url; [contradiction|].
    rewrite parse_feed_bytes_firstn, Hparse. reflexivity.
  - split; [reflexivity|]. split; [|split].
    + intros -> Hz0. rewrite Hz0.
      replace (written + 120 - written + 0) with 120 by lia. reflexivity.
    + intros -> Hz1. rewrite Hz1.
      replace (written + 120 - written + 3600) with 3720 by lia.
      reflexivity.
    + intros ->. f_equal. f_equal. lia.
Qed.

Lemma mock_feed_parses_to_one_departure_witness :
  StructureC.fetch_gtfs_rt (py "/tmp/feed.pb")
    (StructureC.Content (Some (ToolsC.mock_feed Hosts.clock)))
    (StructureC.utcnow_timestamp Hosts.prague Hosts.clock)
  = Some [{| line := py "X"; dest := py "X"; in_min := 62; t_utc := None |}]
  /\ StructureC.fetch_gtfs_rt (py "/tmp/feed.pb")
       (StructureC.Content (Some (ToolsC.mock_feed Hosts.clock)))
       (StructureC.utcnow_timestamp Hosts.utc (Hosts.clock + 30))
     = Some [{| line := py "X"; dest := py "X"; in_min := 1;
                t_utc := None |}].
Proof.
  destruct (mock_feed_parses_to_one_departure (py "/tmp/feed.pb")
              Hosts.prague Hosts.clock Hosts.clock ltac:(discriminate)
              ltac:(vm_compute; split; [discriminate | reflexivity])
              ltac:(vm_compute; discriminate)
              ltac:(vm_compute; split; discriminate))
    as (m & Hfetch & _ & _ & _ & Hm & _).
  destruct (mock_feed_parses_to_one_departure (py "/tmp/feed.pb")
              Hosts.utc Hosts.clock (Hosts.clock + 30) ltac:(discriminate)
              ltac:(vm_compute; split; [discriminate | reflexivity])
              ltac:(vm_compute; discriminate)
              ltac:(vm_compute; split; discriminate))
    as (m' & Hfetch' & _ & Hm' & _).
  split.
  - rewrite Hfetch, (Hm eq_refl eq_refl). reflexivity.
  - rewrite Hfetch', Hm'. reflexivity.
Defined.

(** X24 ([run] of [test_gtfs.py]): without a locator the script reports that
    it is not set; for a [file://] locator or an existing path it reports
    whatever the file parses to, an empty list included, and a file it
    cannot read or decode as failed; for any other locator it goes through
    [fetch_gtfs_rt] and reports an empty batch as failed although the fetch
    succeeded, and at most 50 records otherwise. *)
Theorem test_run_reports (url : pystr) (on_disk : bool)
  (feed : StructureC.FeedMessage) (now_ts : Z) :
  ToolsC.run [] on_disk (StructureC.Content (Some feed)) now_ts
  = ToolsC.NotSet
  /\ (url <> [] ->
      str_startswith (py "file://") url || on_disk = true ->
      ToolsC.run url on_disk (StructureC.Content (Some feed)) now_ts
      = ToolsC.OkLocal (length (ToolsC.parse_feed_bytes feed now_ts))
          (firstn 10 (ToolsC.parse_feed_bytes feed now_ts))
      /\ ToolsC.run url on_disk StructureC.NotFound now_ts = ToolsC.Failed
      /\ ToolsC.run url on_disk StructureC.ReadFailed now_ts = ToolsC.Failed
      /\ ToolsC.run url on_disk (StructureC.Content None) now_ts
         = ToolsC.Failed)
  /\ (url <> [] ->
      str_startswith (py "file://") url || on_disk = false ->
      (StructureC.parse_feed feed now_ts = [] ->
       StructureC.fetch_gtfs_rt url (StructureC.Content (Some feed)) now_ts
       = Some []
       /\ ToolsC.run url on_disk (StructureC.Content (Some feed)) now_ts
          = ToolsC.Failed)
      /\ (StructureC.parse_feed feed now_ts <> [] ->
          ToolsC.run url on_disk (StructureC.Content (Some feed)) now_ts
          = ToolsC.OkHttp (length (StructureC.parse_feed feed now_ts))
              (firstn 10 (StructureC.parse_feed feed now_ts))
          /\ (length (StructureC.parse_feed feed now_ts) <= 50)%nat)
      /\ ToolsC.run url on_disk StructureC.NotFound now_ts = ToolsC.Failed
      /\ ToolsC.run url on_disk (StructureC.Content None) now_ts
         = ToolsC.Failed).
Proof.
  split; [reflexivity|]. split.
  - intros Hurl Hlocal. unfold ToolsC.run.
    destruct url as [|c0 url']; [contradiction|].
    rewrite Hlocal. repeat split.
  - intros Hurl Hremote. unfold ToolsC.run.
    destruct url as [|c0 url']; [contradiction|].
    rewrite Hremote. cbn [StructureC.fetch_gtfs_rt].
    split; [|split; [|split; reflexivity]].
    + intros ->. split; reflexivity.
    + intros Hne. split; [|apply parse_feed_length].
      destruct (StructureC.parse_feed feed now_ts); [contradiction|].
      reflexivity.
Qed.

Lemma test_run_reports_witness :
  ToolsC.run (py "file:///tmp/feed.pb") false
    (StructureC.Content (Some Examples.silent_feed)) 0
  = ToolsC.OkLocal 0 []
  /\ ToolsC.run (py "https://example.org/feed.pb") false
       (StructureC.Content (Some Examples.silent_feed)) 0
     = ToolsC.Failed
  /\ StructureC.fetch_gtfs_rt (py "https://example.org/feed.pb")
       (StructureC.Content (Some Examples.silent_feed)) 0 = Some [].
Proof.
  destruct (test_run_reports (py "file:///tmp/feed.pb") false
              Examples.silent_feed 0) as (_ & Hlocal & _).
  destruct (test_run_reports (py "https://example.org/feed.pb") false
              Examples.silent_feed 0) as (_ & _ & Hremote).
  destruct (Hlocal ltac:(discriminate) eq_refl) as (H1 & _).
  destruct (Hremote ltac:(discriminate) eq_refl) as (H2 & _).
  destruct (H2 eq_refl) as (Hfetch & Hrun).
  split; [exact H1|]. split; [exact Hrun | exact Hfetch].
Defined.

(** X25 ([api_latest] of both backends, after their pollers): the answer
    carries the snapshot and its length as [count]; in structure A the list
    is in display order and empty while every cycle has failed; in
    structure C it is sorted by minutes and [count] never exceeds 50. *)
Theorem latest_endpoint_counts_the_snapshot {RT : PyRuntime}
  (cfg : StructureA.Config) (cycles : list StructureA.Cycle) (url : pystr)
  (cycles' : list StructureC.Cycle) :
  (exists records,
     EndpointsA.api_latest
       (StructureA.poller_loop cfg cycles StructureA.initial_store)
     = JObj [(py "count", JInt (Z.of_nat (length records)));
             (py "departures", JArr (map departure_json records))]
     /\ StronglySorted in_display_order records
     /\ ((forall c, In c cycles -> succeeded cfg c = false) ->
         records = []))
  /\ (exists records,
        ToolsC.api_latest
          (StructureC.gtfs_poller_loop url cycles' StructureC.initial_store)
        = JObj [(py "count", JInt (Z.of_nat (length records)));
                (py "departures", JArr (map departure_json records))]
        /\ StronglySorted not_later records
        /\ 0 <= Z.of_nat (length records) <= 50).
Proof.
  split.
  - exists (StructureA.LATEST_DEPARTURES
              (StructureA.poller_loop cfg cycles StructureA.initial_store)).
    split; [reflexivity|]. split.
    + apply (poller_loop_kept_well cfg cycles).
    + intros Hall. now rewrite (poller_loop_all_failed cfg cycles _ Hall).
  - exists (StructureC.LATEST_DEPARTURES
              (StructureC.gtfs_poller_loop url cycles'
                 StructureC.initial_store)).
    destruct (gtfs_poller_loop_kept_well url cycles') as (Hlen & Hs & _).
    split; [reflexivity|]. split; [exact Hs | lia].
Qed.

(* ------------------------------------------------------------------ *)
(** ** Both structures: what a batch keeps and what loses it *)

Section BatchFacts.
Context {RT : PyRuntime}.
Import StructureA.

Lemma normalize_loop_raises_In (metro_line : pystr) (now : instant)
  (deps : list json) (bad : json) (e : exn) :
  In bad deps -> normalize_entry metro_line now bad = Raise e ->
  exists e', normalize_loop metro_line now deps = Raise e'.
Proof.
  induction deps as [|dep deps IH]; [intros []|].
  intros [->|Hin] Hbad; cbn [normalize_loop].
  - rewrite Hbad. now exists e.
  - destruct (normalize_entry metro_line now dep) as [o|e0];
      [|now exists e0].
    destruct (IH Hin Hbad) as (e' & He'). rewrite He'. now exists e'.
Qed.

Lemma normalize_loop_keeps (metro_line : pystr) (now : instant)
  (deps : list json) (out : list Departure) (dep : json) (r : Departure) :
  normalize_loop metro_line now deps = Ok out ->
  In dep deps -> normalize_entry metro_line now dep = Ok (Some r) ->
  In r out.
Proof.
  revert out. induction deps as [|dep0 deps IH]; intros out H Hin Hr;
    [destruct Hin|].
  cbn [normalize_loop] in H.
  apply bind_inv in H. destruct H as (o & Ho & H).
  apply bind_inv in H. destruct H as (out' & Hout' & H).
  injection H as <-. destruct Hin as [->|Hin].
  - rewrite Hr in Ho. injection Ho as <-. now left.
  - specialize (IH out' Hout' Hin Hr). destruct o; [now right | exact IH].
Qed.

Lemma normalize_entry_kept (metro_line : pystr) (now : instant) (dep : json)
  (d : pystr) (t : instant) :
  entry_line_of dep = Ok metro_line -> entry_dest_of dep = Ok d ->
  entry_timestamp dep = Ok (Some t) ->
  normalize_entry metro_line now dep
  = match _minutes_until (Some t) now with
    | Some m =>
        Ok (Some {| line := metro_line; dest := d; in_min := m;
                    t_utc := Some (isoformat (aware_utc t)) |})
    | None => Ok None
    end.
Proof.
  intros Hl Hd Ht. rewrite normalize_entry_staged, Hl. cbn [bind].
  replace (str_eqb metro_line metro_line) with true
    by (symmetry; now apply str_eqb_eq).
  cbn [negb]. rewrite Hd, Ht. reflexivity.
Qed.

End BatchFacts.

(** X26 ([normalize_departureboards], [fetch_golemio_departures],
    [poller_loop]): one entry of the board on which the loop raises (an
    entry that is no object, for one) loses the whole batch, however many
    good entries stand beside it: the fetch gives nothing and the poller
    keeps the snapshot and the last-success instant it had. *)
Theorem one_bad_entry_loses_the_batch {RT : PyRuntime}
  (cfg : StructureA.Config) (st : StructureA.Store) (c : StructureA.Cycle)
  (deps : list json) (bad : json) (e : exn) :
  StructureA.answer c = StructureA.Body (departure_board deps) ->
  In bad deps ->
  StructureA.normalize_entry
    (str_upper (str_strip StructureA.METRO_LINE)) (StructureA.fetched_at c)
    bad = Raise e ->
  (exists e',
     StructureA.normalize_departureboards (departure_board deps)
       StructureA.METRO_LINE (StructureA.fetched_at c) = Raise e')
  /\ StructureA.fetch_golemio_departures cfg (StructureA.answer c)
       (StructureA.fetched_at c) = None
  /\ StructureA.poller_cycle cfg st c = st
  /\ forall entry, (forall m, entry <> JObj m) ->
       StructureA.normalize_entry
         (str_upper (str_strip StructureA.METRO_LINE))
         (StructureA.fetched_at c) entry = Raise AttributeError.
Proof.
  intros Hanswer Hin Hbad.
  destruct (normalize_loop_raises_In _ _ deps bad e Hin Hbad) as (e' & He').
  assert (Hraise : StructureA.normalize_departureboards
                     (departure_board deps) StructureA.METRO_LINE
                     (StructureA.fetched_at c) = Raise e').
  { rewrite normalize_board, He'. reflexivity. }
  assert (Hfetch : StructureA.fetch_golemio_departures cfg
                     (StructureA.answer c) (StructureA.fetched_at c) = None).
  { unfold StructureA.fetch_golemio_departures. rewrite Hanswer, Hraise.
    now destruct (StructureA.API_KEY cfg). }
  split; [now exists e'|]. split; [exact Hfetch|]. split.
  - unfold StructureA.poller_cycle. now rewrite Hfetch.
  - intros entry Hno. destruct entry; try reflexivity. now destruct (Hno m).
Qed.

Lemma one_bad_entry_loses_the_batch_witness :
  StructureA.fetch_golemio_departures (RT := Reference.runtime)
    Samples.config
    (StructureA.Body
       (departure_board
          [Samples.board_entry "A" "Skalka" "2099-01-01T10:07:30Z"; JInt 3]))
    Samples.ten_o_clock = None.
Proof.
  destruct (one_bad_entry_loses_the_batch (RT := Reference.runtime)
              Samples.config StructureA.initial_store
              {| StructureA.answer :=
                   StructureA.Body
                     (departure_board
                        [Samples.board_entry "A" "Skalka"
                           "2099-01-01T10:07:30Z"; JInt 3]);
                 StructureA.fetched_at := Samples.ten_o_clock;
                 StructureA.stored_at := Samples.ten_o_clock |}
              [Samples.board_entry "A" "Skalka" "2099-01-01T10:07:30Z";
               JInt 3] (JInt 3) AttributeError eq_refl
              (or_intror (or_introl eq_refl)) eq_refl) as (_ & H & _).
  exact H.
Defined.

(** X27 ([normalize_departureboards] and the parse of [fetch_gtfs_rt]):
    neither parser drops a departure for being in the past.  In any batch
    of the JSON variant, an entry of the line whose timestamp lies before
    the clock, or less than a minute after it, has its record in the batch,
    with 0 minutes.  In the binary variant, a trip whose first arrival time
    is [ts] has its record in the list before the cut, and in the batch
    when the feed has at most 50 entities, whatever [ts] is; the record
    has 0 minutes when [ts] lies less than a minute after the reading the
    backend takes for now, which is the clock moved by the zone of the
    host. *)
Theorem past_departures_stay_on_the_board {RT : PyRuntime}
  (payload : json) (metro_line : pystr) (now : instant)
  (feed : StructureC.FeedMessage) (zone : StructureC.HostZone) (clock : Z) :
  (forall out deps dep d t,
     StructureA.normalize_departureboards payload metro_line now = Ok out ->
     StructureA.payload_departures payload = Ok deps ->
     In dep deps ->
     entry_line_of dep = Ok (str_upper (str_strip metro_line)) ->
     entry_dest_of dep = Ok d ->
     entry_timestamp dep = Ok (Some t) ->
     t < now + 60 * US_PER_SECOND ->
     In {| line := str_upper (str_strip metro_line); dest := d;
           in_min := 0; t_utc := Some (isoformat (aware_utc t)) |} out)
  /\ (forall e tu skipped stu rest ts,
        In e (StructureC.entity feed) ->
        StructureC.trip_update e = Some tu ->
        StructureC.stop_time_update tu = skipped ++ stu :: rest ->
        Forall (fun s => StructureC.arrival_time s = None) skipped ->
        StructureC.arrival_time stu = Some ts ->
        In (StructureC.departure_of
              (str_prefix 10 (StructureC.route_id (StructureC.trip tu)))
              (StructureC.trip_headsign (StructureC.trip tu))
              (StructureC.utcnow_timestamp zone clock) ts)
          (ToolsC.parse_feed_bytes feed
             (StructureC.utcnow_timestamp zone clock))
        /\ ((length (StructureC.entity feed) <= 50)%nat ->
            In (StructureC.departure_of
                  (str_prefix 10 (StructureC.route_id (StructureC.trip tu)))
                  (StructureC.trip_headsign (StructureC.trip tu))
                  (StructureC.utcnow_timestamp zone clock) ts)
              (StructureC.parse_feed feed
                 (StructureC.utcnow_timestamp zone clock)))
        /\ (ts < StructureC.utcnow_timestamp zone clock + 60 ->
            in_min
              (StructureC.departure_of
                 (str_prefix 10 (StructureC.route_id (StructureC.trip tu)))
                 (StructureC.trip_headsign (StructureC.trip tu))
                 (StructureC.utcnow_timestamp zone clock) ts) = 0)).
Proof.
  split.
  - intros out deps dep d t Hout Hdeps Hin Hl Hd Ht Hpast.
    unfold StructureA.normalize_departureboards in Hout.
    rewrite Hdeps in Hout. cbn [bind] in Hout.
    apply bind_inv in Hout. destruct Hout as (raw & Hraw & Hout).
    injection Hout as <-. apply stable_sort_In.
    apply (normalize_loop_keeps _ now deps raw dep _ Hraw Hin).
    rewrite (normalize_entry_kept _ now dep d t Hl Hd Ht).
    replace (StructureA._minutes_until (Some t) now) with (Some 0);
      [reflexivity|].
    rewrite minutes_until_exact by (unfold US_PER_SECOND in *; lia).
    f_equal. unfold US_PER_SECOND in *.
    destruct (Z.le_gt_cases 0 (t - now)) as [Hpos|Hneg].
    + rewrite Z.div_small by lia. reflexivity.
    + assert ((t - now) / (60 * 1000000) < 0)
        by (apply Z.div_lt_upper_bound; lia).
      lia.
  - intros e tu skipped stu rest ts He Htu Hstus Hskip Harr.
    set (now_ts := StructureC.utcnow_timestamp zone clock).
    assert (Hbytes : In (StructureC.departure_of
                           (str_prefix 10
                              (StructureC.route_id (StructureC.trip tu)))
                           (StructureC.trip_headsign (StructureC.trip tu))
                           now_ts ts)
                       (ToolsC.parse_feed_bytes feed now_ts)).
    { unfold ToolsC.parse_feed_bytes. apply stable_sort_In.
      rewrite entities_loop_flat_map. apply in_flat_map.
      exists e. split; [exact He|].
      unfold StructureC.entity_departures. rewrite Htu, Hstus.
      rewrite (first_arrival_first _ _ now_ts skipped rest stu ts Hskip Harr).
      now left. }
    split; [exact Hbytes|]. split.
    + intros Hsmall.
      now rewrite (parse_feed_bytes_small feed now_ts Hsmall) in Hbytes.
    + intros Hpast. rewrite departure_of_minutes by lia.
      destruct (Z.le_gt_cases 0 (ts - now_ts)) as [Hpos|Hneg].
      * rewrite Z.div_small by lia. reflexivity.
      * assert ((ts - now_ts) / 60 < 0)
          by (apply Z.div_lt_upper_bound; lia).
        lia.
Qed.

Lemma past_departures_stay_on_the_board_witness :
  (exists r,
     In r [{| line := py "A"; dest := py "Skalka"; in_min := 0;
              t_utc := Some (py "2020-01-01T10:00:00+00:00") |}]
     /\ exists out,
          StructureA.normalize_departureboards (RT := Reference.runtime)
            (departure_board
               [Samples.board_entry "A" "Depo" "2099-01-01T10:07:30Z";
                Samples.board_entry "A" "Skalka" "2020-01-01T10:00:00Z"])
            (py "A") Samples.ten_o_clock = Ok out
          /\ In r out)
  /\ In (StructureC.departure_of (py "A") None
           (StructureC.utcnow_timestamp Hosts.prague Hosts.clock) 5)
       (StructureC.parse_feed
          {| StructureC.entity :=
               [Samples.trip_entity "B" [Hosts.clock + 600];
                Samples.trip_entity "A" [0; 5; Hosts.clock]] |}
          (StructureC.utcnow_timestamp Hosts.prague Hosts.clock))
  /\ in_min
       (StructureC.departure_of (py "A") None
          (StructureC.utcnow_timestamp Hosts.prague Hosts.clock) 5) = 0.
Proof.
  destruct (past_departures_stay_on_the_board (RT := Reference.runtime)
              (departure_board
                 [Samples.board_entry "A" "Depo" "2099-01-01T10:07:30Z";
                  Samples.board_entry "A" "Skalka" "2020-01-01T10:00:00Z"])
              (py "A") Samples.ten_o_clock
              {| StructureC.entity :=
                   [Samples.trip_entity "B" [Hosts.clock + 600];
                    Samples.trip_entity "A" [0; 5; Hosts.clock]] |}
              Hosts.prague Hosts.clock) as (HA & HC).
  split.
  - eexists. split; [left; reflexivity|].
    eexists. split; [vm_compute; reflexivity|].
    match goal with
    | |- In _ ?out =>
        apply (HA out
                 [Samples.board_entry "A" "Depo" "2099-01-01T10:07:30Z";
                  Samples.board_entry "A" "Skalka" "2020-01-01T10:00:00Z"]
                 (Samples.board_entry "A" "Skalka" "2020-01-01T10:00:00Z")
                 (py "Skalka") (1577872800 * US_PER_SECOND))
    end; try (vm_compute; reflexivity).
    right. left. reflexivity.
  - destruct (HC (Samples.trip_entity "A" [0; 5; Hosts.clock])
                {| StructureC.trip :=
                     {| StructureC.route_id := py "A";
                        StructureC.trip_headsign := None |};
                   StructureC.stop_time_update :=
                     map (fun t =>
                            {| StructureC.arrival :=
                                 Some {| StructureC.time := t |} |})
                       [0; 5; Hosts.clock] |}
                [{| StructureC.arrival := Some {| StructureC.time := 0 |} |}]
                {| StructureC.arrival := Some {| StructureC.time := 5 |} |}
                [{| StructureC.arrival :=
                      Some {| StructureC.time := Hosts.clock |} |}]
                5) as (_ & Hin & Hzero).
    + right. left. reflexivity.
    + reflexivity.
    + reflexivity.
    + repeat constructor.
    + reflexivity.
    + split; [apply Hin; vm_compute; lia|].
      apply Hzero. vm_compute. reflexivity.
Defined.
